(** * Harlow: surrogate models and benchmark target functions

    A shallow embedding of the Python sources

    - [tests/integration_tests/test_functions.py] (benchmark target functions),
    - [harlow/surrogate_model.py] (first generation of surrogates),
    - [harlow/surrogating/surrogate_model.py] (second generation),

    followed by the properties established for them.

    Conventions.  Floating-point numbers are read in two ways.  In the
    modules [np] and [test_functions] they are idealised as real numbers
    ([R]): a statement made there is about the value of an expression in
    exact arithmetic, and every operation on which IEEE arithmetic would
    produce [nan] or an infinity (division by zero, mean of an empty axis,
    root of a negative number) leaves the model through the outcome
    [Raise NotModelled] instead of inventing a real value.  In the module
    [f64], and for the Python floats of the training loop, they are the
    IEEE binary64 numbers the code computes with ([float], the kernel's
    primitive type), rounding, infinities and [nan] included.  Python
    exceptions are values of [exn]; a computation that can raise returns a
    [result]. *)

From Stdlib Require Import Floats Uint63.
From Stdlib Require Import Reals Lra Lia List ZArith Ascii String.
From stdpp Require Import gmap strings.

Set Warnings "-inexact-float".

#[local] Open Scope R_scope.

(* ===================================================================== *)
(** * Part I.  Definitions                                                 *)
(* ===================================================================== *)

(** ** Exceptions and results *)

Inductive exn : Type :=
| ValueError
| IndexError
| AttributeError
| TypeError
| UnboundLocalError
| LibraryError      (* raised from inside an external library call *)
| NotModelled.      (* the run leaves the idealised model (nan, inf, N-d stretching) *)

Inductive result (A : Type) : Type :=
| Ok (a : A)
| Raise (e : exn).
Arguments Ok {A} a.
Arguments Raise {A} e.

#[global] Instance result_ret : MRet result := λ A, Ok.
#[global] Instance result_bind : MBind result :=
  λ A B f m, match m with Ok a => f a | Raise e => Raise e end.

#[global] Instance Rle_decision (x y : R) : Decision (x <= y) := Rle_dec x y.
#[global] Instance Rlt_decision (x y : R) : Decision (x < y) := Rlt_dec x y.
#[global] Instance Req_decision : EqDecision R := Req_dec_T.

(** ** NumPy arrays

    An array is its shape and its elements in row-major order, as NumPy
    stores a C-contiguous array. A Python float used as an operand is the
    0-dimensional array [scalar r]. *)

Module np.

Record ndarray : Type := mk_nd { shape : list nat; data : list R }.

Definition ndim (a : ndarray) : nat := length (shape a).
Definition numel (s : list nat) : nat := fold_right Nat.mul 1%nat s.
Definition wf (a : ndarray) : Prop := length (data a) = numel (shape a).

Definition scalar (r : R) : ndarray := mk_nd [] [r].
Definition item (a : ndarray) : R := hd 0 (data a).
Definition array1 (l : list R) : ndarray := mk_nd [length l] l.
Definition zeros1 (n : nat) : ndarray := mk_nd [n] (repeat 0 n).

(** The vector [f 0, ..., f (n-1)]; every vector has this form. *)
Definition tabulate (n : nat) (f : nat → R) : ndarray :=
  mk_nd [n] (map f (seq 0 n)).

(** [a.shape[0]] *)
Definition shape0 (a : ndarray) : result nat :=
  match shape a with
  | [] => Raise IndexError
  | n :: _ => Ok n
  end.

(** Element-wise application of a unary function. *)
Definition umap (f : R → R) (a : ndarray) : ndarray :=
  mk_nd (shape a) (map f (data a)).

(** Element-wise binary operation with broadcasting. The operand shapes
    that occur in this repository are covered: a scalar against any array,
    two arrays of one shape, a one-element vector against any array; two
    vectors of different lengths are NumPy's "operands could not be
    broadcast" [ValueError]. *)
Definition broadcast (f : R → R → R) (a b : ndarray) : result ndarray :=
  match shape a, shape b with
  | [], _ => Ok (mk_nd (shape b) (map (f (item a)) (data b)))
  | _, [] => Ok (mk_nd (shape a) (map (λ x, f x (item b)) (data a)))
  | sa, sb =>
      if decide (sa = sb) then Ok (mk_nd sa (zip_with f (data a) (data b)))
      else if decide (sa = [1%nat]) then Ok (mk_nd sb (map (f (item a)) (data b)))
      else if decide (sb = [1%nat]) then Ok (mk_nd sa (map (λ x, f x (item b)) (data a)))
      else if decide (ndim a = 1%nat ∧ ndim b = 1%nat) then Raise ValueError
      else Raise NotModelled
  end.

Definition add := broadcast Rplus.
Definition subtract := broadcast Rminus.
Definition multiply := broadcast Rmult.

(** [a / b]: a zero denominator gives [inf] or [nan] in NumPy. *)
Definition divide (a b : ndarray) : result ndarray :=
  if decide (Forall (λ v, v ≠ 0) (data b)) then broadcast Rdiv a b
  else Raise NotModelled.

Definition negative (a : ndarray) : ndarray := umap Ropp a.

(** [np.power(a, n)] and [a ** n] for a non-negative integer exponent. *)
Definition power (a : ndarray) (n : nat) : ndarray := umap (λ v, v ^ n) a.

Definition cos (a : ndarray) : ndarray := umap Rtrigo_def.cos a.
Definition exp (a : ndarray) : ndarray := umap Rtrigo_def.exp a.

(** [np.sqrt]: [nan] on a negative element. *)
Definition sqrt (a : ndarray) : result ndarray :=
  if decide (Forall (λ v, 0 <= v) (data a)) then Ok (umap R_sqrt.sqrt a)
  else Raise NotModelled.

(** [np.atleast_2d] *)
Definition atleast_2d (a : ndarray) : ndarray :=
  match shape a with
  | [] => mk_nd [1%nat; 1%nat] (data a)
  | [n] => mk_nd [1%nat; n] (data a)
  | _ => a
  end.

(** [X[:, j]] on a matrix: one element per row. *)
Definition column (X : ndarray) (j : nat) : result ndarray :=
  match shape X with
  | [] | [_] => Raise IndexError
  | [n; m] =>
      if decide (j < m)%nat
      then Ok (mk_nd [n] (map (λ i, nth (i * m + j)%nat (data X) 0) (seq 0 n)))
      else Raise IndexError
  | _ => Raise NotModelled
  end.

(** The rows of an [n]-by-[m] matrix stored row-major. *)
Fixpoint rows (n m : nat) (l : list R) : list (list R) :=
  match n with
  | O => []
  | S n' => firstn m l :: rows n' m (skipn m l)
  end.

Definition rsum (l : list R) : R := fold_right Rplus 0 l.
Definition mean_list (l : list R) : R := rsum l / INR (length l).

(** [np.mean(a, axis=1)] on a matrix; the mean over an empty axis is [nan]. *)
Definition mean_axis1 (a : ndarray) : result ndarray :=
  match shape a with
  | [] | [_] => Raise ValueError      (* numpy.AxisError, a ValueError *)
  | [n; m] =>
      if decide (m = 0%nat) then Raise NotModelled
      else Ok (mk_nd [n] (map mean_list (rows n m (data a))))
  | _ => Raise NotModelled
  end.

(** [np.column_stack((x, y))] for two vectors of one length. *)
Definition column_stack2 (x y : list R) : ndarray :=
  mk_nd [length x; 2%nat] (concat (zip_with (λ a b, [a; b]) x y)).

(** [X[:, js]]: the matrix made of the columns [js] of [X], in that order. *)
Definition take_columns (X : ndarray) (js : list nat) : result ndarray :=
  match shape X with
  | [n; m] =>
      if decide (Forall (λ j, j < m)%nat js)
      then Ok (mk_nd [n; length js]
                 (concat (map (λ i, map (λ j, nth (i * m + j)%nat (data X) 0) js)
                            (seq 0 n))))
      else Raise IndexError
  | [] | [_] => Raise IndexError
  | _ => Raise NotModelled
  end.

(** [np.zeros(shape=(n, m))] *)
Definition zeros2 (n m : nat) : ndarray := mk_nd [n; m] (repeat 0 (n * m)).

(** [np.reshape(a, (n))] *)
Definition reshape1 (a : ndarray) (n : nat) : result ndarray :=
  if decide (length (data a) = n) then Ok (mk_nd [n] (data a))
  else Raise ValueError.

(** [np.expand_dims(a, axis=0)] *)
Definition expand_dims0 (a : ndarray) : ndarray := mk_nd (1%nat :: shape a) (data a).

(** [a[:, i] = v] for a matrix [a] and a vector [v] with one entry per row. *)
Definition set_column (a : ndarray) (i : nat) (v : ndarray) : result ndarray :=
  match shape a with
  | [n; m] =>
      if decide (i < m)%nat then
        if decide (shape v = [n])
        then Ok (mk_nd [n; m]
                   (concat (zip_with (λ row x, <[i := x]> row)
                              (rows n m (data a)) (data v))))
        else Raise ValueError
      else Raise IndexError
  | _ => Raise IndexError
  end.

Definition std_list (l : list R) : R :=
  R_sqrt.sqrt (mean_list (map (λ x, (x - mean_list l) ^ 2) l)).

(** [np.std(a, axis=1)] on a matrix. *)
Definition std_axis1 (a : ndarray) : result ndarray :=
  match shape a with
  | [] | [_] => Raise ValueError
  | [n; m] =>
      if decide (m = 0%nat) then Raise NotModelled
      else Ok (mk_nd [n] (map std_list (rows n m (data a))))
  | _ => Raise NotModelled
  end.

Definition sin (a : ndarray) : ndarray := umap Rtrigo_def.sin a.

End np.

Abbreviation ndarray := np.ndarray.

(** Arithmetic on expressions that may already have raised: operands are
    evaluated left to right, as Python does. *)
Definition lift2 (op : ndarray → ndarray → result ndarray)
    (x y : result ndarray) : result ndarray :=
  a ← x; b ← y; op a b.

(** A NumPy function applied to an expression that may already have raised. *)
Definition lift1 (f : ndarray → ndarray) (x : result ndarray) : result ndarray :=
  a ← x; Ok (f a).

Declare Scope np_scope.
Delimit Scope np_scope with np.
Notation "x + y" := (lift2 np.add x y) : np_scope.
Notation "x - y" := (lift2 np.subtract x y) : np_scope.
Notation "x * y" := (lift2 np.multiply x y) : np_scope.
Notation "x / y" := (lift2 np.divide x y) : np_scope.
Notation "! a" := (Ok a) (at level 9, a at level 9, only parsing) : np_scope.
Notation "# r" := (Ok (np.scalar r)) (at level 9, r at level 9, only parsing) : np_scope.

(** ** Benchmark target functions ([test_functions.py]) *)

Module test_functions.

(** [ackley_nd(x_mx, a=20.0, b=0.2, c=2*np.pi)] *)
Definition ackley_nd (x_mx : ndarray) (a b c : R) : result ndarray :=
  let x_mx := np.atleast_2d x_mx in
  m1 ← np.mean_axis1 (np.power x_mx 2);
  r1 ← np.sqrt m1;
  e1 ← (#(- b) * !r1)%np;
  t1 ← (#(- a) * !(np.exp e1))%np;
  cx ← (#c * !x_mx)%np;
  m2 ← np.mean_axis1 (np.cos cx);
  let t2 := np.negative (np.exp m2) in
  (!t1 + !t2 + #a + #(Rtrigo_def.exp 1))%np.

Definition ackley_nd_default (x_mx : ndarray) : result ndarray :=
  ackley_nd x_mx 20 0.2 (2 * PI).

(** The polynomial both six-hump-camel entry points return. *)
Definition six_hump_camel_2D (X : ndarray) : result ndarray :=
  x ← np.column X 0;
  y ← np.column X 1;
  let x2 := np.power x 2 in
  let x4 := np.power x 4 in
  let y2 := np.power y 2 in
  (((#4 - #2.1 * !x2 + (!x4 / #3)) * !x2) + (!x * !y)
   + ((#(-4) + #4 * !y2) * !y2))%np.

Definition six_hump_camel_2D_2input (x y : ndarray) : result ndarray :=
  let x2 := np.power x 2 in
  let x4 := np.power x 4 in
  let y2 := np.power y 2 in
  (((#4 - #2.1 * !x2 + (!x4 / #3)) * !x2) + (!x * !y)
   + ((#(-4) + #4 * !y2) * !y2))%np.

(** [b = 0.1 * np.array([1, 2, 2, 4, 4, 6, 3, 7, 5, 5])] *)
Definition shekel_b : list R :=
  map (λ k, 0.1 * k) [1; 2; 2; 4; 4; 6; 3; 7; 5; 5].

Definition shekel_C : list (list R) :=
  [ [4.0; 1.0; 8.0; 6.0; 3.0; 2.0; 5.0; 8.0; 6.0; 7.0];
    [4.0; 1.0; 8.0; 6.0; 7.0; 9.0; 3.0; 1.0; 2.0; 3.6];
    [4.0; 1.0; 8.0; 6.0; 3.0; 2.0; 5.0; 8.0; 6.0; 7.0];
    [4.0; 1.0; 8.0; 6.0; 7.0; 9.0; 3.0; 1.0; 2.0; 3.6] ].

(** [C[j, i]] *)
Definition C_at (j i : nat) : R := nth i (nth j shekel_C []) 0.

(** The body of [for j in range(0, 4)]: one update of [inner]. *)
Definition shekel_inner_step (xx : list ndarray) (i : nat)
    (inner : result ndarray) (j : nat) : result ndarray :=
  let x_j := nth j xx (np.scalar 0) in
  let C_ji := C_at j i in
  (inner + (d ← (!x_j - #C_ji)%np; Ok (np.power d 2)))%np.

(** The body of [for i in range(0, m)]: one update of [outer]. *)
Definition shekel_outer_step (xx : list ndarray)
    (outer : result ndarray) (i : nat) : result ndarray :=
  let b_i := nth i shekel_b 0 in
  let inner := fold_left (shekel_inner_step xx i) (seq 0 4) (#0)%np in
  (outer + #1 / (inner + #b_i))%np.

Definition shekel (X : ndarray) : result ndarray :=
  x0 ← np.column X 0;
  x1 ← np.column X 1;
  x2 ← np.column X 2;
  x3 ← np.column X 3;
  let xx := [x0; x1; x2; x3] in
  let m := 10%nat in
  let outer := fold_left (shekel_outer_step xx) (seq 0 m) (#0)%np in
  (#(-1.0) * outer)%np.

(** [lldeh_1d(x, a)]; [np.tan] at a zero of the cosine is not a real number. *)
Definition lldeh_1d (x : ndarray) (a : R) : result ndarray :=
  g ← (if decide (Rtrigo_def.cos (0.5 * a) = 0) then Raise NotModelled
       else Ok (tan (0.5 * a)));
  (#2 * !(np.power x 2) / (!(np.power x 2) + #g * !x + #1))%np.

(** [peaks_2d(x)] *)
Definition peaks_2d (x : ndarray) : result ndarray :=
  let x := np.atleast_2d x in
  x1 ← np.column x 0;
  x2 ← np.column x 1;
  (#3 * lift1 (λ d, np.power d 2) (#1 - !x1)
      * lift1 np.exp (!(np.negative (np.power x1 2))
                      - lift1 (λ d, np.power d 2) (!x2 + #1))
   - #10 * (!x1 / #5 - !(np.power x1 3) - !(np.power x2 5))
       * lift1 np.exp (!(np.negative (np.power x1 2)) - !(np.power x2 2))
   - #(1 / 3) * lift1 np.exp (lift1 np.negative
                                (lift1 (λ d, np.power d 2) (!x1 + #1))
                              - !(np.power x2 2)))%np.

(** [forrester_1d(x)] *)
Definition forrester_1d (x : ndarray) : result ndarray :=
  term_a ← (#6 * !x - #2)%np;
  term_b ← (#12 * !x - #4)%np;
  (!(np.power term_a 2) * !(np.sin term_b))%np.

(** [bohachevsky_2D(X)] *)
Definition bohachevsky_2D (X : ndarray) : result ndarray :=
  x1 ← np.column X 0;
  x2 ← np.column X 1;
  let t1 := np.power x1 2 in
  t2 ← (#2 * !(np.power x2 2))%np;
  t3 ← (#(-0.3) * lift1 np.cos (#(3 * PI) * !x1))%np;
  t4 ← (#(-0.4) * lift1 np.cos (#(4 * PI) * !x2))%np;
  (!t1 + !t2 + !t3 + !t4 + #0.7)%np.

End test_functions.

(** ** The same arithmetic in IEEE binary64

    [float] is the kernel's binary64 type: [+], [-], [*], [/] and [sqrt]
    round to nearest, ties to even, as the hardware behind NumPy's
    [float64] does.  The functions NumPy evaluates through the C library
    or with its own summation order ([exp], [cos], [mean]) are not part of
    that type and are taken from an instance of [Numerics]. *)

Module f64.

#[local] Open Scope float_scope.

Record ndarray : Type := mk_nd { shape : list nat; data : list float }.

Definition scalar (x : float) : ndarray := mk_nd [] [x].
Definition item (a : ndarray) : float := hd 0 (data a).
Definition array1 (l : list float) : ndarray := mk_nd [length l] l.
Definition zeros1 (n : nat) : ndarray := mk_nd [n] (repeat 0 n).

Definition umap (f : float → float) (a : ndarray) : ndarray :=
  mk_nd (shape a) (map f (data a)).

(** Element-wise binary operation with broadcasting, on the operand shapes
    of [np.broadcast]. *)
Definition broadcast (f : float → float → float) (a b : ndarray) : result ndarray :=
  match shape a, shape b with
  | [], _ => Ok (mk_nd (shape b) (map (f (item a)) (data b)))
  | _, [] => Ok (mk_nd (shape a) (map (λ x, f x (item b)) (data a)))
  | sa, sb =>
      if decide (sa = sb) then Ok (mk_nd sa (zip_with f (data a) (data b)))
      else if decide (sa = [1%nat]) then Ok (mk_nd sb (map (f (item a)) (data b)))
      else if decide (sb = [1%nat]) then Ok (mk_nd sa (map (λ x, f x (item b)) (data a)))
      else if decide (length sa = 1%nat ∧ length sb = 1%nat) then Raise ValueError
      else Raise NotModelled
  end.

Definition add := broadcast PrimFloat.add.
Definition subtract := broadcast PrimFloat.sub.
Definition multiply := broadcast PrimFloat.mul.
(** [a / b]: a zero denominator gives an infinity or [nan], as in NumPy. *)
Definition divide := broadcast PrimFloat.div.

Definition negative (a : ndarray) : ndarray := umap PrimFloat.opp a.

(** [a ** 2] and [np.power(a, 2)]: NumPy squares by one multiplication. *)
Definition square (a : ndarray) : ndarray := umap (λ v, v * v) a.

Definition sqrt (a : ndarray) : ndarray := umap PrimFloat.sqrt a.

Definition atleast_2d (a : ndarray) : ndarray :=
  match shape a with
  | [] => mk_nd [1%nat; 1%nat] (data a)
  | [n] => mk_nd [1%nat; n] (data a)
  | _ => a
  end.

(** [X[:, j]] on a matrix: one element per row. *)
Definition column (X : ndarray) (j : nat) : result ndarray :=
  match shape X with
  | [] | [_] => Raise IndexError
  | [n; m] =>
      if decide (j < m)%nat
      then Ok (mk_nd [n] (map (λ i, nth (i * m + j)%nat (data X) 0) (seq 0 n)))
      else Raise IndexError
  | _ => Raise NotModelled
  end.

Fixpoint rows (n m : nat) (l : list float) : list (list float) :=
  match n with
  | O => []
  | S n' => firstn m l :: rows n' m (skipn m l)
  end.

(** What the benchmark functions take from NumPy beyond arithmetic. *)
Class Numerics : Type := {
  exp : float → float;            (* np.exp on one element *)
  cos : float → float;            (* np.cos on one element *)
  mean : list float → float       (* np.mean of one row *)
}.

(** [np.mean(a, axis=1)] on a matrix. *)
Definition mean_axis1 `{Numerics} (a : ndarray) : result ndarray :=
  match shape a with
  | [] | [_] => Raise ValueError
  | [n; m] => Ok (mk_nd [n] (map mean (rows n m (data a))))
  | _ => Raise NotModelled
  end.

Definition lift2 (op : ndarray → ndarray → result ndarray)
    (x y : result ndarray) : result ndarray :=
  a ← x; b ← y; op a b.

Declare Scope f64_scope.
Delimit Scope f64_scope with f64.
Notation "x + y" := (lift2 add x y) : f64_scope.
Notation "x - y" := (lift2 subtract x y) : f64_scope.
Notation "x * y" := (lift2 multiply x y) : f64_scope.
Notation "x / y" := (lift2 divide x y) : f64_scope.
Notation "! a" := (Ok a) (at level 9, a at level 9, only parsing) : f64_scope.
Notation "# r" := (Ok (scalar r)) (at level 9, r at level 9, only parsing) : f64_scope.

(** [np.pi] *)
Definition pi : float := 3.141592653589793.

(** [ackley_nd(x_mx, a=20.0, b=0.2, c=2*np.pi)] *)
Definition ackley_nd `{Numerics} (x_mx : ndarray) (a b c : float) : result ndarray :=
  let x_mx := atleast_2d x_mx in
  m1 ← mean_axis1 (square x_mx);
  let r1 := sqrt m1 in
  e1 ← (#(- b) * !r1)%f64;
  t1 ← (#(- a) * !(umap exp e1))%f64;
  cx ← (#c * !x_mx)%f64;
  m2 ← mean_axis1 (umap cos cx);
  let t2 := negative (umap exp m2) in
  (!t1 + !t2 + #a + #(exp 1))%f64.

Definition ackley_nd_default `{Numerics} (x_mx : ndarray) : result ndarray :=
  ackley_nd x_mx 20 0.2 (2 * pi).

(** [b = 0.1 * np.array([1, 2, 2, 4, 4, 6, 3, 7, 5, 5])] *)
Definition shekel_b : list float :=
  map (λ k, 0.1 * k) [1; 2; 2; 4; 4; 6; 3; 7; 5; 5].

Definition shekel_C : list (list float) :=
  [ [4.0; 1.0; 8.0; 6.0; 3.0; 2.0; 5.0; 8.0; 6.0; 7.0];
    [4.0; 1.0; 8.0; 6.0; 7.0; 9.0; 3.0; 1.0; 2.0; 3.6];
    [4.0; 1.0; 8.0; 6.0; 3.0; 2.0; 5.0; 8.0; 6.0; 7.0];
    [4.0; 1.0; 8.0; 6.0; 7.0; 9.0; 3.0; 1.0; 2.0; 3.6] ].

Definition C_at (j i : nat) : float := nth i (nth j shekel_C []) 0.

Definition shekel_inner_step (xx : list ndarray) (i : nat)
    (inner : result ndarray) (j : nat) : result ndarray :=
  let x_j := nth j xx (scalar 0) in
  let C_ji := C_at j i in
  (inner + (d ← (!x_j - #C_ji)%f64; Ok (square d)))%f64.

Definition shekel_outer_step (xx : list ndarray)
    (outer : result ndarray) (i : nat) : result ndarray :=
  let b_i := nth i shekel_b 0 in
  let inner := fold_left (shekel_inner_step xx i) (seq 0 4) (#0)%f64 in
  (outer + #1 / (inner + #b_i))%f64.

Definition shekel (X : ndarray) : result ndarray :=
  x0 ← column X 0;
  x1 ← column X 1;
  x2 ← column X 2;
  x3 ← column X 3;
  let xx := [x0; x1; x2; x3] in
  let m := 10%nat in
  let outer := fold_left (shekel_outer_step xx) (seq 0 m) (#0)%f64 in
  (#(-1.0) * outer)%f64.

End f64.


(** A library that is right at the points [ackley_nd] needs at the origin:
    [exp] at [-0.0], [0.0] and [1.0], [cos] at [0.0], and the mean taken as
    the left-to-right sum over the count. *)
Fixpoint float_of_nat (n : nat) : float :=
  match n with
  | O => 0%float
  | S k => (float_of_nat k + 1)%float
  end.

Definition origin_numerics : f64.Numerics :=
  {| f64.exp := λ x, if (x =? 1)%float then 2.718281828459045%float else 1%float;
     f64.cos := λ _, 1%float;
     f64.mean := λ l, (fold_left PrimFloat.add l 0 / float_of_nat (length l))%float |}.

(** ** Shared numeric helpers ([surrogate_model.py], module level) *)

(** [tf.math.softplus] *)
Definition softplus (x : R) : R := ln (1 + Rtrigo_def.exp x).

(** [params[:, a:b]] on a matrix: the columns [a .. b-1] of every row. *)
Definition slice_columns (X : ndarray) (a b : nat) : result ndarray :=
  match np.shape X with
  | [] | [_] => Raise IndexError
  | [n; m] =>
      Ok (np.mk_nd [n; (Nat.min b m - Nat.min a m)%nat]
            (concat (map (λ row, firstn (b - a) (skipn a row))
                       (np.rows n m (np.data X)))))
  | _ => Raise NotModelled
  end.

(** [tfd.Normal(loc, scale)] *)
Record Normal : Type := mk_Normal { loc : ndarray; scale : ndarray }.

(** [normal_sp(params)] *)
Definition normal_sp (params : ndarray) : result Normal :=
  l ← slice_columns params 0 1;
  raw ← slice_columns params 1 2;
  scaled ← (#0.05 * !raw)%np;
  s ← (#1e-3 + !(np.umap softplus scaled))%np;
  Ok (mk_Normal l s).

(** ** Python values *)

(** scikit-learn kernels, with the constructor arguments this repository
    passes. [1.0 * RBF(1.0)] is [Product (ConstantKernel 1.0 ..) (RBF 1.0 ..)]. *)
Inductive Kernel : Type :=
| RBF (length_scale : R) (length_scale_bounds : R * R)
| WhiteKernel (noise_level : R) (noise_level_bounds : R * R)
| ConstantKernel (constant_value : R) (constant_value_bounds : R * R)
| Sum (k1 k2 : Kernel)
| Product (k1 k2 : Kernel).

#[warnings="-register-all"]
Inductive Val : Type :=
| VNone
| VBool (b : bool)
| VInt (z : Z)
| VFloat (x : R)                 (* a float or one-element tensor, idealised *)
| VF64 (x : float)               (* a float or one-element tensor, in binary64 *)
| VStr (s : string)
| VArr (a : ndarray)             (* a NumPy array or a torch/TensorFlow tensor *)
| VList (l : list Val)
| VTuple (l : list Val)
| VKernel (k : Kernel)           (* a kernel passed by value to a library *)
| VKernelRef (l : nat)           (* a reference to a kernel object on the heap *)
| VRegressor (kernel : Val) (n_restarts_optimizer : Val) (kernel_ : option nat)
                                 (* sklearn's GaussianProcessRegressor *)
| VObj (h : nat).                (* any other library object, by handle *)

(** The libraries behind the surrogates (scikit-learn's optimiser, Keras,
    TensorFlow Probability, torch, gpytorch) are one uninterpreted function
    from the name of the entry point, its arguments and the state of the
    outside world to an outcome and a new state of the world. *)
Class Backend : Type := {
  World : Type;
  extern : string → list Val → World → result Val * World
}.

(** The state in which the methods of one surrogate instance run. *)
Record State `{Backend} : Type := mk_State {
  self : gmap string Val;        (* the instance dictionary *)
  kernels : gmap nat Kernel;     (* sklearn kernel objects, by reference *)
  world : World;                 (* state of the external libraries *)
  log : list string              (* external calls made so far, latest first *)
}.

Definition M `{Backend} (A : Type) : Type := State → result A * State.

#[global] Instance M_ret `{Backend} : MRet M := λ A a st, (Ok a, st).
#[global] Instance M_bind `{Backend} : MBind M :=
  λ A B f m st,
    match m st with
    | (Ok a, st') => f a st'
    | (Raise e, st') => (Raise e, st')
    end.

Section primitives.
Context `{Backend}.

Definition raise {A} (e : exn) : M A := λ st, (Raise e, st).

(** A pure computation that may raise. *)
Definition lift {A} (r : result A) : M A := λ st, (r, st).

(** [self.name = v] *)
Definition setattr (name : string) (v : Val) : M unit :=
  λ st, (Ok tt, {| self := <[name := v]> (self st); kernels := kernels st;
                   world := world st; log := log st |}).

(** A call into a library: logged, and free to change the outside world. *)
Definition call (name : string) (args : list Val) : M Val :=
  λ st, let '(r, w) := extern name args (world st) in
        (r, {| self := self st; kernels := kernels st;
               world := w; log := name :: log st |}).

(** [warnings.warn], [warnings.filterwarnings] and [print] only reach the
    outside world. *)
Definition warn (msg : string) : M unit := _ ← call "warnings.warn" []; mret tt.
Definition print : M unit := _ ← call "print" []; mret tt.

(** [obj.name(args)] on a library object; [None] has no methods. *)
Definition method (obj : Val) (name : string) (args : list Val) : M Val :=
  match obj with
  | VNone => raise AttributeError
  | _ => call name (obj :: args)
  end.

(** The attribute lookup [obj.name] that precedes the evaluation of the
    arguments of a method call. *)
Definition has_methods (obj : Val) : M unit :=
  match obj with
  | VNone => raise AttributeError
  | _ => mret tt
  end.

(** [for i in l: s = body(i, s)] *)
Fixpoint for_each {S} (l : list nat) (body : nat → S → M S) (s : S) : M S :=
  match l with
  | [] => mret s
  | i :: l' => s' ← body i s; for_each l' body s'
  end.

(** Kernel objects. *)
Definition read_kernel (l : nat) : M Kernel :=
  λ st, match kernels st !! l with
        | Some k => (Ok k, st)
        | None => (Raise AttributeError, st)
        end.

Definition write_kernel (l : nat) (k : Kernel) : M unit :=
  λ st, (Ok tt, {| self := self st; kernels := <[l := k]> (kernels st);
                   world := world st; log := log st |}).

Definition new_kernel (k : Kernel) : M nat :=
  λ st, let l := fresh (dom (kernels st)) in
        (Ok l, {| self := self st; kernels := <[l := k]> (kernels st);
                  world := world st; log := log st |}).

End primitives.

(** ** Surrogate families and their class attributes *)

(** The concrete subclasses of [Surrogate]: [L_] for
    [harlow/surrogate_model.py], [S_] for
    [harlow/surrogating/surrogate_model.py]. *)
Inductive Family : Type :=
| L_GaussianProcess
| L_GaussianProcessTFP
| L_ModelListGaussianProcess
| L_BatchIndependentGaussianProcess
| L_MultiTaskGaussianProcess
| L_NN
| L_Prob_NN
| L_Bayesian_NN
| S_VanillaGaussianProcess
| S_GaussianProcessTFP
| S_GaussianProcessRegression
| S_ModelListGaussianProcess
| S_BatchIndependentGaussianProcess
| S_MultiTaskGaussianProcess
| S_DeepKernelMultiTaskGaussianProcess
| S_Vanilla_NN
| S_Vanilla_BayesianNN.

#[global] Instance Family_eq_dec : EqDecision Family.
Proof. solve_decision. Defined.

(** Where the class-level [kernel] object of the two classical GP classes
    lives. Each class body builds its own object at import time. *)
Definition class_kernel_ref (cls : Family) : nat :=
  match cls with
  | S_VanillaGaussianProcess => 1%nat
  | _ => 0%nat
  end.

(** [1.0 * RBF(1.0) + WhiteKernel(1.0, noise_level_bounds=(5e-5, 5e-2))];
    the bounds left out in the source are scikit-learn's defaults. *)
Definition default_kernel : Kernel :=
  Sum (Product (ConstantKernel 1.0 (1e-5, 1e5)) (RBF 1.0 (1e-5, 1e5)))
      (WhiteKernel 1.0 (5e-5, 5e-2)).

(** The data attributes of each class body, in source order. *)
Definition class_attrs (cls : Family) : list (string * Val) :=
  match cls with
  | L_GaussianProcess | S_VanillaGaussianProcess =>
      [("is_probabilistic", VBool true);
       ("kernel", VKernelRef (class_kernel_ref cls))]
  | L_GaussianProcessTFP | S_GaussianProcessTFP
  | L_ModelListGaussianProcess | S_ModelListGaussianProcess
  | L_BatchIndependentGaussianProcess | S_BatchIndependentGaussianProcess
  | L_MultiTaskGaussianProcess | S_MultiTaskGaussianProcess
  | S_GaussianProcessRegression | S_DeepKernelMultiTaskGaussianProcess =>
      [("is_probabilistic", VBool true)]
  | L_NN =>
      [("learning_rate_initial", VFloat 0.01);
       ("learning_rate_update", VFloat 0.001);
       ("is_probabilistic", VBool false)]
  | L_Prob_NN | L_Bayesian_NN | S_Vanilla_BayesianNN =>
      [("learning_rate_initial", VFloat 0.01);
       ("learning_rate_update", VFloat 0.001);
       ("is_probabilistic", VBool true)]
  | S_Vanilla_NN =>
      [("learning_rate_update", VFloat 0.001);
       ("is_probabilistic", VBool false)]
  end.

Fixpoint assoc (name : string) (l : list (string * Val)) : option Val :=
  match l with
  | [] => None
  | (k, v) :: l' => if decide (k = name) then Some v else assoc name l'
  end.

(** [cls.name]: a class attribute. *)
Definition class_attr (cls : Family) (name : string) : option Val :=
  assoc name (class_attrs cls).

(** Attribute lookup on an instance: the instance dictionary first, then
    the class. *)
Definition lookup_attr (cls : Family) (d : gmap string Val) (name : string)
    : option Val :=
  match d !! name with
  | Some v => Some v
  | None => class_attr cls name
  end.

Section object_model.
Context `{Backend}.

(** [self.name] *)
Definition getattr (cls : Family) (name : string) : M Val :=
  λ st, match lookup_attr cls (self st) name with
        | Some v => (Ok v, st)
        | None => (Raise AttributeError, st)
        end.

End object_model.

(** ** Python's dynamic operations on values *)

(** [float(z)] for an integer that binary64 holds exactly. *)
Definition f64_of_Z (z : Z) : float :=
  if (z <? 0)%Z then (- PrimFloat.of_uint63 (Uint63.of_Z (- z)))%float
  else PrimFloat.of_uint63 (Uint63.of_Z z).

(** A number as the binary64 value Python computes with. An idealised
    float has none that the model knows. *)
Definition as_f64 (v : Val) : result float :=
  match v with
  | VF64 x => Ok x
  | VInt z => if decide (Z.abs z <= 2 ^ 53)%Z then Ok (f64_of_Z z) else Raise NotModelled
  | VBool b => Ok (if b then 1%float else 0%float)
  | VFloat _ | VArr _ | VObj _ => Raise NotModelled
  | _ => Raise TypeError
  end.

(** [a - b] in binary64, for a float [b]; [inf - inf] is [nan]. *)
Definition py_sub (a b : Val) : result Val :=
  match b with
  | VF64 y => x ← as_f64 a; Ok (VF64 (x - y)%float)
  | _ => Raise NotModelled
  end.

(** [a * b] in binary64, for a float [b]. *)
Definition py_mul (a b : Val) : result Val :=
  match b with
  | VF64 y => x ← as_f64 a; Ok (VF64 (x * y)%float)
  | _ => Raise NotModelled
  end.

(** [a < 0.0]; false on [nan]. *)
Definition py_lt_zero (a : Val) : result bool :=
  x ← as_f64 a; Ok (x <? 0)%float.

(** Truth value testing, as [if v:] performs it. Library objects define
    neither [__bool__] nor [__len__] and are true. *)
Definition truthy (v : Val) : result bool :=
  match v with
  | VNone => Ok false
  | VBool b => Ok b
  | VInt z => Ok (negb (Z.eqb z 0))
  | VFloat x => Ok (negb (bool_decide (x = 0)))
  | VF64 x => Ok (negb (x =? 0)%float)
  | VArr a =>
      match np.data a with
      | [] => Ok false
      | [x] => Ok (negb (bool_decide (x = 0)))
      | _ => Raise ValueError
      end
  | VList l | VTuple l => Ok (match l with [] => false | _ => true end)
  | VStr s => Ok (match s with EmptyString => false | _ => true end)
  | VKernel _ | VKernelRef _ | VRegressor _ _ _ | VObj _ => Ok true
  end.

Definition is_none (v : Val) : bool :=
  match v with VNone => true | _ => false end.

(** [v.shape[i]] *)
Definition shape_at (v : Val) (i : nat) : result nat :=
  match v with
  | VArr a =>
      match np.shape a !! i with
      | Some n => Ok n
      | None => Raise IndexError
      end
  | VObj _ => Raise NotModelled
  | _ => Raise AttributeError
  end.

(** [v.ndim] *)
Definition ndim_of (v : Val) : result nat :=
  match v with
  | VArr a => Ok (np.ndim a)
  | _ => Raise AttributeError
  end.

(** [v.flatten()] *)
Definition flatten (v : Val) : result Val :=
  match v with
  | VArr a => Ok (VArr (np.mk_nd [length (np.data a)] (np.data a)))
  | _ => Raise AttributeError
  end.

(** [np.concatenate([a, b])] and [torch.cat([a, b], dim=0)]: along the first
    axis, for arrays that agree on the remaining ones. *)
Definition concatenate (a b : Val) : result Val :=
  match a, b with
  | VArr x, VArr y =>
      match np.shape x, np.shape y with
      | n :: rx, m :: ry =>
          if decide (rx = ry)
          then Ok (VArr (np.mk_nd ((n + m)%nat :: rx) (np.data x ++ np.data y)))
          else Raise ValueError
      | _, _ => Raise ValueError
      end
  | _, _ => Raise NotModelled
  end.

(** [-a] on a one-element floating-point tensor, which is its number. *)
Definition py_neg (a : Val) : result Val :=
  match a with
  | VF64 x => Ok (VF64 (- x)%float)
  | VFloat _ | VInt _ | VBool _ | VArr _ | VObj _ => Raise NotModelled
  | _ => Raise TypeError
  end.

(** [a.item()] *)
Definition item_of (a : Val) : result Val :=
  match a with
  | VFloat x => Ok (VFloat x)
  | VF64 x => Ok (VF64 x)
  | VInt z => Ok (VInt z)
  | VArr _ | VObj _ => Raise NotModelled
  | _ => Raise AttributeError
  end.

(** [n != v] for a dimension [n]. *)
Definition differs_from_nat (n : nat) (v : Val) : bool :=
  match v with
  | VInt z => negb (Z.eqb (Z.of_nat n) z)
  | VFloat x => negb (bool_decide (INR n = x))
  | VF64 x => negb (f64_of_Z (Z.of_nat n) =? x)%float
  | VBool b => negb (Nat.eqb n (if b then 1 else 0))
  | _ => true
  end.

(** [v == 1] *)
Definition equals_one (v : Val) : bool :=
  match v with
  | VInt z => Z.eqb z 1
  | VFloat x => bool_decide (x = 1)
  | VF64 x => (x =? 1)%float
  | VBool b => b
  | _ => false
  end.

(** [v[i]] on a list or tuple. *)
Definition py_index (v : Val) (i : nat) : result Val :=
  match v with
  | VList l | VTuple l =>
      match l !! i with Some x => Ok x | None => Raise IndexError end
  | VArr _ | VObj _ => Raise NotModelled
  | _ => Raise TypeError
  end.

(** [l.append(x)] *)
Definition py_append (v x : Val) : result Val :=
  match v with
  | VList l => Ok (VList (l ++ [x]))
  | _ => Raise AttributeError
  end.

(** A value used as an integer ([range(v)], a dimension). *)
Definition as_int (v : Val) : result Z :=
  match v with
  | VInt z => Ok z
  | VBool _ => Raise NotModelled
  | _ => Raise TypeError
  end.

Definition as_array (v : Val) : result ndarray :=
  match v with
  | VArr a => Ok a
  | _ => Raise NotModelled
  end.

(** [len(v)] *)
Definition py_len (v : Val) : result nat :=
  match v with
  | VList l | VTuple l => Ok (length l)
  | VArr a => match np.shape a with n :: _ => Ok n | [] => Raise TypeError end
  | _ => Raise TypeError
  end.

(** ** scikit-learn kernels as Python objects

    What the repository relies on from [sklearn.gaussian_process.kernels]:
    the instance dictionary of a kernel ([vars]), its [repr], and
    [get_params]/[set_params]. *)

Module sklearn.

(** The value of a kernel attribute. *)
Inductive KVal : Type :=
| KSub (k : Kernel)
| KNum (x : R)
| KBounds (lo hi : R).

(** [vars(kernel)], in the order the constructors assign the attributes. *)
Definition kernel_vars (k : Kernel) : list (string * KVal) :=
  match k with
  | RBF l (lo, hi) => [("length_scale", KNum l); ("length_scale_bounds", KBounds lo hi)]
  | WhiteKernel n (lo, hi) => [("noise_level", KNum n); ("noise_level_bounds", KBounds lo hi)]
  | ConstantKernel c (lo, hi) =>
      [("constant_value", KNum c); ("constant_value_bounds", KBounds lo hi)]
  | Sum a b | Product a b => [("k1", KSub a); ("k2", KSub b)]
  end.

(** [getattr(kernel, name)] *)
Fixpoint kernel_getattr_in (name : string) (l : list (string * KVal)) : result KVal :=
  match l with
  | [] => Raise AttributeError
  | (k, v) :: l' => if decide (k = name) then Ok v else kernel_getattr_in name l'
  end.

Definition kernel_getattr (k : Kernel) (name : string) : result KVal :=
  kernel_getattr_in name (kernel_vars k).

(** Text with numbers left unformatted: a number prints as digits, a sign,
    [inf] or [nan], whatever the format. *)
Inductive token : Type := Lit (s : string) | Num (x : R).

(** [repr(kernel)] *)
Fixpoint kernel_repr (k : Kernel) : list token :=
  match k with
  | RBF l _ => [Lit "RBF(length_scale="; Num l; Lit ")"]
  | WhiteKernel n _ => [Lit "WhiteKernel(noise_level="; Num n; Lit ")"]
  | ConstantKernel c _ => [Num (sqrt c); Lit "**2"]
  | Sum a b => kernel_repr a ++ [Lit " + "] ++ kernel_repr b
  | Product a b => kernel_repr a ++ [Lit " * "] ++ kernel_repr b
  end.

(** [str(value)] *)
Definition str (v : KVal) : list token :=
  match v with
  | KSub k => kernel_repr k
  | KNum x => [Num x]
  | KBounds lo hi => [Lit "("; Num lo; Lit ", "; Num hi; Lit ")"]
  end.

(** The structure two kernels must share for [set_params] of one to accept
    the [get_params] of the other. *)
Fixpoint same_structure (k k' : Kernel) : bool :=
  match k, k' with
  | RBF _ _, RBF _ _ => true
  | WhiteKernel _ _, WhiteKernel _ _ => true
  | ConstantKernel _ _, ConstantKernel _ _ => true
  | Sum a b, Sum a' b' => same_structure a a' && same_structure b b'
  | Product a b, Product a' b' => same_structure a a' && same_structure b b'
  | _, _ => false
  end.

(** [k.set_params] applied to the [get_params] of [k2]: every
    hyperparameter and sub-kernel of [k] is replaced by that of [k2]. The fitted kernel of a regressor
    is a clone of its template, so the structures agree; otherwise the run
    leaves the model. *)
Definition set_params_from (k k' : Kernel) : result Kernel :=
  if same_structure k k' then Ok k' else Raise NotModelled.

End sklearn.

(** ** Regular expressions used by [get_noise] *)

Module re.

Definition is_digit (c : ascii) : bool :=
  let n := nat_of_ascii c in (48 <=? n)%nat && (n <=? 57)%nat.

(** [re.match(pattern="^k[0-9]", string=s)] *)
Definition match_k_digit (s : string) : bool :=
  match s with
  | String "k" (String c _) => is_digit c
  | _ => false
  end.

(** Consume [s] against the pattern [p]: what is left of the pattern, or
    [None] on a mismatch. *)
Fixpoint strip (s p : string) : option string :=
  match p, s with
  | EmptyString, _ => Some EmptyString
  | _, EmptyString => Some p
  | String c p', String d s' => if decide (c = d) then strip s' p' else None
  end.

(** Does the text start with the literal [p]? No letter of [p] matches the
    first character of a number. *)
Fixpoint starts_with (p : string) (t : list sklearn.token) : bool :=
  match p with
  | EmptyString => true
  | _ =>
    match t with
    | [] => false
    | sklearn.Num _ :: _ => false
    | sklearn.Lit s :: t' =>
        match strip s p with
        | None => false
        | Some p' => starts_with p' t'
        end
    end
  end.

(** [re.match(pattern="^WhiteKernel", string=t)] *)
Definition match_WhiteKernel (t : list sklearn.token) : bool :=
  starts_with "WhiteKernel" t.

End re.

(** ** The classical Gaussian Process surrogate

    [GaussianProcess] ([harlow/surrogate_model.py]) and
    [VanillaGaussianProcess] ([harlow/surrogating/surrogate_model.py]) have
    the same method bodies, each naming its own class where the source
    names the class; [cls] is that class. *)

Module GaussianProcess.
Section methods.
Context `{Backend} (cls : Family).

(** [GaussianProcessRegressor(kernel=self.kernel,
    n_restarts_optimizer=self.train_restarts, random_state=0)]: the
    constructor stores its arguments. *)
Definition create_model : M Val :=
  kernel ← getattr cls "kernel";
  train_restarts ← getattr cls "train_restarts";
  setattr "model" (VRegressor kernel train_restarts None);;
  mret VNone.

(** [__init__(self, train_restarts=10, kernel=kernel, ...)]; the default of
    [kernel] is the class-level object itself, [VKernelRef (class_kernel_ref cls)]. *)
Definition init (train_restarts kernel : Val) : M Val :=
  setattr "model" VNone;;
  setattr "train_restarts" train_restarts;;
  setattr "noise_std" VNone;;
  setattr "kernel" kernel;;
  create_model.

(** One pass of [for attr in attrs] in [get_noise]; [k0] is the kernel the
    loop inspects. *)
Definition get_noise_step (k0 : Kernel) (white_kernel_attr : result (list string))
    (attr : string) : result (list string) :=
  acc ← white_kernel_attr;
  if re.match_k_digit attr then
    attr_val ← sklearn.kernel_getattr k0 attr;
    if re.match_WhiteKernel (sklearn.str attr_val)
    then Ok (acc ++ [attr])
    else Ok acc
  else Ok acc.

(** [getattr(kernel, name).noise_level ** 0.5] *)
Definition noise_level_sqrt (k : Kernel) (name : string) : result Val :=
  attr_val ← sklearn.kernel_getattr k name;
  match attr_val with
  | sklearn.KSub (WhiteKernel noise_level _) =>
      if decide (0 <= noise_level) then Ok (VFloat (sqrt noise_level))
      else Raise NotModelled
  | _ => Raise AttributeError
  end.

(** [get_noise(self)]. The scan runs over the class attribute
    [GaussianProcess.kernel] (resp. [VanillaGaussianProcess.kernel]); only
    the last line reads the kernel of the instance, through [self.model]. *)
Definition get_noise : M Val :=
  class_kernel ← lift (match class_attr cls "kernel" with
                       | Some (VKernelRef l) => Ok l
                       | _ => Raise AttributeError
                       end);
  k0 ← read_kernel class_kernel;
  let attrs := map fst (sklearn.kernel_vars k0) in
  white_kernel_attr ← lift (fold_left (get_noise_step k0) attrs (Ok []));
  if decide (length white_kernel_attr = 0%nat) then raise ValueError
  else if decide (1 < length white_kernel_attr)%nat then raise ValueError
  else
    model ← getattr cls "model";
    match model with
    | VRegressor (VKernelRef l) _ _ =>
        k ← read_kernel l;
        lift (noise_level_sqrt k (hd ""%string white_kernel_attr))
    | _ => raise AttributeError
    end.

(** [self.model.fit(X, y)]: scikit-learn clones the template kernel,
    optimises the clone and keeps it as [kernel_]. *)
Definition model_fit (X y : Val) : M unit :=
  model ← getattr cls "model";
  match model with
  | VRegressor kernel restarts _ =>
      template ← match kernel with
                 | VKernelRef l => k ← read_kernel l; mret (VKernel k)
                 | v => mret v
                 end;
      fitted ← call "GaussianProcessRegressor.fit" [template; restarts; X; y];
      match fitted with
      | VKernel k_ =>
          l_ ← new_kernel k_;
          setattr "model" (VRegressor kernel restarts (Some l_))
      | _ => raise NotModelled
      end
  | _ => raise AttributeError
  end.

Definition fit (X y : Val) : M Val :=
  setattr "X" X;;
  setattr "y" y;;
  sX ← getattr cls "X";
  sy ← getattr cls "y";
  model_fit sX sy;;
  noise ← get_noise;
  setattr "noise_std" noise;;
  mret VNone.

Definition predict (X return_std : Val) : M Val :=
  model ← getattr cls "model";
  match model with
  | VRegressor _ _ _ =>
      out ← call "GaussianProcessRegressor.predict" [model; X];
      match out with
      | VTuple [samples; std] =>
          b ← lift (truthy return_std);
          if b : bool then mret (VTuple [samples; std]) else mret samples
      | _ => raise NotModelled
      end
  | _ => raise AttributeError
  end.

Definition update (new_X new_y : Val) : M Val :=
  sX ← getattr cls "X";
  X ← lift (concatenate sX new_X);
  new_ndim ← lift (ndim_of new_y);
  sy ← getattr cls "y";
  y_ndim ← lift (ndim_of sy);
  new_y ← (if decide (y_ndim < new_ndim)%nat then lift (flatten new_y) else mret new_y);
  sy ← getattr cls "y";
  y ← lift (concatenate sy new_y);
  kernel ← getattr cls "kernel";
  match kernel with
  | VKernelRef l =>
      model ← getattr cls "model";
      match model with
      | VRegressor _ _ (Some l_) =>
          k_ ← read_kernel l_;
          k ← read_kernel l;
          k' ← lift (sklearn.set_params_from k k_);
          write_kernel l k';;
          create_model;;
          fit X y
      | _ => raise AttributeError
      end
  | _ => raise AttributeError
  end.

End methods.
End GaussianProcess.

(** ** Neural-network surrogates

    Keras and TensorFlow Probability are reached through [call]; a model,
    a layer output and an optimiser are library objects. *)

Section keras.
Context `{Backend}.

(** The Monte-Carlo loop shared, to the letter, by [Prob_NN.predict],
    [Bayesian_NN.predict] and [Vanilla_BayesianNN.predict]: the sample
    matrix [preds], then its mean and standard deviation along axis 1. *)
Definition monte_carlo (cls : Family) (X iterations : Val)
    : M (ndarray * ndarray * ndarray) :=
  n ← lift (shape_at X 0);
  it ← lift (as_int iterations);
  (if decide (it < 0)%Z then raise ValueError else mret tt);;
  let preds := np.zeros2 n (Z.to_nat it) in
  preds ← for_each (seq 0 (Z.to_nat it)) (λ i preds,
      model ← getattr cls "model";
      y_ ← method model "Model.predict" [X];
      n' ← lift (shape_at X 0);
      y_ ← lift (as_array y_);
      y__ ← lift (np.reshape1 y_ n');
      lift (np.set_column preds i y__)) preds;
  mean ← lift (np.mean_axis1 preds);
  stdv ← lift (np.std_axis1 preds);
  mret (mean, stdv, preds).

(** [if len(X.shape) == 1: X = np.expand_dims(X, axis=0)] *)
Definition promote_row (X : Val) : M Val :=
  d ← lift (ndim_of X);
  if decide (d = 1%nat)
  then a ← lift (as_array X); mret (VArr (np.expand_dims0 a))
  else mret X.

(** [get_model_parameters] and [get_fmin], the same text in [NN],
    [Prob_NN] and [Bayesian_NN]. *)
Definition get_model_parameters (cls : Family) : M Val :=
  model ← getattr cls "model";
  if is_none model then mret VNone
  else
    model ← getattr cls "model";
    method model "Model.get_weights" [].

Definition get_fmin (cls : Family) : M Val :=
  model ← getattr cls "model";
  has_methods model;;
  X ← getattr cls "X";
  preds ← method model "Model.predict" [X];
  method preds "min" [].

End keras.

(** [NN] in [harlow/surrogate_model.py]. *)
Module NN.
Section methods.
Context `{Backend}.
Let cls := L_NN.

Definition create_model (input_dim : Val) : M Val :=
  inputs ← call "Input" [input_dim];
  hidden ← call "Dense" [VInt 64; VStr "relu"; inputs];
  hidden ← call "Dense" [VInt 32; VStr "relu"; hidden];
  hidden ← call "Dense" [VInt 16; VStr "relu"; hidden];
  out ← call "Dense" [VInt 1; VNone; hidden];
  lr ← getattr cls "learning_rate_initial";
  optimizer ← call "Adam" [lr];
  model ← call "Model" [inputs; out];
  setattr "model" model;;
  model ← getattr cls "model";
  method model "Model.compile" [optimizer; VStr "mse"];;
  mret VNone.

Definition init : M Val :=
  setattr "model" VNone;;
  create_model (VTuple [VInt 2]).

Definition fit (X y epochs : Val) : M Val :=
  model ← getattr cls "model";
  method model "Model.fit" [X; y; epochs; VInt 32];;
  mret VNone.

Definition update (X_new y_new : Val) : M Val :=
  lr ← getattr cls "learning_rate_update";
  optimizer ← call "Adam" [lr];
  model ← getattr cls "model";
  method model "Model.compile" [optimizer; VStr "root_mean_squared_error"];;
  model ← getattr cls "model";
  method model "Model.fit" [X_new; y_new; VInt 10; VInt 32; VBool false];;
  mret VNone.

Definition predict (X : Val) : M Val :=
  model ← getattr cls "model";
  b ← lift (truthy model);
  if b : bool then
    X ← promote_row X;
    model ← getattr cls "model";
    preds ← method model "Model.predict" [X];
    mret preds
  else mret VNone.

End methods.
End NN.

(** [Prob_NN] in [harlow/surrogate_model.py]. *)
Module Prob_NN.
Section methods.
Context `{Backend}.
Let cls := L_Prob_NN.

Definition create_model : M Val :=
  inputs ← call "Input" [VTuple [VInt 2]];
  hidden ← call "Dense" [VInt 20; VStr "relu"; inputs];
  hidden ← call "Dense" [VInt 50; VStr "relu"; hidden];
  hidden ← call "Dense" [VInt 20; VStr "relu"; hidden];
  params ← call "Dense" [VInt 2; VNone; hidden];
  dist ← call "DistributionLambda" [VStr "normal_sp"; params];
  lr ← getattr cls "learning_rate_initial";
  optimizer ← call "Adam" [lr];
  model ← call "Model" [inputs; dist];
  setattr "model" model;;
  model ← getattr cls "model";
  method model "Model.compile" [optimizer; VStr "NLL"];;
  mret VNone.

Definition init : M Val :=
  setattr "model" VNone;;
  create_model.

Definition fit (X y epochs : Val) : M Val :=
  model ← getattr cls "model";
  method model "Model.fit" [X; y; epochs; VInt 32];;
  mret VNone.

Definition update (X_new y_new : Val) : M Val :=
  lr ← getattr cls "learning_rate_update";
  optimizer ← call "Adam" [lr];
  model ← getattr cls "model";
  method model "Model.compile" [optimizer; VStr "NLL"];;
  model ← getattr cls "model";
  method model "Model.fit" [X_new; y_new; VInt 10; VInt 32];;
  mret VNone.

(** The statement [mean, stdv, preds] under [if return_samples:] builds a
    tuple and drops it. *)
Definition predict (X iterations return_samples : Val) : M Val :=
  model ← getattr cls "model";
  b ← lift (truthy model);
  if b : bool then
    '(mean, stdv, preds) ← monte_carlo cls X iterations;
    rs ← lift (truthy return_samples);
    (if rs : bool then mret (VTuple [VArr mean; VArr stdv; VArr preds]) else mret VNone);;
    mret (VTuple [VArr mean; VArr stdv])
  else mret VNone.

End methods.
End Prob_NN.

(** The five [DenseFlipout] layers and the distribution head of the two
    Bayesian networks; [x] is what the divergence functions close over. *)
Section flipout.
Context `{Backend}.

Definition flipout_stack (inputs activation x : Val) : M Val :=
  hidden ← call "DenseFlipout" [VInt 128; activation; x; inputs];
  hidden ← call "DenseFlipout" [VInt 64; activation; x; hidden];
  hidden ← call "DenseFlipout" [VInt 32; activation; x; hidden];
  hidden ← call "DenseFlipout" [VInt 16; activation; x; hidden];
  params ← call "DenseFlipout" [VInt 2; VNone; x; hidden];
  call "DistributionLambda" [VStr "normal_sp"; params].

End flipout.

(** [Bayesian_NN] in [harlow/surrogate_model.py]. *)
Module Bayesian_NN.
Section methods.
Context `{Backend}.
Let cls := L_Bayesian_NN.

Definition create_model (x : Val) : M Val :=
  inputs ← call "Input" [VTuple [VInt 2]];
  dist ← flipout_stack inputs (VStr "relu") x;
  model ← call "Model" [inputs; dist];
  setattr "model" model;;
  model ← getattr cls "model";
  has_methods model;;
  lr ← getattr cls "learning_rate_initial";
  optimizer ← call "Adam" [lr];
  method model "Model.compile" [optimizer; VStr "NLL"];;
  mret VNone.

Definition init (X : Val) : M Val :=
  setattr "model" VNone;;
  setattr "is_probabilistic" (VBool true);;
  create_model X.

Definition fit (X y epochs verbose : Val) : M Val :=
  setattr "X" X;;
  setattr "y" y;;
  model ← getattr cls "model";
  method model "Model.fit" [X; y; epochs; VInt 32; verbose];;
  mret VNone.

(** [self._create_model] is defined nowhere. *)
Definition update (X_new y_new epochs verbose : Val) : M Val :=
  model ← getattr cls "model";
  if is_none model then
    getattr cls "_create_model";;
    raise TypeError
  else
    model ← getattr cls "model";
    has_methods model;;
    lr ← getattr cls "learning_rate_update";
    optimizer ← call "Adam" [lr];
    method model "Model.compile" [optimizer; VStr "NLL"];;
    model ← getattr cls "model";
    method model "Model.fit" [X_new; y_new; epochs; VInt 32; verbose];;
    mret VNone.

Definition predict (X iterations return_samples : Val) : M Val :=
  model ← getattr cls "model";
  b ← lift (truthy model);
  if b : bool then
    '(mean, stdv, preds) ← monte_carlo cls X iterations;
    rs ← lift (truthy return_samples);
    (if rs : bool then mret (VTuple [VArr mean; VArr stdv; VArr preds]) else mret VNone);;
    mret (VTuple [VArr mean; VArr stdv])
  else mret VNone.

End methods.
End Bayesian_NN.

(** [Vanilla_NN] in [harlow/surrogating/surrogate_model.py]. *)
Module Vanilla_NN.
Section methods.
Context `{Backend}.
Let cls := S_Vanilla_NN.

Definition init (epochs batch_size loss : Val) : M Val :=
  setattr "model" VNone;;
  setattr "epochs" epochs;;
  setattr "batch_size" batch_size;;
  setattr "loss" loss;;
  mret VNone.

Definition create_model (input_dim activation learning_rate : Val) : M Val :=
  inputs ← call "Input" [input_dim];
  hidden ← call "Dense" [VInt 64; activation; inputs];
  hidden ← call "Dense" [VInt 32; activation; hidden];
  hidden ← call "Dense" [VInt 16; activation; hidden];
  out ← call "Dense" [VInt 1; VNone; hidden];
  model ← call "Model" [inputs; out];
  setattr "model" model;;
  model ← getattr cls "model";
  has_methods model;;
  optimizer ← call "Adam" [learning_rate];
  method model "Model.compile" [optimizer; VStr "mse"];;
  mret VNone.

Definition fit (X y : Val) : M Val :=
  model ← getattr cls "model";
  epochs ← getattr cls "epochs";
  batch_size ← getattr cls "batch_size";
  method model "Model.fit" [X; y; epochs; batch_size];;
  mret VNone.

Definition update (X_new y_new : Val) : M Val :=
  lr ← getattr cls "learning_rate_update";
  optimizer ← call "Adam" [lr];
  model ← getattr cls "model";
  loss ← getattr cls "loss";
  method model "Model.compile" [optimizer; loss];;
  model ← getattr cls "model";
  epochs ← getattr cls "epochs";
  batch_size ← getattr cls "batch_size";
  method model "Model.fit" [X_new; y_new; epochs; batch_size; VBool false];;
  mret VNone.

Definition predict (X : Val) : M Val :=
  model ← getattr cls "model";
  b ← lift (truthy model);
  if b : bool then
    X ← promote_row X;
    model ← getattr cls "model";
    preds ← method model "Model.predict" [X];
    setattr "preds" preds;;
    getattr cls "preds"
  else mret VNone.

End methods.
End Vanilla_NN.

(** [Vanilla_BayesianNN] in [harlow/surrogating/surrogate_model.py]. *)
Module Vanilla_BayesianNN.
Section methods.
Context `{Backend}.
Let cls := S_Vanilla_BayesianNN.

Definition init (epochs batch_size : Val) : M Val :=
  setattr "model" VNone;;
  setattr "epochs" epochs;;
  setattr "batch_size" batch_size;;
  mret VNone.

(** The divergence functions are bound methods reading [self.X]; the
    [learning_rate] argument is not used. *)
Definition create_model (input_dim activation learning_rate : Val) : M Val :=
  inputs ← call "Input" [input_dim];
  dist ← flipout_stack inputs activation (VStr "self");
  model ← call "Model" [inputs; dist];
  setattr "model" model;;
  model ← getattr cls "model";
  has_methods model;;
  lr ← getattr cls "learning_rate_initial";
  optimizer ← call "Adam" [lr];
  method model "Model.compile" [optimizer; VStr "NLL"];;
  mret VNone.

Definition fit (X y : Val) : M Val :=
  setattr "X" X;;
  setattr "y" y;;
  model ← getattr cls "model";
  epochs ← getattr cls "epochs";
  batch_size ← getattr cls "batch_size";
  method model "Model.fit" [X; y; epochs; batch_size; VBool true];;
  mret VNone.

Definition update (X_new y_new : Val) : M Val :=
  model ← getattr cls "model";
  if is_none model then
    getattr cls "_create_model";;
    raise TypeError
  else
    model ← getattr cls "model";
    has_methods model;;
    lr ← getattr cls "learning_rate_update";
    optimizer ← call "Adam" [lr];
    method model "Model.compile" [optimizer; VStr "NLL"];;
    model ← getattr cls "model";
    epochs ← getattr cls "epochs";
    batch_size ← getattr cls "batch_size";
    method model "Model.fit" [X_new; y_new; epochs; batch_size];;
    mret VNone.

Definition predict (X iterations : Val) : M Val :=
  model ← getattr cls "model";
  b ← lift (truthy model);
  if b : bool then
    '(mean, stdv, preds) ← monte_carlo cls X iterations;
    setattr "predictions" (VArr preds);;
    mret (VTuple [VArr mean; VArr stdv])
  else mret VNone.

Definition get_predictions : M Val := getattr cls "predictions".

End methods.
End Vanilla_BayesianNN.

(** ** The functional (TensorFlow Probability) Gaussian Process

    [GaussianProcessTFP] has the same methods in both files, except that
    [__init__] of the first generation also calls [create_model]. *)

Module GaussianProcessTFP.
Section methods.
Context `{Backend} (cls : Family).

Definition create_model : M Val :=
  joint ← call "JointDistributionNamed" [VStr "self"];
  setattr "gp_joint_model" joint;;
  mret VNone.

Definition init (train_iterations : Val) : M Val :=
  setattr "model" VNone;;
  setattr "train_iterations" train_iterations;;
  match cls with
  | L_GaussianProcessTFP => create_model
  | _ => mret VNone
  end.

(** [train_model()]: one Adam step on [-self.target_log_prob(...)]. *)
Definition train_model (optimizer : Val) : M Val :=
  amplitude ← getattr cls "amplitude_var";
  length_scale ← getattr cls "length_scale_var";
  noise ← getattr cls "observation_noise_variance_var";
  joint ← getattr cls "gp_joint_model";
  observations ← getattr cls "observations";
  call "train_model" [optimizer; joint; amplitude; length_scale; noise; observations].

Definition optimize_parameters (verbose : Val) : M Val :=
  constrain_positive ← call "Shift(tiny)(Exp())" [];
  v ← call "TransformedVariable" [VFloat 1.0; constrain_positive; VStr "amplitude"];
  setattr "amplitude_var" v;;
  v ← call "TransformedVariable" [VFloat 1.0; constrain_positive; VStr "length_scale"];
  setattr "length_scale_var" v;;
  v ← call "TransformedVariable"
        [VFloat 1.0; constrain_positive; VStr "observation_noise_variance_var"];
  setattr "observation_noise_variance_var" v;;
  a ← getattr cls "amplitude_var";
  l ← getattr cls "length_scale_var";
  o ← getattr cls "observation_noise_variance_var";
  trainable_variables ← call "trainable_variables" [a; l; o];
  optimizer ← call "Adam" [VFloat 0.01; trainable_variables];
  iterations ← getattr cls "train_iterations";
  n ← lift (as_int iterations);
  (if decide (n < 0)%Z then raise ValueError else mret tt);;
  iterations ← getattr cls "train_iterations";
  n ← lift (as_int iterations);
  for_each (seq 0 (Z.to_nat n)) (λ _ lls_, loss ← train_model optimizer;
                                    mret (lls_ ++ [loss])) [];;
  a ← getattr cls "amplitude_var";
  l ← getattr cls "length_scale_var";
  kernel ← call "ExponentiatedQuadratic" [a; l];
  setattr "kernel" kernel;;
  (if equals_one verbose then print;; print;; print;; print else mret tt);;
  mret VNone.

Definition fit (X y : Val) : M Val :=
  setattr "observation_index_points" X;;
  setattr "observations" y;;
  optimize_parameters (VInt 0).

Definition predict (X iterations return_std return_samples : Val) : M Val :=
  kernel ← getattr cls "kernel";
  points ← getattr cls "observation_index_points";
  observations ← getattr cls "observations";
  noise ← getattr cls "observation_noise_variance_var";
  gprm ← call "GaussianProcessRegressionModel"
            [kernel; X; points; observations; noise; VFloat 0.0];
  samples ← method gprm "sample" [iterations];
  rs ← lift (truthy return_samples);
  if rs : bool then
    rstd ← lift (truthy return_std);
    if rstd : bool then
      mean ← call "np.mean(axis=0)" [samples];
      std ← call "np.std(axis=0)" [samples];
      raw ← method samples "numpy" [];
      mret (VTuple [mean; std; raw])
    else
      mean ← call "np.mean(axis=0)" [samples];
      raw ← method samples "numpy" [];
      mret (VTuple [mean; raw])
  else
    rstd ← lift (truthy return_std);
    if rstd : bool then
      mean ← call "np.mean(axis=0)" [samples];
      std ← call "np.std(axis=0)" [samples];
      mret (VTuple [mean; std])
    else call "np.mean(axis=0)" [samples].

Definition update (new_X new_y : Val) : M Val :=
  points ← getattr cls "observation_index_points";
  X ← lift (concatenate points new_X);
  setattr "observation_index_points" X;;
  new_ndim ← lift (ndim_of new_y);
  observations ← getattr cls "observations";
  ndim ← lift (ndim_of observations);
  new_y ← (if decide (ndim < new_ndim)%nat then lift (flatten new_y) else mret new_y);
  observations ← getattr cls "observations";
  y ← lift (concatenate observations new_y);
  setattr "observations" y;;
  optimize_parameters (VBool false).

End methods.
End GaussianProcessTFP.

(** ** Exact-GP surrogates on gpytorch

    [GaussianProcessRegression], [ModelListGaussianProcess],
    [BatchIndependentGaussianProcess], [MultiTaskGaussianProcess] and
    [DeepKernelMultiTaskGaussianProcess] share the text of [fit], [update]
    and (but for the model list) [predict]; they differ in [create_model],
    in how [fit] stores its arguments, in the marginal likelihood and in
    [get_noise]. A training tensor is an array; a scalar tensor is its
    number. *)

Module gpytorch.

(** What distinguishes one family from another inside the shared text. *)
Record Variant `{Backend} : Type := mk_Variant {
  store : Val → M Val;           (* what [fit] keeps of an argument *)
  create_model : M Val;
  mll_class : string;            (* the marginal log likelihood *)
  forward : M Val;               (* [self.model(...)] *)
  targets : M Val;               (* the targets handed to [self.mll] *)
  get_noise : M Val
}.

Section shared.
Context `{Backend} (cls : Family) (V : Variant).

(** [self.train_y.shape[0] != self.train_X.shape[0]] raises. *)
Definition check_rows : M unit :=
  train_y ← getattr cls "train_y";
  rows_y ← lift (shape_at train_y 0);
  train_X ← getattr cls "train_X";
  rows_X ← lift (shape_at train_X 0);
  if decide (rows_y ≠ rows_X) then raise ValueError else mret tt.

(** The body of [for _i in range(self.training_max_iter)]: the loss of
    this iteration, the loss ratio, and whether the loop breaks. *)
Definition train_iteration (loss_0 : Val) : M (Val * Val * bool) :=
  optimizer ← getattr cls "optimizer";
  method optimizer "optimizer.zero_grad" [];;
  output ← forward V;
  mll ← getattr cls "mll";
  y ← targets V;
  value ← method mll "mll.__call__" [output; y];
  loss ← lift (py_neg value);
  call "loss.backward" [loss];;
  vec_loss ← getattr cls "vec_loss";
  item ← lift (item_of loss);
  vec_loss ← lift (py_append vec_loss item);
  setattr "vec_loss" vec_loss;;
  optimizer ← getattr cls "optimizer";
  method optimizer "optimizer.step" [];;
  rate ← getattr cls "min_loss_rate";
  configured ← lift (truthy rate);
  loss_ratio ← (if configured : bool then
                  item ← lift (item_of loss);
                  decrease ← lift (py_sub loss_0 item);
                  rate ← getattr cls "min_loss_rate";
                  item ← lift (item_of loss);
                  scaled ← lift (py_mul rate item);
                  lift (py_sub decrease scaled)
                else mret VNone);
  show_progress ← getattr cls "show_progress";
  shown ← lift (truthy show_progress);
  (if shown : bool then print else mret tt);;
  noise ← get_noise V;
  setattr "noise_std" noise;;
  rate ← getattr cls "min_loss_rate";
  configured ← lift (truthy rate);
  if configured : bool then
    negative ← lift (py_lt_zero loss_ratio);
    mret (loss, loss_ratio, negative)
  else mret (loss, loss_ratio, false).

(** The loop: [n] iterations are left, [last] is the binding of the local
    variables [loss] and [loss_ratio], if any. *)
Fixpoint train_loop (n : nat) (loss_0 : Val) (last : option (Val * Val))
    : M (option (Val * Val)) :=
  match n with
  | O => mret last
  | S n' =>
      '(loss, loss_ratio, stop) ← train_iteration loss_0;
      if stop : bool then mret (Some (loss, loss_ratio))
      else
        loss_0 ← lift (item_of loss);
        train_loop n' loss_0 (Some (loss, loss_ratio))
  end.

Definition fit (train_X train_y : Val) : M Val :=
  (if is_none train_X || is_none train_y then warn "fit without arguments"
   else
     X ← store V train_X;
     setattr "train_X" X;;
     y ← store V train_y;
     setattr "train_y" y);;
  create_model V;;
  model ← getattr cls "model";
  method model "model.train" [];;
  likelihood ← getattr cls "likelihood";
  method likelihood "likelihood.train" [];;
  optimizer ← getattr cls "optimizer";
  (if is_none optimizer then
     model ← getattr cls "model";
     parameters ← method model "model.parameters" [];
     lr ← getattr cls "learning_rate";
     optimizer ← call "torch.optim.Adam" [parameters; lr];
     setattr "optimizer" optimizer
   else mret tt);;
  likelihood ← getattr cls "likelihood";
  model ← getattr cls "model";
  mll ← call (mll_class V) [likelihood; model];
  setattr "mll" mll;;
  setattr "vec_loss" (VList []);;
  let loss_0 := VF64 infinity in
  max_iter ← getattr cls "training_max_iter";
  n ← lift (as_int max_iter);
  last ← train_loop (Z.to_nat n) loss_0 None;
  match last with
  | None => raise UnboundLocalError
  | Some _ => print;; mret VNone
  end.

Definition update (new_X new_y : Val) : M Val :=
  train_X ← getattr cls "train_X";
  full_X ← lift (concatenate train_X new_X);
  train_y ← getattr cls "train_y";
  full_y ← lift (concatenate train_y new_y);
  setattr "optimizer" VNone;;
  fit full_X full_y.

(** [predict] of the four single-model families; [convert] is the cast of
    [X_pred] to a tensor, commented out in [GaussianProcessRegression]. *)
Definition predict (convert : Val → M Val) (fast_pred_var : M Val)
    (X_pred return_std : Val) : M Val :=
  X_pred ← convert X_pred;
  model ← getattr cls "model";
  method model "model.eval" [];;
  likelihood ← getattr cls "likelihood";
  method likelihood "likelihood.eval" [];;
  fast ← fast_pred_var;
  call "torch.no_grad, fast_pred_var" [fast];;
  likelihood ← getattr cls "likelihood";
  model ← getattr cls "model";
  latent ← method model "model.__call__" [X_pred];
  prediction ← method likelihood "likelihood.__call__" [latent];
  setattr "prediction" prediction;;
  prediction ← getattr cls "prediction";
  mean ← method prediction "prediction.mean" [];
  setattr "mean" mean;;
  prediction ← getattr cls "prediction";
  var ← method prediction "prediction.variance" [];
  setattr "var" var;;
  prediction ← getattr cls "prediction";
  var ← method prediction "prediction.variance" [];
  std ← method var "sqrt" [];
  setattr "std" std;;
  prediction ← getattr cls "prediction";
  region ← method prediction "prediction.confidence_region" [];
  match region with
  | VTuple [cr_l; cr_u] =>
      setattr "cr_l" cr_l;;
      setattr "cr_u" cr_u;;
      rstd ← lift (truthy return_std);
      if rstd : bool then
        prediction ← getattr cls "prediction";
        sample ← method prediction "prediction.sample" [];
        std ← getattr cls "std";
        mret (VTuple [sample; std])
      else
        prediction ← getattr cls "prediction";
        method prediction "prediction.sample" []
  | _ => raise NotModelled
  end.

(** [sample_posterior(n_samples)] of the single-model families. *)
Definition sample_posterior (n_samples : Val) : M Val :=
  model ← getattr cls "model";
  method model "model.eval" [];;
  likelihood ← getattr cls "likelihood";
  method likelihood "likelihood.eval" [];;
  prediction ← getattr cls "prediction";
  method prediction "prediction.n_sample" [n_samples].

(** [self.model.likelihood.noise.sqrt()] *)
Definition likelihood_noise_sqrt : M Val :=
  model ← getattr cls "model";
  method model "model.likelihood.noise.sqrt" [].

(** [torch.atleast_2d(torch.tensor(x).float())] *)
Definition as_tensor_2d (x : Val) : M Val :=
  call "torch.atleast_2d(torch.tensor(.).float())" [x].

(** The assignments from [self.training_max_iter] to [self.covar_module],
    common to every [__init__]. *)
Definition init_common (training_max_iter learning_rate min_loss_rate
    mean covar : Val) : M unit :=
  setattr "training_max_iter" training_max_iter;;
  setattr "noise_std" VNone;;
  setattr "likelihood" VNone;;
  setattr "mll" VNone;;
  setattr "learning_rate" learning_rate;;
  setattr "min_loss_rate" min_loss_rate;;
  setattr "mean_module" mean;;
  setattr "covar_module" covar.

(** The warning for a missing optimizer and the optional silencing of
    warnings that close every [__init__] before [create_model]. *)
Definition init_warnings (silence_warnings : Val) : M unit :=
  optimizer ← getattr cls "optimizer";
  (if is_none optimizer then warn "No optimizer specified, using default."
   else mret tt);;
  silence ← lift (truthy silence_warnings);
  if silence : bool then
    call "warnings.filterwarnings" [VStr "DeprecationWarning"];;
    call "warnings.filterwarnings" [VStr "UserWarning"];;
    call "warnings.filterwarnings" [VStr "VisibleDeprecationWarning"];;
    mret tt
  else mret tt.

End shared.
End gpytorch.

(** Second generation only: the [fast_pred_var] constructor argument. *)
Definition second_generation (cls : Family) : bool :=
  match cls with
  | S_VanillaGaussianProcess | S_GaussianProcessTFP | S_GaussianProcessRegression
  | S_ModelListGaussianProcess | S_BatchIndependentGaussianProcess
  | S_MultiTaskGaussianProcess | S_DeepKernelMultiTaskGaussianProcess
  | S_Vanilla_NN | S_Vanilla_BayesianNN => true
  | _ => false
  end.

Section fast_pred_var.
Context `{Backend} (cls : Family).

(** The argument of [gpytorch.settings.fast_pred_var(...)] in [predict]. *)
Definition fast_pred_var_setting : M Val :=
  if second_generation cls then getattr cls "fast_pred_var" else mret VNone.

Definition set_fast_pred_var (fast_pred_var : Val) : M unit :=
  if second_generation cls then setattr "fast_pred_var" fast_pred_var else mret tt.

End fast_pred_var.

(** [GaussianProcessRegression] (second generation). *)
Module GaussianProcessRegression.
Section methods.
Context `{Backend}.
Let cls := S_GaussianProcessRegression.

Definition create_model : M Val :=
  setattr "optimizer" VNone;;
  gpytorch.check_rows cls;;
  likelihood ← call "GaussianLikelihood" [];
  setattr "likelihood" likelihood;;
  train_X ← getattr cls "train_X";
  train_y ← getattr cls "train_y";
  likelihood ← getattr cls "likelihood";
  model ← call "ExactGPModel" [train_X; train_y; likelihood];
  setattr "model" model;;
  mret VNone.

Definition get_noise : M Val := gpytorch.likelihood_noise_sqrt cls.

Definition variant : gpytorch.Variant :=
  {| gpytorch.store := mret;
     gpytorch.create_model := create_model;
     gpytorch.mll_class := "ExactMarginalLogLikelihood";
     gpytorch.forward :=
       model ← getattr cls "model";
       train_X ← getattr cls "train_X";
       method model "model.__call__" [train_X];
     gpytorch.targets := getattr cls "train_y";
     gpytorch.get_noise := get_noise |}.

Definition init (train_X train_y training_max_iter learning_rate min_loss_rate
    optimizer mean covar show_progress silence_warnings fast_pred_var : Val) : M Val :=
  setattr "model" VNone;;
  setattr "train_X" train_X;;
  setattr "train_y" train_y;;
  gpytorch.init_common training_max_iter learning_rate min_loss_rate mean covar;;
  setattr "optimizer" optimizer;;
  setattr "show_progress" show_progress;;
  setattr "predictions" VNone;;
  setattr "fast_pred_var" fast_pred_var;;
  gpytorch.init_warnings cls silence_warnings;;
  create_model.

Definition fit (train_X train_y : Val) : M Val := gpytorch.fit cls variant train_X train_y.

Definition update (new_X new_y : Val) : M Val := gpytorch.update cls variant new_X new_y.

Definition predict (X_pred return_std : Val) : M Val :=
  gpytorch.predict cls mret (fast_pred_var_setting cls) X_pred return_std.

Definition sample_posterior := gpytorch.sample_posterior cls.

End methods.
End GaussianProcessRegression.

(** [BatchIndependentGaussianProcess] and [MultiTaskGaussianProcess], both
    generations: one text but for the backbone class. *)
Module MultiTaskGaussianProcess.
Section methods.
Context `{Backend} (cls : Family).

Definition backbone : string :=
  match cls with
  | L_BatchIndependentGaussianProcess | S_BatchIndependentGaussianProcess =>
      "BatchIndependentMultitaskGPModel"
  | _ => "MultitaskGPModel"
  end.

(** The checks and the likelihood shared with the deep-kernel family. *)
Definition create_likelihood : M unit :=
  setattr "optimizer" VNone;;
  gpytorch.check_rows cls;;
  train_y ← getattr cls "train_y";
  tasks_y ← lift (shape_at train_y 1);
  num_tasks ← getattr cls "num_tasks";
  (if differs_from_nat tasks_y num_tasks then raise ValueError else mret tt);;
  num_tasks ← getattr cls "num_tasks";
  likelihood ← call "MultitaskGaussianLikelihood" [num_tasks];
  setattr "likelihood" likelihood.

Definition create_model : M Val :=
  create_likelihood;;
  train_X ← getattr cls "train_X";
  train_y ← getattr cls "train_y";
  likelihood ← getattr cls "likelihood";
  num_tasks ← getattr cls "num_tasks";
  model ← call backbone [train_X; train_y; likelihood; num_tasks];
  setattr "model" model;;
  mret VNone.

Definition get_noise : M Val := gpytorch.likelihood_noise_sqrt cls.

Definition variant_with (create : M Val) : gpytorch.Variant :=
  {| gpytorch.store := gpytorch.as_tensor_2d;
     gpytorch.create_model := create;
     gpytorch.mll_class := "ExactMarginalLogLikelihood";
     gpytorch.forward :=
       model ← getattr cls "model";
       train_X ← getattr cls "train_X";
       method model "model.__call__" [train_X];
     gpytorch.targets := getattr cls "train_y";
     gpytorch.get_noise := get_noise |}.

Definition variant : gpytorch.Variant := variant_with create_model.

Definition init (train_X train_y num_tasks training_max_iter learning_rate
    min_loss_rate optimizer mean covar show_progress silence_warnings
    fast_pred_var : Val) : M Val :=
  setattr "model" VNone;;
  setattr "train_X" train_X;;
  setattr "train_y" train_y;;
  setattr "num_tasks" num_tasks;;
  gpytorch.init_common training_max_iter learning_rate min_loss_rate mean covar;;
  setattr "optimizer" optimizer;;
  setattr "show_progress" show_progress;;
  setattr "predictions" VNone;;
  set_fast_pred_var cls fast_pred_var;;
  gpytorch.init_warnings cls silence_warnings;;
  create_model.

Definition fit (train_X train_y : Val) : M Val := gpytorch.fit cls variant train_X train_y.

Definition update (new_X new_y : Val) : M Val := gpytorch.update cls variant new_X new_y.

Definition predict (X_pred return_std : Val) : M Val :=
  gpytorch.predict cls gpytorch.as_tensor_2d (fast_pred_var_setting cls)
    X_pred return_std.

Definition sample_posterior := gpytorch.sample_posterior cls.

End methods.
End MultiTaskGaussianProcess.

(** [DeepKernelMultiTaskGaussianProcess] (second generation). *)
Module DeepKernelMultiTaskGaussianProcess.
Section methods.
Context `{Backend}.
Let cls := S_DeepKernelMultiTaskGaussianProcess.

Definition create_model : M Val :=
  MultiTaskGaussianProcess.create_likelihood cls;;
  train_X ← getattr cls "train_X";
  train_y ← getattr cls "train_y";
  likelihood ← getattr cls "likelihood";
  num_tasks ← getattr cls "num_tasks";
  num_features ← getattr cls "num_features";
  model ← call "DeepKernelLearningGPModel"
             [train_X; train_y; likelihood; num_tasks; num_features];
  setattr "model" model;;
  mret VNone.

Definition variant : gpytorch.Variant :=
  MultiTaskGaussianProcess.variant_with cls create_model.

(** [train_X.shape[-1]] *)
Definition last_dim (v : Val) : result Val :=
  match v with
  | VArr a =>
      match last (np.shape a) with
      | Some n => Ok (VInt (Z.of_nat n))
      | None => Raise IndexError
      end
  | VObj _ => Raise NotModelled
  | _ => Raise AttributeError
  end.

Definition init (train_X train_y num_tasks num_features training_max_iter
    learning_rate min_loss_rate optimizer mean covar show_progress
    silence_warnings fast_pred_var : Val) : M Val :=
  setattr "model" VNone;;
  setattr "train_X" train_X;;
  setattr "train_y" train_y;;
  setattr "num_tasks" num_tasks;;
  features ← (if is_none num_features then lift (last_dim train_X)
              else mret num_features);
  setattr "num_features" features;;
  gpytorch.init_common training_max_iter learning_rate min_loss_rate mean covar;;
  setattr "optimizer" optimizer;;
  setattr "show_progress" show_progress;;
  setattr "predictions" VNone;;
  setattr "fast_pred_var" fast_pred_var;;
  gpytorch.init_warnings cls silence_warnings;;
  create_model.

Definition fit (train_X train_y : Val) : M Val := gpytorch.fit cls variant train_X train_y.

Definition update (new_X new_y : Val) : M Val := gpytorch.update cls variant new_X new_y.

Definition predict (X_pred return_std : Val) : M Val :=
  gpytorch.predict cls gpytorch.as_tensor_2d (fast_pred_var_setting cls)
    X_pred return_std.

Definition sample_posterior := gpytorch.sample_posterior cls.

End methods.
End DeepKernelMultiTaskGaussianProcess.


(** [ModelListGaussianProcess], both generations. The tensors filled
    column by column in [predict] are library objects. *)
Module ModelListGaussianProcess.
Section methods.
Context `{Backend} (cls : Family).

(** The elements of a list or tuple, to iterate over. *)
Definition elements (v : Val) : result (list Val) :=
  match v with
  | VList l | VTuple l => Ok l
  | VNone | VBool _ | VInt _ | VFloat _ | VF64 _ => Raise TypeError
  | _ => Raise NotModelled
  end.

(** One pass of [for i, _name in enumerate(self.model_names)]. *)
Definition create_model_step (i : nat) (lists : list Val * list Val)
    : M (list Val * list Val) :=
  let '(list_likelihoods, list_surrogates) := lists in
  likelihood ← call "GaussianLikelihood" [];
  let list_likelihoods := list_likelihoods ++ [likelihood] in
  train_X ← getattr cls "train_X";
  list_params ← getattr cls "list_params";
  columns ← lift (py_index list_params i);
  X_i ← call "tensor[:, columns]" [train_X; columns];
  train_y ← getattr cls "train_y";
  y_i ← call "tensor[:, i]" [train_y; VInt (Z.of_nat i)];
  likelihood_i ← lift (py_index (VList list_likelihoods) i);
  surrogate ← call "ExactGPModel" [X_i; y_i; likelihood_i];
  let list_surrogates := list_surrogates ++ [surrogate] in
  model ← call "IndependentModelList" list_surrogates;
  setattr "model" model;;
  likelihood ← call "LikelihoodList" list_likelihoods;
  setattr "likelihood" likelihood;;
  mret (list_likelihoods, list_surrogates).

Definition create_model : M Val :=
  setattr "optimizer" VNone;;
  gpytorch.check_rows cls;;
  train_y ← getattr cls "train_y";
  tasks_y ← lift (shape_at train_y 1);
  model_names ← getattr cls "model_names";
  n ← lift (py_len model_names);
  (if decide (tasks_y ≠ n) then raise ValueError else mret tt);;
  model_names ← getattr cls "model_names";
  names ← lift (elements model_names);
  for_each (seq 0 (length names)) create_model_step ([], []);;
  mret VNone.

Definition get_noise : M Val :=
  model ← getattr cls "model";
  method model "[l.noise.sqrt() for l in model.likelihood.likelihoods]" [].

Definition variant : gpytorch.Variant :=
  {| gpytorch.store := gpytorch.as_tensor_2d;
     gpytorch.create_model := create_model;
     gpytorch.mll_class := "SumMarginalLogLikelihood";
     gpytorch.forward :=
       model ← getattr cls "model";
       model' ← getattr cls "model";
       inputs ← method model' "model.train_inputs" [];
       method model "model.__call__" [inputs];
     gpytorch.targets :=
       model ← getattr cls "model";
       method model "model.train_targets" [];
     gpytorch.get_noise := get_noise |}.

Definition init (train_X train_y model_names training_max_iter learning_rate
    min_loss_rate optimizer mean covar list_params show_progress
    silence_warnings fast_pred_var : Val) : M Val :=
  setattr "model_names" model_names;;
  setattr "model" VNone;;
  setattr "train_X" train_X;;
  setattr "train_y" train_y;;
  gpytorch.init_common training_max_iter learning_rate min_loss_rate mean covar;;
  setattr "list_params" list_params;;
  setattr "optimizer" optimizer;;
  setattr "show_progress" show_progress;;
  setattr "prediction" VNone;;
  set_fast_pred_var cls fast_pred_var;;
  model_names ← getattr cls "model_names";
  (if is_none model_names then raise ValueError else mret tt);;
  list_params ← getattr cls "list_params";
  (if is_none list_params then raise ValueError else mret tt);;
  gpytorch.init_warnings cls silence_warnings;;
  create_model.

Definition fit (train_X train_y : Val) : M Val := gpytorch.fit cls variant train_X train_y.

Definition update (new_X new_y : Val) : M Val := gpytorch.update cls variant new_X new_y.

(** [torch.zeros(X_pred.shape[0], len(self.model_names))] *)
Definition zeros_per_model (X_pred : Val) : M Val :=
  rows ← lift (shape_at X_pred 0);
  model_names ← getattr cls "model_names";
  n ← lift (py_len model_names);
  call "torch.zeros" [VInt (Z.of_nat rows); VInt (Z.of_nat n)].

(** One pass of the loop over [zip(self.model.models, self.prediction)]. *)
Definition predict_step (sample : Val) (j : nat) (prediction : Val) : M unit :=
  let col := VInt (Z.of_nat j) in
  mean ← getattr cls "mean";
  v ← method prediction "prediction.mean" [];
  call "tensor[:, j] = value" [mean; col; v];;
  var ← getattr cls "var";
  v ← method prediction "prediction.variance" [];
  call "tensor[:, j] = value" [var; col; v];;
  std ← getattr cls "std";
  v ← method prediction "prediction.variance" [];
  v ← method v "sqrt" [];
  call "tensor[:, j] = value" [std; col; v];;
  v ← method prediction "prediction.sample" [];
  call "tensor[:, j] = value" [sample; col; v];;
  region ← method prediction "prediction.confidence_region" [];
  match region with
  | VTuple [lower; upper] =>
      cr_l ← getattr cls "cr_l";
      call "tensor[:, j] = value" [cr_l; col; lower];;
      cr_u ← getattr cls "cr_u";
      call "tensor[:, j] = value" [cr_u; col; upper];;
      mret tt
  | _ => raise NotModelled
  end.

Fixpoint predict_loop (sample : Val) (j : nat) (predictions : list Val) : M unit :=
  match predictions with
  | [] => mret tt
  | prediction :: rest =>
      predict_step sample j prediction;;
      predict_loop sample (S j) rest
  end.

Definition predict (X_pred return_std : Val) : M Val :=
  X_pred ← gpytorch.as_tensor_2d X_pred;
  model ← getattr cls "model";
  method model "model.eval" [];;
  likelihood ← getattr cls "likelihood";
  method likelihood "likelihood.eval" [];;
  list_params ← getattr cls "list_params";
  X_list ← call "[X_pred[:, prm_list] for prm_list in list_params]" [X_pred; list_params];
  fast ← fast_pred_var_setting cls;
  call "torch.no_grad, fast_pred_var" [fast];;
  likelihood ← getattr cls "likelihood";
  model ← getattr cls "model";
  latent ← method model "model.__call__" [X_list];
  prediction ← method likelihood "likelihood.__call__" [latent];
  setattr "prediction" prediction;;
  z ← zeros_per_model X_pred; setattr "mean" z;;
  z ← zeros_per_model X_pred; setattr "cr_l" z;;
  z ← zeros_per_model X_pred; setattr "cr_u" z;;
  z ← zeros_per_model X_pred; setattr "std" z;;
  z ← zeros_per_model X_pred; setattr "var" z;;
  sample ← zeros_per_model X_pred;
  model ← getattr cls "model";
  models ← method model "model.models" [];
  prediction ← getattr cls "prediction";
  pairs ← call "zip" [models; prediction];
  predictions ← lift (elements pairs);
  predict_loop sample 0 predictions;;
  rstd ← lift (truthy return_std);
  if rstd : bool then
    std ← getattr cls "std";
    mret (VTuple [sample; std])
  else mret sample.

Definition sample_posterior (n_samples : Val) : M Val :=
  model ← getattr cls "model";
  method model "model.eval" [];;
  likelihood ← getattr cls "likelihood";
  method likelihood "likelihood.eval" [];;
  prediction ← getattr cls "prediction";
  call "[p.n_sample(n_samples) for p in prediction]" [prediction; n_samples].

End methods.
End ModelListGaussianProcess.

(** ** The surrogate contract

    Construction and the four operations of [Surrogate], dispatched on the
    class of the instance. Arguments are positional; an argument left out
    takes the default of the signature, a missing required one is the
    [TypeError] Python raises before the body runs. Arguments beyond the
    signature are dropped here, where Python raises [TypeError] before the
    body runs as well: such a call changes nothing on the instance. *)

Inductive Op : Type :=
| create_model (args : list Val)
| fit (args : list Val)
| predict (args : list Val)
| update (args : list Val).

Section contract.
Context `{Backend}.

Definition required (i : nat) (args : list Val) : M Val :=
  match args !! i with
  | Some v => mret v
  | None => raise TypeError
  end.

Definition optional (i : nat) (default : Val) (args : list Val) : Val :=
  match args !! i with
  | Some v => v
  | None => default
  end.

(** Calling the class: [__init__] on a new instance. *)
Definition construct (cls : Family) (args : list Val) : M Val :=
  match cls with
  | L_GaussianProcess | S_VanillaGaussianProcess =>
      GaussianProcess.init cls (optional 0 (VInt 10) args)
        (optional 1 (VKernelRef (class_kernel_ref cls)) args)
  | L_GaussianProcessTFP | S_GaussianProcessTFP =>
      GaussianProcessTFP.init cls (optional 0 (VInt 50) args)
  | S_GaussianProcessRegression =>
      train_X ← required 0 args; train_y ← required 1 args;
      GaussianProcessRegression.init train_X train_y
        (optional 2 (VInt 100) args) (optional 3 (VFloat 0.1) args)
        (optional 4 VNone args) (optional 5 VNone args) (optional 6 VNone args)
        (optional 7 VNone args) (optional 8 (VBool true) args)
        (optional 9 (VBool false) args) (optional 10 (VBool false) args)
  | L_ModelListGaussianProcess | S_ModelListGaussianProcess =>
      train_X ← required 0 args; train_y ← required 1 args;
      model_names ← required 2 args;
      ModelListGaussianProcess.init cls train_X train_y model_names
        (optional 3 (VInt 100) args) (optional 4 (VFloat 0.1) args)
        (optional 5 VNone args) (optional 6 VNone args) (optional 7 VNone args)
        (optional 8 VNone args) (optional 9 VNone args)
        (optional 10 (VBool true) args) (optional 11 (VBool false) args)
        (optional 12 (VBool false) args)
  | L_BatchIndependentGaussianProcess | S_BatchIndependentGaussianProcess
  | L_MultiTaskGaussianProcess | S_MultiTaskGaussianProcess =>
      train_X ← required 0 args; train_y ← required 1 args;
      num_tasks ← required 2 args;
      MultiTaskGaussianProcess.init cls train_X train_y num_tasks
        (optional 3 (VInt 100) args) (optional 4 (VFloat 0.1) args)
        (optional 5 VNone args) (optional 6 VNone args) (optional 7 VNone args)
        (optional 8 VNone args) (optional 9 (VBool true) args)
        (optional 10 (VBool false) args) (optional 11 (VBool false) args)
  | S_DeepKernelMultiTaskGaussianProcess =>
      train_X ← required 0 args; train_y ← required 1 args;
      num_tasks ← required 2 args;
      DeepKernelMultiTaskGaussianProcess.init train_X train_y num_tasks
        (optional 3 VNone args) (optional 4 (VInt 100) args)
        (optional 5 (VFloat 0.1) args) (optional 6 VNone args)
        (optional 7 VNone args) (optional 8 VNone args) (optional 9 VNone args)
        (optional 10 (VBool true) args) (optional 11 (VBool false) args)
        (optional 12 (VBool false) args)
  | L_NN => NN.init
  | L_Prob_NN => Prob_NN.init
  | L_Bayesian_NN => X ← required 0 args; Bayesian_NN.init X
  | S_Vanilla_NN =>
      Vanilla_NN.init (optional 0 (VInt 10) args) (optional 1 (VInt 32) args)
        (optional 2 (VStr "mse") args)
  | S_Vanilla_BayesianNN =>
      Vanilla_BayesianNN.init (optional 0 (VInt 10) args) (optional 1 (VInt 32) args)
  end.

Definition invoke_create_model (cls : Family) (args : list Val) : M Val :=
  match cls with
  | L_GaussianProcess | S_VanillaGaussianProcess => GaussianProcess.create_model cls
  | L_GaussianProcessTFP | S_GaussianProcessTFP => GaussianProcessTFP.create_model
  | S_GaussianProcessRegression => GaussianProcessRegression.create_model
  | L_ModelListGaussianProcess | S_ModelListGaussianProcess =>
      ModelListGaussianProcess.create_model cls
  | L_BatchIndependentGaussianProcess | S_BatchIndependentGaussianProcess
  | L_MultiTaskGaussianProcess | S_MultiTaskGaussianProcess =>
      MultiTaskGaussianProcess.create_model cls
  | S_DeepKernelMultiTaskGaussianProcess =>
      DeepKernelMultiTaskGaussianProcess.create_model
  | L_NN => NN.create_model (optional 0 (VTuple [VInt 2]) args)
  | L_Prob_NN => Prob_NN.create_model
  | L_Bayesian_NN => x ← required 0 args; Bayesian_NN.create_model x
  | S_Vanilla_NN =>
      Vanilla_NN.create_model (optional 0 (VTuple [VInt 2]) args)
        (optional 1 (VStr "relu") args) (optional 2 (VFloat 0.01) args)
  | S_Vanilla_BayesianNN =>
      Vanilla_BayesianNN.create_model (optional 0 (VTuple [VInt 2]) args)
        (optional 1 (VStr "relu") args) (optional 2 (VFloat 0.01) args)
  end.

Definition invoke_fit (cls : Family) (args : list Val) : M Val :=
  match cls with
  | L_GaussianProcess | S_VanillaGaussianProcess =>
      X ← required 0 args; y ← required 1 args; GaussianProcess.fit cls X y
  | L_GaussianProcessTFP | S_GaussianProcessTFP =>
      X ← required 0 args; y ← required 1 args; GaussianProcessTFP.fit cls X y
  | S_GaussianProcessRegression =>
      GaussianProcessRegression.fit (optional 0 VNone args) (optional 1 VNone args)
  | L_ModelListGaussianProcess | S_ModelListGaussianProcess =>
      ModelListGaussianProcess.fit cls (optional 0 VNone args) (optional 1 VNone args)
  | L_BatchIndependentGaussianProcess | S_BatchIndependentGaussianProcess
  | L_MultiTaskGaussianProcess | S_MultiTaskGaussianProcess =>
      MultiTaskGaussianProcess.fit cls (optional 0 VNone args) (optional 1 VNone args)
  | S_DeepKernelMultiTaskGaussianProcess =>
      DeepKernelMultiTaskGaussianProcess.fit (optional 0 VNone args)
        (optional 1 VNone args)
  | L_NN =>
      X ← required 0 args; y ← required 1 args;
      NN.fit X y (optional 2 (VInt 10) args)
  | L_Prob_NN =>
      X ← required 0 args; y ← required 1 args;
      Prob_NN.fit X y (optional 2 (VInt 10) args)
  | L_Bayesian_NN =>
      X ← required 0 args; y ← required 1 args;
      Bayesian_NN.fit X y (optional 2 (VInt 25) args) (optional 3 (VInt 0) args)
  | S_Vanilla_NN => X ← required 0 args; y ← required 1 args; Vanilla_NN.fit X y
  | S_Vanilla_BayesianNN =>
      X ← required 0 args; y ← required 1 args; Vanilla_BayesianNN.fit X y
  end.

Definition invoke_predict (cls : Family) (args : list Val) : M Val :=
  match cls with
  | L_GaussianProcess | S_VanillaGaussianProcess =>
      X ← required 0 args;
      GaussianProcess.predict cls X (optional 1 (VBool false) args)
  | L_GaussianProcessTFP | S_GaussianProcessTFP =>
      X ← required 0 args;
      GaussianProcessTFP.predict cls X (optional 1 (VInt 50) args)
        (optional 2 (VBool false) args) (optional 3 (VBool false) args)
  | S_GaussianProcessRegression =>
      X ← required 0 args;
      GaussianProcessRegression.predict X (optional 1 (VBool false) args)
  | L_ModelListGaussianProcess | S_ModelListGaussianProcess =>
      X ← required 0 args;
      ModelListGaussianProcess.predict cls X (optional 1 (VBool false) args)
  | L_BatchIndependentGaussianProcess | S_BatchIndependentGaussianProcess
  | L_MultiTaskGaussianProcess | S_MultiTaskGaussianProcess =>
      X ← required 0 args;
      MultiTaskGaussianProcess.predict cls X (optional 1 (VBool false) args)
  | S_DeepKernelMultiTaskGaussianProcess =>
      X ← required 0 args;
      DeepKernelMultiTaskGaussianProcess.predict X (optional 1 (VBool false) args)
  | L_NN => X ← required 0 args; NN.predict X
  | L_Prob_NN =>
      X ← required 0 args;
      Prob_NN.predict X (optional 1 (VInt 50) args) (optional 2 (VBool false) args)
  | L_Bayesian_NN =>
      X ← required 0 args;
      Bayesian_NN.predict X (optional 1 (VInt 50) args) (optional 2 (VBool false) args)
  | S_Vanilla_NN => X ← required 0 args; Vanilla_NN.predict X
  | S_Vanilla_BayesianNN =>
      X ← required 0 args; Vanilla_BayesianNN.predict X (optional 1 (VInt 50) args)
  end.

Definition invoke_update (cls : Family) (args : list Val) : M Val :=
  new_X ← required 0 args;
  new_y ← required 1 args;
  match cls with
  | L_GaussianProcess | S_VanillaGaussianProcess => GaussianProcess.update cls new_X new_y
  | L_GaussianProcessTFP | S_GaussianProcessTFP => GaussianProcessTFP.update cls new_X new_y
  | S_GaussianProcessRegression => GaussianProcessRegression.update new_X new_y
  | L_ModelListGaussianProcess | S_ModelListGaussianProcess =>
      ModelListGaussianProcess.update cls new_X new_y
  | L_BatchIndependentGaussianProcess | S_BatchIndependentGaussianProcess
  | L_MultiTaskGaussianProcess | S_MultiTaskGaussianProcess =>
      MultiTaskGaussianProcess.update cls new_X new_y
  | S_DeepKernelMultiTaskGaussianProcess =>
      DeepKernelMultiTaskGaussianProcess.update new_X new_y
  | L_NN => NN.update new_X new_y
  | L_Prob_NN => Prob_NN.update new_X new_y
  | L_Bayesian_NN =>
      Bayesian_NN.update new_X new_y (optional 2 (VInt 25) args) (optional 3 (VInt 0) args)
  | S_Vanilla_NN => Vanilla_NN.update new_X new_y
  | S_Vanilla_BayesianNN => Vanilla_BayesianNN.update new_X new_y
  end.

Definition invoke (cls : Family) (op : Op) : M Val :=
  match op with
  | create_model args => invoke_create_model cls args
  | fit args => invoke_fit cls args
  | predict args => invoke_predict cls args
  | update args => invoke_update cls args
  end.

(** The state after a sequence of operations, each run to its end whether
    it returns or raises. *)
Fixpoint run_ops (cls : Family) (ops : list Op) (st : State) : State :=
  match ops with
  | [] => st
  | op :: ops' => run_ops cls ops' (snd (invoke cls op st))
  end.

(** The life of an instance: construction, then operations. *)
Definition lifetime (cls : Family) (init_args : list Val) (ops : list Op)
    (st : State) : State :=
  run_ops cls ops (snd (construct cls init_args st)).

End contract.

(** The value of the class attribute [is_probabilistic] of each family. *)
Definition probabilistic (cls : Family) : bool :=
  match cls with
  | L_NN | S_Vanilla_NN => false
  | _ => true
  end.

(** ** Initial states *)

Section initial_states.
Context `{Backend}.

(** The state in which a new instance is constructed: an empty instance
    dictionary, the two class-level kernel objects as the class bodies
    leave them, and the kernel objects [ks] the caller built, at
    references 2, 3, ... *)
Definition class_kernels : gmap nat Kernel :=
  <[0%nat := default_kernel]> (<[1%nat := default_kernel]> ∅).

Fixpoint with_kernels (l : nat) (ks : list Kernel) (m : gmap nat Kernel)
    : gmap nat Kernel :=
  match ks with
  | [] => m
  | k :: ks' => <[l := k]> (with_kernels (S l) ks' m)
  end.

Definition new_instance (w : World) (ks : list Kernel) : State :=
  {| self := ∅; kernels := with_kernels 2 ks class_kernels; world := w; log := [] |}.

End initial_states.

(** ** A backend to run examples on

    Every library call returns its first argument ([None] without one) and
    leaves the world alone; in particular the optimiser of
    [GaussianProcessRegressor.fit] returns the template kernel unchanged. *)
Definition echo_backend : Backend :=
  {| World := unit; extern := λ _ args w, (Ok (hd VNone args), w) |}.

(** A default-constructed [GaussianProcess] after [fit] on two points of a
    one-dimensional input, on the echo backend. *)
Definition gp_fitted_example : @State echo_backend :=
  @mk_State echo_backend
    (
       <["noise_std" := VFloat (sqrt 1.0)]>
       (<["model" := VRegressor (VKernelRef 0) (VInt 10) (Some 2%nat)]>
       (<["y" := VArr (np.mk_nd [2]%nat [0; 1])]>
       (<["X" := VArr (np.mk_nd [2; 1]%nat [0; 1])]>
       (<["model" := VRegressor (VKernelRef 0) (VInt 10) None]>
       (<["kernel" := VKernelRef 0]>
       (<["noise_std" := VNone]>
       (<["train_restarts" := VInt 10]>
       (<["model" := VNone]> ∅)))))))))
    (<[2%nat := default_kernel]> class_kernels)
    tt
    ["GaussianProcessRegressor.fit"%string].

(** ** A backend on which every call succeeds

    Every library call returns a handle and leaves the world alone. *)
Definition handle_backend : Backend :=
  {| World := unit; extern := λ _ _ w, (Ok (VObj 0), w) |}.

(** A [GaussianProcessRegression] configured with [training_max_iter=0]. *)
Definition gpr_no_iterations : @State handle_backend :=
  @mk_State handle_backend
    (<["training_max_iter" := VInt 0]> (<["learning_rate" := VFloat 0.1]> ∅))
    ∅ tt [].

(** ** A backend whose optimiser moves the hyperparameters

    [GaussianProcessRegressor.fit] returns [fitted_kernel] whatever it is
    given; every other call returns its first argument. *)
Definition fitted_kernel : Kernel :=
  Sum (Product (ConstantKernel 2 (1e-5, 1e5)) (RBF 0.5 (1e-5, 1e5)))
      (WhiteKernel 0.01 (5e-5, 5e-2)).

Definition fitting_backend : Backend :=
  {| World := unit;
     extern := λ name args w,
       if decide (name = "GaussianProcessRegressor.fit"%string)
       then (Ok (VKernel fitted_kernel), w)
       else (Ok (hd VNone args), w) |}.

(** ** A backend with stochastic forward passes

    The world is a counter. [Model.predict] on an input with [n] rows
    returns the [n]-by-1 array filled with the counter and increments it,
    so that successive passes differ; every other call returns a handle. *)
Definition counting_backend : Backend :=
  {| World := nat;
     extern := λ name args w,
       if decide (name = "Model.predict"%string) then
         match args with
         | [_; VArr X] =>
             let n := hd 0%nat (np.shape X) in
             (Ok (VArr (np.mk_nd [n; 1%nat] (repeat (INR w) n))), S w)
         | _ => (Raise LibraryError, w)
         end
       else (Ok (VObj 0), w) |}.

(** What [predict] of a Monte-Carlo network may return: nothing, or the
    pair of the mean and the standard deviation. *)
Definition mean_and_std_only (r : result Val) : Prop :=
  match r with
  | Ok v => v = VNone ∨ ∃ mean stdv, v = VTuple [VArr mean; VArr stdv]
  | Raise _ => True
  end.

(** A [Vanilla_NN] right after construction: no model has been created. *)
Definition vanilla_nn_new : @State echo_backend :=
  snd (construct S_Vanilla_NN [] (@new_instance echo_backend tt [])).

(** A [Prob_NN] right after construction, on the counting backend. *)
Definition prob_nn_new : @State counting_backend :=
  snd (construct L_Prob_NN [] (@new_instance counting_backend 0%nat [])).

(** ** Loss histories of the training loop *)

(** How many times [optimizer.step()] has been called. *)
Fixpoint optimizer_steps (calls : list string) : nat :=
  match calls with
  | [] => 0
  | name :: calls' =>
      (if String.eqb name "optimizer.step" then 1 else 0) + optimizer_steps calls'
  end.

(** How many times the library entry point [name] has been called. *)
Fixpoint calls_to (name : string) (calls : list string) : nat :=
  match calls with
  | [] => 0
  | c :: calls' => (if String.eqb c name then 1 else 0) + calls_to name calls'
  end.

(** The value of [self.training_max_iter] as a number of iterations. *)
Definition max_iter (training_max_iter : option Val) : nat :=
  match training_max_iter with
  | Some (VInt n) => Z.to_nat n
  | _ => 0
  end.

(** [loss_ratio = (previous - current) - rate * current] is below zero, in
    binary64 as the loop computes it; before the first iteration the
    previous loss is [np.inf]. *)
Definition loss_ratio_negative (rate previous current : float) : bool :=
  ((previous - current) - rate * current <? 0)%float.

(** [losses] is the loss history of a loop of at most [n] iterations that
    stops right after the first iteration whose loss ratio is negative. *)
Fixpoint early_stop_trace (rate : float) (n : nat) (previous : float)
    (losses : list float) : Prop :=
  match n, losses with
  | O, [] => True
  | S n', l :: losses' =>
      if loss_ratio_negative rate previous l then losses' = []
      else early_stop_trace rate n' l losses'
  | _, _ => False
  end.

(** The loss history of [fit] for a given [min_loss_rate]: with a rate that
    Python treats as true, the early-stopping trace; with [None] or a zero,
    all [n] iterations. *)
Definition loss_history (min_loss_rate : option Val) (n : nat) (previous : float)
    (losses : list float) : Prop :=
  match min_loss_rate with
  | Some rate =>
      match truthy rate with
      | Ok true => ∃ rho, as_f64 rate = Ok rho
                          ∧ early_stop_trace rho n previous losses
      | Ok false => length losses = n
      | Raise _ => False
      end
  | None => False
  end.

(** ** A backend whose loss decreases and then stalls

    The world counts optimizer steps; the marginal log likelihood after
    [w] steps is [-3], [-1], [-1], [-1], ...; every other call returns a
    handle. *)
Definition stalling_backend : Backend :=
  {| World := nat;
     extern := λ name args w,
       if decide (name = "mll.__call__"%string) then
         (Ok (VF64 (match w with O => (-3)%float | _ => (-1)%float end)), w)
       else if decide (name = "optimizer.step"%string) then (Ok VNone, S w)
       else (Ok (VObj 0), w) |}.

(** A [GaussianProcessRegression] on two points of a one-dimensional
    input, with ten iterations at most and [min_loss_rate = 0.5], before
    its first [fit]. *)
Definition gpr_example : @State stalling_backend :=
  @mk_State stalling_backend
    (<["show_progress" := VBool false]>
     (<["optimizer" := VNone]>
     (<["min_loss_rate" := VF64 0.5]>
     (<["learning_rate" := VFloat 0.1]>
     (<["training_max_iter" := VInt 10]>
     (<["train_y" := VArr (np.mk_nd [2]%nat [0; 1])]>
     (<["train_X" := VArr (np.mk_nd [2; 1]%nat [0; 1])]> ∅)))))))
    ∅ 0%nat [].

(** ** A backend whose loss keeps rising

    The marginal log likelihood after [w] optimizer steps is [-1], [-2],
    [-3], [-3], ...: the losses are [1], [2], [3]. *)
Definition rising_backend : Backend :=
  {| World := nat;
     extern := λ name args w,
       if decide (name = "mll.__call__"%string) then
         (Ok (VF64 (match w with
                    | O => (-1)%float
                    | S O => (-2)%float
                    | _ => (-3)%float
                    end)), w)
       else if decide (name = "optimizer.step"%string) then (Ok VNone, S w)
       else (Ok (VObj 0), w) |}.

(** A [GaussianProcessRegression] constructed with [training_max_iter=3]
    and [min_loss_rate=0.0], before its first [fit]. *)
Definition gpr_zero_rate : @State rising_backend :=
  @mk_State rising_backend
    (<["show_progress" := VBool false]>
     (<["optimizer" := VNone]>
     (<["min_loss_rate" := VF64 0]>
     (<["learning_rate" := VFloat 0.1]>
     (<["training_max_iter" := VInt 3]>
     (<["train_y" := VArr (np.mk_nd [2]%nat [0; 1])]>
     (<["train_X" := VArr (np.mk_nd [2; 1]%nat [0; 1])]> ∅)))))))
    ∅ 0%nat [].

(** ** The benchmark functions at one point *)

(** The six-hump-camel polynomial at one point. *)
Definition camel_point (x y : R) : R :=
  (4 - 2.1 * x ^ 2 + x ^ 4 / 3) * x ^ 2 + x * y + (-4 + 4 * y ^ 2) * y ^ 2.

(** [shekel] at one point of R^4, written as the two loops compute it. *)
Definition shekel_inner_point (i : nat) (x0 x1 x2 x3 : R) : R :=
  0 + (x0 - test_functions.C_at 0 i) ^ 2 + (x1 - test_functions.C_at 1 i) ^ 2
    + (x2 - test_functions.C_at 2 i) ^ 2 + (x3 - test_functions.C_at 3 i) ^ 2.

Definition shekel_outer_point (x0 x1 x2 x3 : R) (outer : R) (i : nat) : R :=
  outer + 1 / (shekel_inner_point i x0 x1 x2 x3 + nth i test_functions.shekel_b 0).

Definition shekel_point (x0 x1 x2 x3 : R) : R :=
  -1.0 * fold_left (shekel_outer_point x0 x1 x2 x3) (seq 0 10) 0.

(** [peaks_2d] at one point. *)
Definition peaks_point (x1 x2 : R) : R :=
  3 * (1 - x1) ^ 2 * Rtrigo_def.exp (- x1 ^ 2 - (x2 + 1) ^ 2)
  - 10 * (x1 / 5 - x1 ^ 3 - x2 ^ 5) * Rtrigo_def.exp (- x1 ^ 2 - x2 ^ 2)
  - 1 / 3 * Rtrigo_def.exp (- (x1 + 1) ^ 2 - x2 ^ 2).

(** ** Assertions on runs *)

Section assertions.
Context `{Backend}.

(** [preserves I m]: running [m] from a state that satisfies [I] ends,
    normally or with an exception, in a state that satisfies [I]. *)
Definition preserves {A} (I : State → Prop) (m : M A) : Prop :=
  ∀ st, I st → I (snd (m st)).

(** The instance dictionary holds [o] under [name]. *)
Definition attr_is (name : string) (o : option Val) : State → Prop :=
  λ st, self st !! name = o.

(** The kernel object at reference [l] is [k]. *)
Definition kernel_is (l : nat) (k : Kernel) : State → Prop :=
  λ st, kernels st !! l = Some k.

(** [wp m Q st]: the outcome and final state of [m] run from [st]
    satisfy [Q]. *)
Definition wp {A} (m : M A) (Q : result A → State → Prop) (st : State) : Prop :=
  Q (fst (m st)) (snd (m st)).

(** The parts a gpytorch family supplies leave [is_probabilistic] alone. *)
Definition variant_untouched (V : gpytorch.Variant) : Prop :=
  (∀ o v, preserves (attr_is "is_probabilistic" o) (gpytorch.store V v))
  ∧ (∀ o, preserves (attr_is "is_probabilistic" o) (gpytorch.create_model V))
  ∧ (∀ o, preserves (attr_is "is_probabilistic" o) (gpytorch.forward V))
  ∧ (∀ o, preserves (attr_is "is_probabilistic" o) (gpytorch.targets V))
  ∧ (∀ o, preserves (attr_is "is_probabilistic" o) (gpytorch.get_noise V)).

End assertions.

(** The two classes of the classical Gaussian Process surrogate. *)
Definition classical (cls : Family) : Prop :=
  cls = L_GaussianProcess ∨ cls = S_VanillaGaussianProcess.

(** The noise level of a kernel whose top-level second operand is a
    white-noise kernel, as in [RBF() + WhiteKernel(n)]. *)
Definition second_operand_noise (k : Kernel) : option R :=
  match k with
  | Sum _ (WhiteKernel n _) | Product _ (WhiteKernel n _) => Some n
  | _ => None
  end.

(** The attributes the methods of the classical GP write. *)
Definition gp_attrs : list string :=
  ["model"; "train_restarts"; "noise_std"; "kernel"; "X"; "y"]%string.

(** ** Assertions on the training loop of the single-output exact GP *)

Section training_loop_assertions.
Context `{Backend}.

(** At the head of the loop: [c] optimizer steps had been made when the
    loop started, and the losses of the iterations run so far are [ls]. *)
Definition loop_inv (c : nat) (rate : option Val) (ls : list float) (st : State) : Prop :=
  optimizer_steps (log st) = (c + length ls)%nat
  ∧ self st !! "vec_loss" = Some (VList (map VF64 ls))
  ∧ lookup_attr S_GaussianProcessRegression (self st) "min_loss_rate" = rate.

(** Whether the iteration with loss [l] breaks the loop. *)
Definition stops (rate : option Val) (previous l : float) (stop : bool) : Prop :=
  match rate with
  | Some rate =>
      match truthy rate with
      | Ok true => ∃ rho, as_f64 rate = Ok rho
                          ∧ stop = loss_ratio_negative rho previous l
      | Ok false => stop = false
      | Raise _ => False
      end
  | None => False
  end.

Definition iteration_post (c : nat) (rate : option Val) (ls : list float)
    (previous : float) (r : result (Val * Val * bool)) (st : State) : Prop :=
  match r with
  | Ok (loss, _, stop) =>
      ∃ l, loss = VF64 l ∧ loop_inv c rate (ls ++ [l]) st ∧ stops rate previous l stop
  | Raise _ => (optimizer_steps (log st) <= c + length ls + 1)%nat
  end.

Definition loop_post (c : nat) (rate : option Val) (n : nat) (ls : list float)
    (previous : float) (last : option (Val * Val))
    (r : result (option (Val * Val))) (st : State) : Prop :=
  match r with
  | Ok last' =>
      ∃ ls', loop_inv c rate (ls ++ ls') st
             ∧ ((n = 0%nat ∧ ls' = [] ∧ last' = last)
                ∨ (last' ≠ None ∧ loss_history rate n previous ls'))
  | Raise _ => (optimizer_steps (log st) <= c + length ls + n)%nat
  end.

(** What [GaussianProcessRegression.fit] guarantees, from the state [st0]
    it starts in: the bound on optimizer steps in every outcome; on a
    normal return, the loss history and the number of steps. *)
Definition fit_post (st0 : State) (r : result Val) (st : State) : Prop :=
  let n := max_iter (lookup_attr S_GaussianProcessRegression (self st0)
                       "training_max_iter") in
  let rate := lookup_attr S_GaussianProcessRegression (self st0) "min_loss_rate" in
  (optimizer_steps (log st) <= optimizer_steps (log st0) + n)%nat
  ∧ match r with
    | Ok _ =>
        ∃ losses,
          self st !! "vec_loss" = Some (VList (map VF64 losses))
          ∧ optimizer_steps (log st)
            = (optimizer_steps (log st0) + length losses)%nat
          ∧ loss_history rate n infinity losses
    | Raise _ => True
    end.

(** The entry points whose result [fit] keeps and calls methods on. *)
Definition builds_an_object (name : string) : bool :=
  existsb (String.eqb name)
    ["GaussianLikelihood"; "ExactGPModel"; "torch.optim.Adam";
     "ExactMarginalLogLikelihood"]%string.

(** The library answers every call: the marginal log likelihood with a
    floating-point number, a constructor with an object. *)
Definition library_trains : Prop :=
  ∀ name args w, ∃ v w',
    extern name args w = (Ok v, w')
    ∧ (name = "mll.__call__"%string → ∃ x, v = VF64 x)
    ∧ (builds_an_object name = true → ∃ h, v = VObj h).

(** What the loop reads of the instance: the objects [fit] has just
    created, the data, the history so far, and the two settings. *)
Definition trainable (rate : Val) (stopping shown : bool) (st : State) : Prop :=
  let cls := S_GaussianProcessRegression in
  (∃ h, lookup_attr cls (self st) "optimizer" = Some (VObj h))
  ∧ (∃ h, lookup_attr cls (self st) "mll" = Some (VObj h))
  ∧ (∃ h, lookup_attr cls (self st) "model" = Some (VObj h))
  ∧ (∃ v, lookup_attr cls (self st) "train_X" = Some v)
  ∧ (∃ v, lookup_attr cls (self st) "train_y" = Some v)
  ∧ (∃ l, lookup_attr cls (self st) "vec_loss" = Some (VList l))
  ∧ lookup_attr cls (self st) "min_loss_rate" = Some rate
  ∧ truthy rate = Ok stopping
  ∧ (stopping = true → ∃ rho, as_f64 rate = Ok rho)
  ∧ (∃ sp, lookup_attr cls (self st) "show_progress" = Some sp ∧ truthy sp = Ok shown).

(** What [fit(X, y)] needs of its arguments and of the instance to get
    through: arrays with one number of rows, at least one iteration, a
    [min_loss_rate] and a [show_progress] that Python can test, and a rate
    that is a number when it is tested true. *)
Definition fit_ready (X y : Val) (st : State) : Prop :=
  let cls := S_GaussianProcessRegression in
  is_none X = false ∧ is_none y = false
  ∧ (∃ a, shape_at X 0 = Ok a ∧ shape_at y 0 = Ok a)
  ∧ (∃ lr, lookup_attr cls (self st) "learning_rate" = Some lr)
  ∧ (∃ z, lookup_attr cls (self st) "training_max_iter" = Some (VInt z) ∧ (1 <= z)%Z)
  ∧ (∃ rate stopping,
       lookup_attr cls (self st) "min_loss_rate" = Some rate
       ∧ truthy rate = Ok stopping
       ∧ (stopping = true → ∃ rho, as_f64 rate = Ok rho))
  ∧ (∃ sp shown,
       lookup_attr cls (self st) "show_progress" = Some sp ∧ truthy sp = Ok shown).

End training_loop_assertions.

(* ===================================================================== *)
(** * Part II.  Properties                                                 *)
(* ===================================================================== *)

(** ** Arrays: element-wise operations on tabulated vectors *)

Section array_facts.
Implicit Types (f g : nat → R) (h : R → R → R) (n : nat).

Lemma zip_with_map_same {A} h (f g : A → R) (l : list A) :
  zip_with h (map f l) (map g l) = map (λ k, h (f k) (g k)) l.
Proof. induction l as [|a l IH]; simpl; [done | by rewrite IH]. Qed.

Lemma tabulate_ext n f g :
  (∀ k, (k < n)%nat → f k = g k) → np.tabulate n f = np.tabulate n g.
Proof.
  intros Hfg. unfold np.tabulate. f_equal.
  apply map_ext_in. intros k Hk. apply Hfg. apply in_seq in Hk. lia.
Qed.

Lemma broadcast_tabulate h n f g :
  np.broadcast h (np.tabulate n f) (np.tabulate n g)
  = Ok (np.tabulate n (λ k, h (f k) (g k))).
Proof.
  unfold np.broadcast, np.tabulate; simpl.
  rewrite decide_True by done. by rewrite zip_with_map_same.
Qed.

Lemma broadcast_scalar_l h r n g :
  np.broadcast h (np.scalar r) (np.tabulate n g)
  = Ok (np.tabulate n (λ k, h r (g k))).
Proof. unfold np.broadcast, np.tabulate; simpl. by rewrite map_map. Qed.

Lemma broadcast_scalar_r h r n f :
  np.broadcast h (np.tabulate n f) (np.scalar r)
  = Ok (np.tabulate n (λ k, h (f k) r)).
Proof. unfold np.broadcast, np.tabulate; simpl. by rewrite map_map. Qed.

Lemma power_tabulate n f k :
  np.power (np.tabulate n f) k = np.tabulate n (λ i, f i ^ k).
Proof. unfold np.power, np.umap, np.tabulate; simpl. by rewrite map_map. Qed.

Lemma column_tabulate X n m j :
  np.shape X = [n; m] → (j < m)%nat →
  np.column X j = Ok (np.tabulate n (λ i, nth (i * m + j)%nat (np.data X) 0)).
Proof.
  intros HX Hj. unfold np.column. rewrite HX.
  by rewrite decide_True by done.
Qed.

Lemma nth_map_seq n f i :
  (i < n)%nat → nth i (map f (seq 0 n)) 0 = f i.
Proof.
  intros Hi.
  rewrite (nth_indep (map f (seq 0 n)) 0 (f 0%nat))
    by (rewrite length_map, length_seq; lia).
  rewrite (map_nth f), seq_nth by done. done.
Qed.

Lemma array1_tabulate (l : list R) :
  np.array1 l = np.tabulate (length l) (λ i, nth i l 0).
Proof.
  unfold np.array1, np.tabulate. f_equal.
  apply nth_ext with (d := 0) (d' := 0).
  - by rewrite length_map, length_seq.
  - intros i Hi. by rewrite nth_map_seq.
Qed.

(** Indexing a row-major matrix assembled from rows of one width. *)
Lemma nth_concat_uniform (ls : list (list R)) (w i k : nat) :
  Forall (λ l, length l = w) ls → (k < w)%nat →
  nth (i * w + k)%nat (concat ls) 0 = nth k (nth i ls []) 0.
Proof.
  intros Hls Hk. revert i. induction Hls as [|l ls Hl _ IH]; intros i.
  - simpl. by destruct (i * w + k)%nat, i, k.
  - destruct i as [|i]; simpl.
    + rewrite app_nth1 by lia. done.
    + rewrite app_nth2 by lia.
      replace (w + i * w + k - length l)%nat with (i * w + k)%nat by lia.
      apply IH.
Qed.
End array_facts.

Section more_array_facts.
Implicit Types (f g : nat → R) (n : nat).

Lemma divide_scalar_r n f r :
  r ≠ 0 →
  np.divide (np.tabulate n f) (np.scalar r) = Ok (np.tabulate n (λ k, f k / r)).
Proof.
  intros Hr. unfold np.divide.
  rewrite decide_True by (simpl; by repeat constructor).
  apply broadcast_scalar_r.
Qed.

Lemma nth_zip_pairs (x y : list R) i :
  length x = length y → (i < length x)%nat →
  nth i (zip_with (λ a b, [a; b]) x y) [] = [nth i x 0; nth i y 0].
Proof.
  revert y i. induction x as [|a x IH]; intros [|b y] i Hlen Hi;
    simpl in *; try lia.
  destruct i as [|i]; [done|]. apply IH; lia.
Qed.

Lemma column_stack2_columns (x y : list R) :
  length x = length y →
  np.column (np.column_stack2 x y) 0 = Ok (np.array1 x) ∧
  np.column (np.column_stack2 x y) 1 = Ok (np.array1 y).
Proof.
  intros Hlen.
  assert (Huni : Forall (λ l : list R, length l = 2%nat)
                   (zip_with (λ a b, [a; b]) x y)).
  { clear Hlen. revert y. induction x as [|a x IH]; intros [|b y]; simpl;
      constructor; auto. }
  split.
  - rewrite (column_tabulate _ (length x) 2) by (done || lia).
    rewrite array1_tabulate. f_equal. apply tabulate_ext. intros i Hi. simpl.
    rewrite nth_concat_uniform by (done || lia).
    by rewrite nth_zip_pairs.
  - rewrite (column_tabulate _ (length x) 2) by (done || lia).
    rewrite array1_tabulate, <- Hlen. f_equal. apply tabulate_ext.
    intros i Hi. simpl.
    rewrite nth_concat_uniform by (done || lia).
    by rewrite nth_zip_pairs.
Qed.
End more_array_facts.

(** Evaluation of array expressions over tabulated vectors. *)
Ltac np_eval :=
  repeat first
    [ progress (unfold lift2, np.add, np.subtract, np.multiply)
    | progress cbn [mbind result_bind mret result_ret]
    | rewrite broadcast_tabulate
    | rewrite broadcast_scalar_l
    | rewrite broadcast_scalar_r
    | rewrite power_tabulate
    | rewrite divide_scalar_r by lra ].

(** ** Benchmark functions *)

Lemma six_hump_camel_2D_2input_tabulate n (f g : nat → R) :
  test_functions.six_hump_camel_2D_2input (np.tabulate n f) (np.tabulate n g)
  = Ok (np.tabulate n (λ k, camel_point (f k) (g k))).
Proof. unfold test_functions.six_hump_camel_2D_2input. np_eval. reflexivity. Qed.

(** C7. For two vectors of one length, [six_hump_camel_2D] on the matrix
    with columns [x] and [y] and [six_hump_camel_2D_2input] on [(x, y)]
    return the same array, namely the camel polynomial at every pair. *)
Theorem six_hump_camel_call_shapes_agree (x y : list R) :
  length x = length y →
  test_functions.six_hump_camel_2D (np.column_stack2 x y)
  = test_functions.six_hump_camel_2D_2input (np.array1 x) (np.array1 y)
  ∧ test_functions.six_hump_camel_2D_2input (np.array1 x) (np.array1 y)
    = Ok (np.tabulate (length x) (λ k, camel_point (nth k x 0) (nth k y 0))).
Proof.
  intros Hlen. destruct (column_stack2_columns x y Hlen) as [Hx Hy]. split.
  - unfold test_functions.six_hump_camel_2D. rewrite Hx, Hy. reflexivity.
  - rewrite !array1_tabulate, <- Hlen.
    apply six_hump_camel_2D_2input_tabulate.
Qed.

Lemma six_hump_camel_call_shapes_agree_witness :
  test_functions.six_hump_camel_2D (np.column_stack2 [1; 2] [0; -1])
  = test_functions.six_hump_camel_2D_2input (np.array1 [1; 2]) (np.array1 [0; -1])
  ∧ test_functions.six_hump_camel_2D_2input (np.array1 [1; 2]) (np.array1 [0; -1])
    = Ok (np.tabulate 2 (λ k, camel_point (nth k [1; 2] 0) (nth k [0; -1] 0))).
Proof. exact (six_hump_camel_call_shapes_agree [1; 2] [0; -1] eq_refl). Defined.

Section shekel_facts.
Import test_functions.
Implicit Types (f : nat → R) (n : nat).

Lemma nth_map_seq_list {A} n (F : nat → list A) i :
  (i < n)%nat → nth i (map F (seq 0 n)) [] = F i.
Proof.
  intros Hi.
  rewrite (nth_indep (map F (seq 0 n)) [] (F 0%nat))
    by (rewrite length_map, length_seq; lia).
  rewrite (map_nth F), seq_nth by done. done.
Qed.

Lemma column_take_columns X X' n m js k :
  np.shape X = [n; m] → np.take_columns X js = Ok X' → (k < length js)%nat →
  np.column X' k = np.column X (nth k js 0%nat).
Proof.
  intros HX Htake Hk. unfold np.take_columns in Htake. rewrite HX in Htake.
  destruct (decide (Forall (λ j, j < m)%nat js)) as [Hjs|]; [|done].
  injection Htake as <-.
  assert (Hin : (nth k js 0 < m)%nat).
  { rewrite List.Forall_forall in Hjs. apply Hjs, nth_In, Hk. }
  rewrite (column_tabulate _ n (length js)) by done.
  rewrite (column_tabulate X n m) by done.
  f_equal. apply tabulate_ext. intros i Hi. simpl.
  rewrite nth_concat_uniform; [| |done].
  - rewrite nth_map_seq_list by done.
    rewrite (nth_indep _ 0 (nth (i * m + 0) (np.data X) 0))
      by (by rewrite length_map).
    by rewrite (map_nth (λ j, nth (i * m + j) (np.data X) 0)).
  - apply List.Forall_forall. intros l Hl. apply in_map_iff in Hl as (i' & <- & _).
    by rewrite length_map.
Qed.

(** [inner] after the loop over [j], on tabulated columns. *)
Lemma shekel_inner_tabulate n f0 f1 f2 f3 i :
  fold_left
    (shekel_inner_step
       [np.tabulate n f0; np.tabulate n f1; np.tabulate n f2; np.tabulate n f3] i)
    (seq 0 4) (Ok (np.scalar 0))
  = Ok (np.tabulate n (λ k,
      0 + (f0 k - C_at 0 i) ^ 2 + (f1 k - C_at 1 i) ^ 2
        + (f2 k - C_at 2 i) ^ 2 + (f3 k - C_at 3 i) ^ 2)).
Proof.
  unfold shekel_inner_step. cbn [fold_left seq nth]. np_eval. reflexivity.
Qed.

Lemma C_row_0_2 i : C_at 0 i = C_at 2 i.
Proof. reflexivity. Qed.

Lemma C_row_1_3 i : C_at 1 i = C_at 3 i.
Proof. reflexivity. Qed.

Lemma fold_left_ext {A B} (F G : A → B → A) (l : list B) (a : A) :
  (∀ a b, F a b = G a b) → fold_left F l a = fold_left G l a.
Proof.
  intros HFG. revert a. induction l as [|b l IH]; intros a; simpl; [done|].
  by rewrite HFG, IH.
Qed.
End shekel_facts.

Section shekel_value.
Import test_functions.
Context (n : nat) (f0 f1 f2 f3 : nat → R).
Let xx := [np.tabulate n f0; np.tabulate n f1; np.tabulate n f2; np.tabulate n f3].

Lemma shekel_b_pos i : (i < 10)%nat → 0 < nth i shekel_b 0.
Proof.
  intros Hi. unfold shekel_b.
  do 10 (destruct i as [|i]; [simpl; lra|]). lia.
Qed.

Lemma shekel_denominator_nonzero i x0 x1 x2 x3 :
  (i < 10)%nat → shekel_inner_point i x0 x1 x2 x3 + nth i shekel_b 0 ≠ 0.
Proof.
  intros Hi. pose proof (shekel_b_pos i Hi) as Hb.
  unfold shekel_inner_point.
  pose proof (pow2_ge_0 (x0 - C_at 0 i)). pose proof (pow2_ge_0 (x1 - C_at 1 i)).
  pose proof (pow2_ge_0 (x2 - C_at 2 i)). pose proof (pow2_ge_0 (x3 - C_at 3 i)).
  lra.
Qed.

Lemma divide_scalar_l r g :
  (∀ k, g k ≠ 0) →
  np.divide (np.scalar r) (np.tabulate n g) = Ok (np.tabulate n (λ k, r / g k)).
Proof.
  intros Hg. unfold np.divide. rewrite decide_True.
  - apply broadcast_scalar_l.
  - simpl. apply List.Forall_forall. intros v Hv.
    apply in_map_iff in Hv as (k & <- & _). apply Hg.
Qed.

(** One pass of the outer loop body, from a scalar or a vector [outer]. *)
Lemma shekel_outer_step_scalar o i :
  (i < 10)%nat →
  shekel_outer_step xx (Ok (np.scalar o)) i
  = Ok (np.tabulate n (λ k, shekel_outer_point (f0 k) (f1 k) (f2 k) (f3 k) o i)).
Proof.
  intros Hi. unfold shekel_outer_step, xx. rewrite shekel_inner_tabulate.
  np_eval.
  rewrite divide_scalar_l
    by (intros k; apply (shekel_denominator_nonzero i (f0 k) (f1 k) (f2 k) (f3 k) Hi)).
  np_eval. reflexivity.
Qed.

Lemma shekel_outer_step_vector o i :
  (i < 10)%nat →
  shekel_outer_step xx (Ok (np.tabulate n o)) i
  = Ok (np.tabulate n (λ k, shekel_outer_point (f0 k) (f1 k) (f2 k) (f3 k) (o k) i)).
Proof.
  intros Hi. unfold shekel_outer_step, xx. rewrite shekel_inner_tabulate.
  np_eval.
  rewrite divide_scalar_l
    by (intros k; apply (shekel_denominator_nonzero i (f0 k) (f1 k) (f2 k) (f3 k) Hi)).
  np_eval. reflexivity.
Qed.

Lemma shekel_outer_fold_vector (idxs : list nat) o :
  Forall (λ i, i < 10)%nat idxs →
  fold_left (shekel_outer_step xx) idxs (Ok (np.tabulate n o))
  = Ok (np.tabulate n (λ k,
      fold_left (shekel_outer_point (f0 k) (f1 k) (f2 k) (f3 k)) idxs (o k))).
Proof.
  intros His. revert o. induction His as [|i idxs Hi _ IH]; intros o; cbn [fold_left]; [done|].
  rewrite shekel_outer_step_vector by done. apply IH.
Qed.

Lemma shekel_body_tabulate :
  lift2 np.multiply (Ok (np.scalar (-1.0)))
    (fold_left (shekel_outer_step xx) (seq 0 10) (Ok (np.scalar 0)))
  = Ok (np.tabulate n (λ k, shekel_point (f0 k) (f1 k) (f2 k) (f3 k))).
Proof.
  change (seq 0 10) with (0%nat :: seq 1 9). cbn [fold_left].
  rewrite shekel_outer_step_scalar by lia.
  rewrite shekel_outer_fold_vector
    by (apply List.Forall_forall; intros i Hi; apply in_seq in Hi; lia).
  np_eval. reflexivity.
Qed.
End shekel_value.

Lemma shekel_of_columns (X : ndarray) n (f0 f1 f2 f3 : nat → R) :
  np.column X 0 = Ok (np.tabulate n f0) → np.column X 1 = Ok (np.tabulate n f1) →
  np.column X 2 = Ok (np.tabulate n f2) → np.column X 3 = Ok (np.tabulate n f3) →
  test_functions.shekel X
  = Ok (np.tabulate n (λ k, shekel_point (f0 k) (f1 k) (f2 k) (f3 k))).
Proof.
  intros H0 H1 H2 H3. unfold test_functions.shekel.
  rewrite H0, H1, H2, H3. cbn [mbind result_bind].
  apply shekel_body_tabulate.
Qed.

Lemma shekel_point_swap_0_2 x0 x1 x2 x3 :
  shekel_point x2 x1 x0 x3 = shekel_point x0 x1 x2 x3.
Proof.
  unfold shekel_point. f_equal. apply fold_left_ext. intros o i.
  unfold shekel_outer_point, shekel_inner_point.
  rewrite <- !C_row_0_2. do 2 f_equal. ring.
Qed.

Lemma shekel_point_swap_1_3 x0 x1 x2 x3 :
  shekel_point x0 x3 x2 x1 = shekel_point x0 x1 x2 x3.
Proof.
  unfold shekel_point. f_equal. apply fold_left_ext. intros o i.
  unfold shekel_outer_point, shekel_inner_point.
  rewrite <- !C_row_1_3. do 2 f_equal. ring.
Qed.

(** C10, as amended. In exact arithmetic, on a matrix with four columns
    [shekel] returns a vector with one entry per row, and it returns the
    same vector after columns 0 and 2 have been exchanged, and after
    columns 1 and 3 have been exchanged: the two orders of the four
    squares have the same sum. *)
Theorem shekel_column_swap_invariant (X : ndarray) (n : nat) :
  np.shape X = [n; 4%nat] →
  (np.take_columns X [2; 1; 0; 3]%nat ≫= test_functions.shekel)
    = test_functions.shekel X
  ∧ (np.take_columns X [0; 3; 2; 1]%nat ≫= test_functions.shekel)
    = test_functions.shekel X
  ∧ ∃ v, test_functions.shekel X = Ok v ∧ np.shape v = [n].
Proof.
  intros HX.
  pose proof (column_tabulate X n 4 0 HX ltac:(lia)) as H0.
  pose proof (column_tabulate X n 4 1 HX ltac:(lia)) as H1.
  pose proof (column_tabulate X n 4 2 HX ltac:(lia)) as H2.
  pose proof (column_tabulate X n 4 3 HX ltac:(lia)) as H3.
  rewrite (shekel_of_columns X n _ _ _ _ H0 H1 H2 H3).
  assert (Hswap : ∀ js,
    Forall (λ j, j < 4)%nat js → length js = 4%nat →
    ∃ X', np.take_columns X js = Ok X' ∧
      ∀ k, (k < 4)%nat → np.column X' k = np.column X (nth k js 0%nat)).
  { intros js Hjs Hlen.
    destruct (np.take_columns X js) as [X'|e] eqn:HX'.
    - exists X'. split; [done|]. intros k Hk.
      apply (column_take_columns X X' n 4 js k); [done..|lia].
    - unfold np.take_columns in HX'. rewrite HX in HX'.
      by rewrite decide_True in HX'. }
  split; [|split].
  - destruct (Hswap [2; 1; 0; 3]%nat) as (X' & -> & Hcol);
      [by repeat constructor | done |].
    cbn [mbind result_bind].
    rewrite (shekel_of_columns X' n _ _ _ _
      (eq_trans (Hcol 0%nat ltac:(lia)) H2) (eq_trans (Hcol 1%nat ltac:(lia)) H1)
      (eq_trans (Hcol 2%nat ltac:(lia)) H0) (eq_trans (Hcol 3%nat ltac:(lia)) H3)).
    f_equal. apply tabulate_ext. intros k _. apply shekel_point_swap_0_2.
  - destruct (Hswap [0; 3; 2; 1]%nat) as (X' & -> & Hcol);
      [by repeat constructor | done |].
    cbn [mbind result_bind].
    rewrite (shekel_of_columns X' n _ _ _ _
      (eq_trans (Hcol 0%nat ltac:(lia)) H0) (eq_trans (Hcol 1%nat ltac:(lia)) H3)
      (eq_trans (Hcol 2%nat ltac:(lia)) H2) (eq_trans (Hcol 3%nat ltac:(lia)) H1)).
    f_equal. apply tabulate_ext. intros k _. apply shekel_point_swap_1_3.
  - eexists. split; [reflexivity | reflexivity].
Qed.

Lemma shekel_column_swap_invariant_witness :
  (np.take_columns (np.mk_nd [2; 4]%nat [4; 1; 8; 6; 0; 1; 2; 3]) [2; 1; 0; 3]%nat
     ≫= test_functions.shekel)
    = test_functions.shekel (np.mk_nd [2; 4]%nat [4; 1; 8; 6; 0; 1; 2; 3])
  ∧ (np.take_columns (np.mk_nd [2; 4]%nat [4; 1; 8; 6; 0; 1; 2; 3]) [0; 3; 2; 1]%nat
       ≫= test_functions.shekel)
    = test_functions.shekel (np.mk_nd [2; 4]%nat [4; 1; 8; 6; 0; 1; 2; 3])
  ∧ ∃ v, test_functions.shekel (np.mk_nd [2; 4]%nat [4; 1; 8; 6; 0; 1; 2; 3]) = Ok v
         ∧ np.shape v = [2%nat].
Proof.
  exact (shekel_column_swap_invariant
           (np.mk_nd [2; 4]%nat [4; 1; 8; 6; 0; 1; 2; 3]) 2 eq_refl).
Defined.

(** C10, as stated, fails in binary64, where the four squares are added
    from left to right and the order of the columns reaches the last
    place: the row [4, 1, 8, 6] and the same row with columns 1 and 3
    exchanged give different values, and so do the row [0, 1, 3, 2] and the
    same row with columns 0 and 2 exchanged. *)
Lemma shekel_column_swap_differs_in_binary64 :
  f64.shekel (f64.mk_nd [1; 4]%nat [4; 1; 8; 6]%float)
    = Ok (f64.mk_nd [1%nat] [(-0.2649056094052899)%float])
  ∧ f64.shekel (f64.mk_nd [1; 4]%nat [4; 6; 8; 1]%float)
    = Ok (f64.mk_nd [1%nat] [(-0.26490560940528995)%float])
  ∧ (-0.2649056094052899 =? -0.26490560940528995)%float = false
  ∧ f64.shekel (f64.mk_nd [1; 4]%nat [0; 1; 3; 2]%float)
    = Ok (f64.mk_nd [1%nat] [(-0.3095144287407916)%float])
  ∧ f64.shekel (f64.mk_nd [1; 4]%nat [3; 1; 0; 2]%float)
    = Ok (f64.mk_nd [1%nat] [(-0.30951442874079155)%float])
  ∧ (-0.3095144287407916 =? -0.30951442874079155)%float = false.
Proof. repeat split; vm_compute; reflexivity. Qed.

Section ackley_facts.
Import test_functions.

Lemma rsum_repeat v n : np.rsum (repeat v n) = INR n * v.
Proof.
  induction n as [|n IH]; [simpl; lra|].
  cbn [repeat np.rsum fold_right]. fold (np.rsum (repeat v n)).
  rewrite IH, S_INR. lra.
Qed.

Lemma mean_list_repeat v n : n ≠ 0%nat → np.mean_list (repeat v n) = v.
Proof.
  intros Hn. unfold np.mean_list. rewrite rsum_repeat, repeat_length.
  field. by apply not_0_INR.
Qed.

(** The mean along axis 1 of a one-row matrix whose entries are all [v]. *)
Lemma mean_axis1_constant_row v n :
  n ≠ 0%nat →
  np.mean_axis1 (np.mk_nd [1%nat; n] (repeat v n)) = Ok (np.mk_nd [1%nat] [v]).
Proof.
  intros Hn. unfold np.mean_axis1. cbn [np.shape np.data].
  rewrite decide_False by done. cbn [np.rows map].
  rewrite firstn_all2 by (rewrite repeat_length; lia).
  by rewrite mean_list_repeat.
Qed.

(** [ackley_nd] at the origin, for every choice of the three constants. *)
Lemma ackley_nd_origin n a b c :
  n ≠ 0%nat → ackley_nd (np.zeros1 n) a b c = Ok (np.mk_nd [1%nat] [0]).
Proof.
  intros Hn. unfold ackley_nd, np.zeros1, np.atleast_2d. cbn [np.shape np.data].
  unfold np.power, np.umap. cbn [np.shape np.data].
  rewrite map_repeat, mean_axis1_constant_row by done.
  cbn [mbind result_bind]. unfold np.sqrt. cbn [np.data].
  rewrite decide_True by (repeat constructor; lra).
  cbn [mbind result_bind lift2]. unfold np.multiply, np.broadcast, np.umap.
  cbn [np.shape np.data np.scalar np.item hd map mbind result_bind].
  unfold np.cos, np.exp, np.umap. cbn [np.shape np.data map].
  rewrite !map_repeat, mean_axis1_constant_row by done.
  cbn [mbind result_bind]. unfold lift2, np.add, np.negative, np.umap.
  cbn [mbind result_bind np.shape np.data map].
  unfold np.broadcast. cbn [np.shape np.data np.scalar np.item hd map].
  rewrite decide_True by done.
  cbn [zip_with map mbind result_bind np.shape np.data].
  do 2 f_equal. f_equal.
  rewrite pow_i by lia.
  rewrite sqrt_0, !Rmult_0_r, exp_0, cos_0. ring.
Qed.

Lemma exp_1_gt_2 : 2 < Rtrigo_def.exp 1.
Proof. pose proof (exp_ineq1 1 ltac:(lra)). lra. Qed.
End ackley_facts.

Section ackley_binary64.
Context `{f64.Numerics}.
#[local] Open Scope float_scope.

Lemma f64_rows_one_row n (l : list float) :
  length l = n → f64.rows 1 n l = [l].
Proof. intros <-. cbn [f64.rows]. by rewrite firstn_all. Qed.

(** [ackley_nd] at the origin in binary64, given what the library returns
    at the five points it is asked for: [t1 = -20] and [t2 = -exp(1)], and
    the sum [((-20 - e) + 20) + e] is evaluated left to right. *)
Lemma ackley_nd_origin_binary64 n :
  n ≠ 0%nat →
  f64.exp (-0) = 1 → f64.cos 0 = 1 → f64.exp 1 = 2.718281828459045 →
  f64.mean (repeat 0 n) = 0 → f64.mean (repeat 1 n) = 1 →
  f64.ackley_nd_default (f64.zeros1 n) = Ok (f64.mk_nd [1%nat] [0x1p-51]).
Proof.
  intros Hn Hexp0 Hcos0 Hexp1 Hmean0 Hmean1.
  unfold f64.ackley_nd_default, f64.ackley_nd, f64.zeros1, f64.atleast_2d.
  cbn [f64.shape f64.data].
  unfold f64.square, f64.umap, f64.mean_axis1. cbn [f64.shape f64.data].
  rewrite !map_repeat.
  rewrite f64_rows_one_row by apply repeat_length.
  cbn [map mbind result_bind].
  change (0 * 0) with 0. rewrite Hmean0.
  unfold f64.lift2, f64.multiply, f64.sqrt, f64.umap, f64.broadcast, f64.scalar, f64.item.
  cbn [f64.shape f64.data map hd mbind result_bind].
  change (- (0.2) * PrimFloat.sqrt 0) with (- 0). rewrite Hexp0.
  rewrite !map_repeat. change (2 * f64.pi * 0) with 0. rewrite Hcos0.
  rewrite f64_rows_one_row by apply repeat_length.
  cbn [map]. rewrite Hmean1, Hexp1.
  unfold f64.add, f64.negative, f64.umap, f64.broadcast.
  cbn [f64.shape f64.data map hd mbind result_bind].
  rewrite decide_True by done.
  cbn [zip_with f64.shape f64.data map hd mbind result_bind].
  reflexivity.
Qed.

End ackley_binary64.

(** C6, as amended. At the zero vector of any dimension [n >= 1] the
    default [ackley_nd] returns [0] up to rounding, in a one-element array:
    there [t1 = -a] and [t2 = -e], so the sum is [-a - e + a + e]. Its
    value in exact arithmetic is [0]; in binary64, with a library that
    returns [exp(-0.0) = 1], [cos(0.0) = 1], the double nearest [e] for
    [exp(1.0)] and the means [0] and [1] of the rows of zeros and of ones,
    the sum evaluated left to right is [2^-51], about [4.44e-16]. *)
Theorem ackley_nd_zero_vector `{f64.Numerics} (n : nat) :
  (1 <= n)%nat →
  f64.exp (-0)%float = 1%float → f64.cos 0%float = 1%float →
  f64.exp 1%float = 2.718281828459045%float →
  f64.mean (repeat 0%float n) = 0%float → f64.mean (repeat 1%float n) = 1%float →
  test_functions.ackley_nd_default (np.zeros1 n) = Ok (np.mk_nd [1%nat] [0])
  ∧ f64.ackley_nd_default (f64.zeros1 n) = Ok (f64.mk_nd [1%nat] [0x1p-51%float])
  ∧ (0x1p-51 <=? 1e-15)%float = true.
Proof.
  intros Hn Hexp0 Hcos0 Hexp1 Hmean0 Hmean1. split; [|split].
  - unfold test_functions.ackley_nd_default. apply ackley_nd_origin. lia.
  - apply ackley_nd_origin_binary64; [lia | done..].
  - reflexivity.
Qed.

Lemma ackley_nd_zero_vector_witness :
  test_functions.ackley_nd_default (np.zeros1 3) = Ok (np.mk_nd [1%nat] [0])
  ∧ @f64.ackley_nd_default origin_numerics (f64.zeros1 3)
    = Ok (f64.mk_nd [1%nat] [0x1p-51%float])
  ∧ (0x1p-51 <=? 1e-15)%float = true.
Proof.
  apply (@ackley_nd_zero_vector origin_numerics 3); [lia | reflexivity..].
Defined.

(** C6, as stated, fails already in dimension 1: the value returned at the
    zero vector is [0], which is below [e - 1]. *)
Lemma ackley_nd_zero_vector_is_not_e_minus_1 :
  ∃ v, test_functions.ackley_nd_default (np.zeros1 1) = Ok (np.mk_nd [1%nat] [v])
       ∧ v = 0 ∧ v < Rtrigo_def.exp 1 - 1.
Proof.
  exists 0. split; [|split; [done|]].
  - unfold test_functions.ackley_nd_default. apply ackley_nd_origin. lia.
  - pose proof exp_1_gt_2. lra.
Qed.


(** ** Running methods: the state monad *)

Section monad_facts.
Context `{Backend}.
Implicit Types (st : State) (cls : Family) (d : gmap string Val).

Lemma lookup_attr_insert_eq cls d name v :
  lookup_attr cls (<[name := v]> d) name = Some v.
Proof. unfold lookup_attr. by rewrite lookup_insert_eq. Qed.

Lemma lookup_attr_insert_ne cls d name name' v :
  name ≠ name' → lookup_attr cls (<[name := v]> d) name' = lookup_attr cls d name'.
Proof. intros Hne. unfold lookup_attr. by rewrite lookup_insert_ne. Qed.

Lemma lookup_attr_empty cls name : lookup_attr cls ∅ name = class_attr cls name.
Proof. unfold lookup_attr. by rewrite lookup_empty. Qed.

Lemma lookup_attr_instance cls d name v :
  d !! name = Some v → lookup_attr cls d name = Some v.
Proof. intros Hd. unfold lookup_attr. by rewrite Hd. Qed.

(** Running the first statement of a body. *)
Lemma run_bind {A B} (m : M A) (k : A → M B) st a st' :
  m st = (Ok a, st') → (m ≫= k) st = k a st'.
Proof. intros Hm. unfold mbind, M_bind. by rewrite Hm. Qed.

Lemma run_bind_raise {A B} (m : M A) (k : A → M B) st e st' :
  m st = (Raise e, st') → (m ≫= k) st = (Raise e, st').
Proof. intros Hm. unfold mbind, M_bind. by rewrite Hm. Qed.

Lemma run_getattr cls name st v :
  lookup_attr cls (self st) name = Some v → getattr cls name st = (Ok v, st).
Proof. intros Hv. unfold getattr. by rewrite Hv. Qed.

Lemma run_read_kernel l st k :
  kernels st !! l = Some k → read_kernel l st = (Ok k, st).
Proof. intros Hk. unfold read_kernel. by rewrite Hk. Qed.

Lemma run_lift {A} (r : result A) st : lift r st = (r, st).
Proof. done. Qed.

Lemma run_call name args st r w :
  extern name args (world st) = (r, w) →
  call name args st
  = (r, {| self := self st; kernels := kernels st; world := w;
           log := name :: log st |}).
Proof. intros Hext. unfold call. by rewrite Hext. Qed.

End monad_facts.

(** Symbolic execution of a method body on a state. *)
Ltac msimpl :=
  unfold warn, print;
  unfold mbind, M_bind, mret, M_ret, lift, raise, setattr, getattr, call,
    read_kernel, write_kernel, new_kernel, result_bind, result_ret;
  cbn beta iota zeta delta [self kernels world log fst snd].

Ltac mlookup :=
  repeat first
    [ rewrite lookup_attr_insert_eq
    | rewrite lookup_attr_insert_ne by done
    | rewrite lookup_attr_empty
    | rewrite lookup_insert_eq
    | rewrite lookup_insert_ne by done ].

Ltac mrun := repeat (progress (msimpl; mlookup)).

(** Run the first statement of the body in the goal, given how it ends. *)
Ltac msolve :=
  cbn [self kernels world log];
  first
    [ apply run_getattr; cbn [self]; mlookup; first [eassumption | reflexivity]
    | apply run_read_kernel; cbn [kernels]; mlookup; first [eassumption | reflexivity]
    | apply run_call; cbn [world]; eassumption
    | reflexivity ].

Ltac mstep :=
  erewrite run_bind by msolve;
  cbn beta iota zeta delta [hd self kernels world log fst snd].

(** ** Frame reasoning *)

Section frames.
Context `{Backend}.
Implicit Types (I : State → Prop).

Lemma preserves_run {A} I (m : M A) st : preserves I m → I st → I (snd (m st)).
Proof. intros Hm. apply Hm. Qed.

Lemma preserves_ret {A} I (a : A) : preserves I (mret a).
Proof. by intros st. Qed.

Lemma preserves_raise {A} I e : preserves I (raise e : M A).
Proof. by intros st. Qed.

Lemma preserves_lift {A} I (r : result A) : preserves I (lift r).
Proof. by intros st. Qed.

Lemma preserves_bind {A B} I (m : M A) (k : A → M B) :
  preserves I m → (∀ a, preserves I (k a)) → preserves I (m ≫= k).
Proof.
  intros Hm Hk st Hst. specialize (Hm st Hst).
  unfold mbind, M_bind. destruct (m st) as [[a|e] st']; simpl in *; [|done].
  by apply Hk.
Qed.

Lemma preserves_getattr I cls name : preserves I (getattr cls name).
Proof. intros st Hst. unfold getattr. by destruct (lookup_attr _ _ _). Qed.

Lemma preserves_read_kernel I l : preserves I (read_kernel l).
Proof. intros st Hst. unfold read_kernel. by destruct (kernels st !! l). Qed.

Lemma preserves_setattr name o name' v :
  name' ≠ name → preserves (attr_is name o) (setattr name' v).
Proof.
  intros Hne st Hst. unfold attr_is in *. simpl. by rewrite lookup_insert_ne.
Qed.

Lemma preserves_call name o fn args : preserves (attr_is name o) (call fn args).
Proof. intros st Hst. unfold call. by destruct (extern _ _ _). Qed.

Lemma preserves_warn name o msg : preserves (attr_is name o) (warn msg).
Proof. apply preserves_bind; [apply preserves_call | intros; apply preserves_ret]. Qed.

Lemma preserves_print name o : preserves (attr_is name o) print.
Proof. apply preserves_bind; [apply preserves_call | intros; apply preserves_ret]. Qed.

Lemma preserves_write_kernel name o l k : preserves (attr_is name o) (write_kernel l k).
Proof. by intros st Hst. Qed.

Lemma preserves_new_kernel name o k : preserves (attr_is name o) (new_kernel k).
Proof. by intros st Hst. Qed.

Lemma preserves_method name o obj fn args :
  preserves (attr_is name o) (method obj fn args).
Proof. destruct obj; simpl; first [apply preserves_raise | apply preserves_call]. Qed.

Lemma preserves_has_methods I obj : preserves I (has_methods obj).
Proof. destruct obj; simpl; first [apply preserves_raise | apply preserves_ret]. Qed.

Lemma preserves_for_each {S} I (l : list nat) (body : nat → S → M S) s :
  (∀ i s, preserves I (body i s)) → preserves I (for_each l body s).
Proof.
  intros Hbody. revert s. induction l as [|i l IH]; intros s; simpl.
  - apply preserves_ret.
  - apply preserves_bind; [apply Hbody | intros s'; apply IH].
Qed.

(** An invariant that only reads one attribute is preserved as soon as
    every value of that attribute is. *)
Lemma preserves_attr_predicate {A} name (P : option Val → Prop) (m : M A) :
  (∀ o, preserves (attr_is name o) m) → preserves (λ st, P (self st !! name)) m.
Proof.
  intros Hm st HP. specialize (Hm (self st !! name) st eq_refl).
  unfold attr_is in Hm. by rewrite Hm.
Qed.

End frames.

Create HintDb frame.

#[global] Hint Resolve preserves_ret preserves_raise preserves_lift
  preserves_getattr preserves_read_kernel preserves_call preserves_warn
  preserves_print preserves_write_kernel preserves_new_kernel
  preserves_method preserves_has_methods : frame.

(** One step of a frame proof: follow the structure of the method body. *)
Ltac frame_step :=
  lazymatch goal with
  | |- preserves _ (_ ≫= _) => apply preserves_bind; [|intros ?]
  | |- preserves _ (setattr _ _) => apply preserves_setattr; done
  | |- preserves _ (for_each _ _ _) => apply preserves_for_each; intros ? ?
  | |- preserves _ (match ?x with _ => _ end) => destruct x
  | |- preserves _ (if ?x then _ else _) => destruct x
  | |- preserves _ _ => solve [auto with frame]
  end.

Ltac frame := repeat frame_step.

(** ** The classical Gaussian Process surrogate *)

Section classical_gp_facts.
Context `{Backend}.
Implicit Types (st : State) (cls : Family).

(** The scan of [get_noise] over a kernel shaped like the class default
    finds the attribute [k2] and nothing else. *)
Lemma get_noise_scan_default k0 :
  sklearn.same_structure default_kernel k0 = true →
  fold_left (GaussianProcess.get_noise_step k0)
    (map fst (sklearn.kernel_vars k0)) (Ok [])
  = Ok ["k2"%string].
Proof.
  intros Hk0.
  destruct k0 as [| | |a b|]; try done.
  destruct a as [| | | |c d]; try done.
  destruct c as [| |? []| |]; try done.
  destruct d as [? []| | | |]; try done.
  destruct b as [|? []| | |]; try done.
Qed.

Lemma kernel_getattr_error k name e :
  sklearn.kernel_getattr k name = Raise e → e = AttributeError.
Proof.
  unfold sklearn.kernel_getattr. induction (sklearn.kernel_vars k) as [|[a v] l IH];
    simpl; [congruence|]. case_decide; [done | exact IH].
Qed.

Lemma noise_level_sqrt_no_ValueError k name :
  GaussianProcess.noise_level_sqrt k name ≠ Raise ValueError.
Proof.
  unfold GaussianProcess.noise_level_sqrt.
  destruct (sklearn.kernel_getattr k name) as [v|e] eqn:Hv; simpl.
  - destruct v as [[]| |]; try done. case_decide; done.
  - by rewrite (kernel_getattr_error _ _ _ Hv).
Qed.

(** Whatever kernel the instance was built with, [get_noise] never takes
    one of its two [raise ValueError] branches: the kernel it counts
    white-noise components in is the class attribute. *)
Lemma get_noise_never_raises_ValueError cls st k0 :
  classical cls →
  kernels st !! class_kernel_ref cls = Some k0 →
  sklearn.same_structure default_kernel k0 = true →
  fst (GaussianProcess.get_noise cls st) ≠ Raise ValueError.
Proof.
  intros Hcls Hk0 Hsame. unfold GaussianProcess.get_noise.
  assert (Hattr : class_attr cls "kernel" = Some (VKernelRef (class_kernel_ref cls)))
    by (by destruct Hcls as [-> | ->]).
  rewrite Hattr. msimpl. rewrite Hk0. msimpl.
  rewrite (get_noise_scan_default k0 Hsame). msimpl.
  rewrite decide_False by done. rewrite decide_False by (simpl; lia).
  unfold getattr. msimpl.
  destruct (lookup_attr cls (self st) "model") as [[]|]; msimpl; try done.
  destruct kernel; msimpl; try done.
  destruct (kernels st !! l) as [k|]; msimpl; [|done].
  apply noise_level_sqrt_no_ValueError.
Qed.

(** With the class kernel in its default shape, [get_noise] on an instance
    whose own kernel is [k] returns the root of the noise level of the
    attribute [k2] of [k], and fails with [AttributeError] when [k] has no
    white-noise kernel there. *)
Lemma get_noise_reads_k2 cls st k0 l k restarts fitted :
  classical cls →
  kernels st !! class_kernel_ref cls = Some k0 →
  sklearn.same_structure default_kernel k0 = true →
  lookup_attr cls (self st) "model" = Some (VRegressor (VKernelRef l) restarts fitted) →
  kernels st !! l = Some k →
  GaussianProcess.get_noise cls st
  = (GaussianProcess.noise_level_sqrt k "k2", st).
Proof.
  intros Hcls Hk0 Hsame Hmodel Hk. unfold GaussianProcess.get_noise.
  assert (Hattr : class_attr cls "kernel" = Some (VKernelRef (class_kernel_ref cls)))
    by (by destruct Hcls as [-> | ->]).
  rewrite Hattr. msimpl. rewrite Hk0. msimpl.
  rewrite (get_noise_scan_default k0 Hsame). msimpl.
  rewrite decide_False by done. rewrite decide_False by (simpl; lia).
  unfold getattr. msimpl. rewrite Hmodel. msimpl. rewrite Hk. msimpl.
  done.
Qed.

(** No method of the classical GP writes an attribute outside [gp_attrs]. *)
Lemma preserves_get_noise cls name o :
  preserves (attr_is name o) (GaussianProcess.get_noise cls).
Proof. unfold GaussianProcess.get_noise. frame. Qed.

Lemma preserves_create_model cls name o :
  name ∉ gp_attrs → preserves (attr_is name o) (GaussianProcess.create_model cls).
Proof.
  intros Hname. unfold GaussianProcess.create_model. frame.
  apply preserves_setattr. intros <-. apply Hname. set_solver.
Qed.

Lemma preserves_model_fit cls name o X y :
  name ≠ "model"%string →
  preserves (attr_is name o) (GaussianProcess.model_fit cls X y).
Proof.
  intros Hname. unfold GaussianProcess.model_fit. frame.
  all: try (apply preserves_setattr; done).
Qed.

(** [fit] stores its arguments before anything can fail, and nothing that
    follows touches them. *)
Lemma fit_stores_dataset cls X y st :
  self (snd (GaussianProcess.fit cls X y st)) !! "X" = Some X ∧
  self (snd (GaussianProcess.fit cls X y st)) !! "y" = Some y.
Proof.
  unfold GaussianProcess.fit.
  change (setattr "X" X ≫= ?k) with (λ st0, k tt (snd (setattr "X" X st0))).
  cbn beta.
  change (setattr "y" y ≫= ?k) with (λ st0, k tt (snd (setattr "y" y st0))).
  cbn beta.
  split.
  - apply (preserves_run (attr_is "X" (Some X))).
    + frame; first [apply preserves_model_fit; done | apply preserves_get_noise].
    + unfold attr_is. simpl. by rewrite lookup_insert_ne, lookup_insert_eq.
  - apply (preserves_run (attr_is "y" (Some y))).
    + frame; first [apply preserves_model_fit; done | apply preserves_get_noise].
    + unfold attr_is. simpl. by rewrite lookup_insert_eq.
Qed.

End classical_gp_facts.

(** Construction with the kernel object [k], then [fit]: the outcome
    depends on [k] only through its attribute [k2]. *)
Lemma construct_and_fit `{Backend} cls w X y k restarts k_ w' :
  classical cls →
  extern "GaussianProcessRegressor.fit" [VKernel k; restarts; X; y] w
    = (Ok (VKernel k_), w') →
  let run := (GaussianProcess.init cls restarts (VKernelRef 2) ≫= λ _,
              GaussianProcess.fit cls X y) (new_instance w [k]) in
  fst run = (GaussianProcess.noise_level_sqrt k "k2" ≫= λ _, Ok VNone)
  ∧ ∀ n, GaussianProcess.noise_level_sqrt k "k2" = Ok n →
         self (snd run) !! "noise_std" = Some n.
Proof.
  intros Hcls Hext run. subst run.
  erewrite run_bind; cycle 1.
  { unfold GaussianProcess.init, GaussianProcess.create_model.
    do 7 mstep. reflexivity. }
  cbn beta. unfold GaussianProcess.fit. do 4 mstep.
  erewrite run_bind; cycle 1.
  { unfold GaussianProcess.model_fit. do 4 mstep. reflexivity. }
  cbn beta.
  assert (Hfresh : fresh (dom (kernels (new_instance w [k]))) = 3%nat) by reflexivity.
  cbn [self kernels world log]. rewrite Hfresh.
  set (st1 := {| self := _; kernels := _; world := w'; log := _ |}).
  assert (Hnoise : GaussianProcess.get_noise cls st1
                   = (GaussianProcess.noise_level_sqrt k "k2", st1)).
  { apply get_noise_reads_k2 with (k0 := default_kernel) (l := 2%nat)
      (restarts := restarts) (fitted := Some 3%nat); [done| |reflexivity| |].
    - subst st1. cbn [kernels new_instance with_kernels].
      rewrite !lookup_insert_ne by (destruct Hcls as [-> | ->]; done).
      by destruct Hcls as [-> | ->].
    - subst st1. cbn [self]. by mlookup.
    - subst st1. cbn [kernels new_instance with_kernels].
      rewrite lookup_insert_ne by done. by rewrite lookup_insert_eq. }
  destruct (GaussianProcess.noise_level_sqrt k "k2") as [n|e] eqn:Hn.
  - erewrite run_bind by exact Hnoise. cbn beta. mstep. split; [done|].
    intros n' [= <-]. cbn [snd self mret M_ret]. by rewrite lookup_insert_eq.
  - erewrite run_bind_raise by exact Hnoise. split; [done|]. by intros n' [=].
Qed.

(** C1. The count that guards the two configuration errors of [get_noise]
    is taken on the class-level kernel, not on the kernel the instance was
    constructed with. Constructed with the sum of two white-noise kernels,
    the classical GP is fitted without any error, and [noise_std] becomes
    the root of the noise level of the second of them. *)
Theorem fit_with_two_white_noise_kernels_succeeds `{Backend}
    cls w X y restarts a ab b bb k_ w' :
  classical cls →
  0 <= b →
  extern "GaussianProcessRegressor.fit"
    [VKernel (Sum (WhiteKernel a ab) (WhiteKernel b bb)); restarts; X; y] w
    = (Ok (VKernel k_), w') →
  let run := (GaussianProcess.init cls restarts (VKernelRef 2) ≫= λ _,
              GaussianProcess.fit cls X y)
               (new_instance w [Sum (WhiteKernel a ab) (WhiteKernel b bb)]) in
  fst run = Ok VNone ∧ self (snd run) !! "noise_std" = Some (VFloat (sqrt b)).
Proof.
  intros Hcls Hb Hext run.
  destruct (construct_and_fit cls w X y _ restarts k_ w' Hcls Hext) as [Hres Hnoise].
  assert (Hk2 : GaussianProcess.noise_level_sqrt
                  (Sum (WhiteKernel a ab) (WhiteKernel b bb)) "k2"
                = Ok (VFloat (sqrt b))).
  { unfold GaussianProcess.noise_level_sqrt. destruct ab, bb. simpl.
    by rewrite decide_True. }
  split.
  - subst run. rewrite Hres, Hk2. reflexivity.
  - apply Hnoise, Hk2.
Qed.

Lemma fit_with_two_white_noise_kernels_succeeds_witness :
  fst ((GaussianProcess.init L_GaussianProcess (VInt 10) (VKernelRef 2) ≫= λ _,
        GaussianProcess.fit L_GaussianProcess
          (VArr (np.mk_nd [2; 1]%nat [0; 1])) (VArr (np.mk_nd [2]%nat [0; 1])))
         (@new_instance echo_backend tt
            [Sum (WhiteKernel 1 (5e-5, 5e-2)) (WhiteKernel 4 (5e-5, 5e-2))]))
    = Ok VNone
  ∧ self (snd ((GaussianProcess.init L_GaussianProcess (VInt 10) (VKernelRef 2) ≫= λ _,
                GaussianProcess.fit L_GaussianProcess
                  (VArr (np.mk_nd [2; 1]%nat [0; 1])) (VArr (np.mk_nd [2]%nat [0; 1])))
                 (@new_instance echo_backend tt
                    [Sum (WhiteKernel 1 (5e-5, 5e-2)) (WhiteKernel 4 (5e-5, 5e-2))])))
      !! "noise_std" = Some (VFloat (sqrt 4)).
Proof.
  apply (fit_with_two_white_noise_kernels_succeeds (H := echo_backend)
           L_GaussianProcess tt _ _ (VInt 10) 1 (5e-5, 5e-2) 4 (5e-5, 5e-2)
           (Sum (WhiteKernel 1 (5e-5, 5e-2)) (WhiteKernel 4 (5e-5, 5e-2))) tt).
  - by left.
  - lra.
  - reflexivity.
Defined.

(** Constructed with a kernel that has no white-noise component at all, the
    classical GP fails in [fit] with the [AttributeError] of the attribute
    lookup, not with the configuration error. *)
Lemma fit_with_no_white_noise_kernel `{Backend} cls w X y restarts l lb k_ w' :
  classical cls →
  extern "GaussianProcessRegressor.fit" [VKernel (RBF l lb); restarts; X; y] w
    = (Ok (VKernel k_), w') →
  fst ((GaussianProcess.init cls restarts (VKernelRef 2) ≫= λ _,
        GaussianProcess.fit cls X y) (new_instance w [RBF l lb]))
  = Raise AttributeError.
Proof.
  intros Hcls Hext.
  destruct (construct_and_fit cls w X y _ restarts k_ w' Hcls Hext) as [-> _].
  by destruct lb.
Qed.

(** C4. On a fitted classical GP, [update(new_X, new_y)] leaves in [self.X]
    the old inputs followed by the new ones, with as many rows as both
    together, and in [self.y] the old targets followed by the new ones,
    [new_y] having been flattened when it has more dimensions than the
    stored targets. This holds whether or not the refit succeeds. *)
Theorem update_concatenates_dataset `{Backend} cls st X0 y0 new_X new_y
    n m sx p q sy l l_ k k_ kv restarts tr :
  self st !! "X" = Some (VArr X0) →
  self st !! "y" = Some (VArr y0) →
  lookup_attr cls (self st) "kernel" = Some (VKernelRef l) →
  lookup_attr cls (self st) "train_restarts" = Some tr →
  lookup_attr cls (self st) "model" = Some (VRegressor kv restarts (Some l_)) →
  kernels st !! l = Some k →
  kernels st !! l_ = Some k_ →
  sklearn.same_structure k k_ = true →
  let new_y' := if decide (np.ndim y0 < np.ndim new_y)%nat
                then np.mk_nd [length (np.data new_y)] (np.data new_y)
                else new_y in
  np.shape X0 = n :: sx → np.shape new_X = m :: sx →
  np.shape y0 = p :: sy → np.shape new_y' = q :: sy →
  let st' := snd (GaussianProcess.update cls (VArr new_X) (VArr new_y) st) in
  self st' !! "X"
    = Some (VArr (np.mk_nd ((n + m)%nat :: sx) (np.data X0 ++ np.data new_X)))
  ∧ self st' !! "y"
    = Some (VArr (np.mk_nd ((p + q)%nat :: sy) (np.data y0 ++ np.data new_y'))).
Proof.
  intros HX Hy Hkernel Htr Hmodel Hk Hk_ Hsame new_y' HsX HsnX Hsy Hsny st'.
  subst st'.
  assert (Hcat : ∀ a b n m s, np.shape a = n :: s → np.shape b = m :: s →
    concatenate (VArr a) (VArr b)
    = Ok (VArr (np.mk_nd ((n + m)%nat :: s) (np.data a ++ np.data b)))).
  { intros a b n' m' s Ha Hb. unfold concatenate. rewrite Ha, Hb.
    by rewrite decide_True. }
  pose proof (lookup_attr_instance cls _ _ _ HX) as HX'.
  pose proof (lookup_attr_instance cls _ _ _ Hy) as Hy'.
  assert (Hrun : ∃ st2,
    GaussianProcess.update cls (VArr new_X) (VArr new_y) st
    = GaussianProcess.fit cls
        (VArr (np.mk_nd ((n + m)%nat :: sx) (np.data X0 ++ np.data new_X)))
        (VArr (np.mk_nd ((p + q)%nat :: sy) (np.data y0 ++ np.data new_y'))) st2);
    [|destruct Hrun as [st2 ->]; apply fit_stores_dataset].
  eexists. unfold GaussianProcess.update.
  mstep. rewrite (Hcat _ _ _ _ _ HsX HsnX). mstep.
  cbn [ndim_of]. mstep. mstep. mstep.
  assert (Hflat :
    (if decide (np.ndim y0 < np.ndim new_y)%nat
     then lift (flatten (VArr new_y)) else mret (VArr new_y)) st
    = (Ok (VArr new_y'), st)).
  { subst new_y'. by destruct (decide _). }
  erewrite run_bind by exact Hflat. cbn beta.
  mstep. rewrite (Hcat _ _ _ _ _ Hsy Hsny). mstep. mstep. mstep. mstep. mstep.
  unfold sklearn.set_params_from. rewrite Hsame. mstep. mstep.
  unfold GaussianProcess.create_model at 1.
  erewrite run_bind; [|do 3 mstep; reflexivity]. cbn beta.
  reflexivity.
Qed.

Lemma update_concatenates_dataset_witness :
  self (snd (GaussianProcess.update L_GaussianProcess
               (VArr (np.mk_nd [1; 1]%nat [2])) (VArr (np.mk_nd [1; 1]%nat [4]))
               gp_fitted_example)) !! "X"
    = Some (VArr (np.mk_nd [3; 1]%nat [0; 1; 2]))
  ∧ self (snd (GaussianProcess.update L_GaussianProcess
                 (VArr (np.mk_nd [1; 1]%nat [2])) (VArr (np.mk_nd [1; 1]%nat [4]))
                 gp_fitted_example)) !! "y"
    = Some (VArr (np.mk_nd [3]%nat [0; 1; 4])).
Proof.
  apply (update_concatenates_dataset (H := echo_backend) L_GaussianProcess
           gp_fitted_example (np.mk_nd [2; 1]%nat [0; 1]) (np.mk_nd [2]%nat [0; 1])
           (np.mk_nd [1; 1]%nat [2]) (np.mk_nd [1; 1]%nat [4])
           2 1 [1%nat] 2 1 [] 0 2 default_kernel default_kernel
           (VKernelRef 0) (VInt 10) (VInt 10)); reflexivity.
Defined.

(** The example state is the one construction and [fit] reach. *)
Lemma gp_fitted_example_reached :
  (GaussianProcess.init L_GaussianProcess (VInt 10) (VKernelRef 0) ≫= λ _,
   GaussianProcess.fit L_GaussianProcess
     (VArr (np.mk_nd [2; 1]%nat [0; 1])) (VArr (np.mk_nd [2]%nat [0; 1])))
    (new_instance (tt : @World echo_backend) [])
  = (Ok VNone, gp_fitted_example).
Proof.
  erewrite run_bind; cycle 1.
  { unfold GaussianProcess.init, GaussianProcess.create_model.
    do 7 mstep. reflexivity. }
  cbn beta. unfold GaussianProcess.fit. do 4 mstep.
  erewrite run_bind; cycle 1.
  { unfold GaussianProcess.model_fit. mstep. mstep. mstep. mstep. reflexivity. }
  cbn beta. erewrite run_bind; cycle 1.
  { erewrite get_noise_reads_k2; [|by left|reflexivity..].
    unfold GaussianProcess.noise_level_sqrt. simpl.
    rewrite decide_True by lra. reflexivity. }
  cbn beta. mstep. reflexivity.
Qed.

(** ** Shared numeric helpers *)

Lemma softplus_pos x : 0 < softplus x.
Proof.
  unfold softplus. rewrite <- ln_1. apply ln_increasing; [lra|].
  pose proof (exp_pos x). lra.
Qed.

Lemma nth_skipn_plus (m i : nat) (l : list R) : nth i (skipn m l) 0 = nth (m + i) l 0.
Proof.
  revert l. induction m as [|m IH]; intros l; [done|].
  destruct l as [|x l]; simpl; [by destruct i | apply IH].
Qed.

(** The one-column slice [X[:, j:j+1]] of a row-major matrix lists entry
    [j] of every row. *)
Lemma firstn_1_skipn (j m : nat) (l : list R) :
  (j < m)%nat → (j < length l)%nat →
  firstn 1 (skipn j (firstn m l)) = [nth j l 0].
Proof.
  revert m l. induction j as [|j IH]; intros m l Hm Hl.
  - destruct l as [|x l]; [simpl in Hl; lia|]. destruct m; [lia|]. done.
  - destruct l as [|x l]; [simpl in Hl; lia|]. destruct m; [lia|].
    simpl in Hl. cbn [firstn skipn nth]. apply IH; lia.
Qed.

(** The one-column slice [X[:, j:j+1]] of a row-major matrix lists entry
    [j] of every row. *)
Lemma slice_one_column (n m j : nat) (l : list R) :
  length l = (n * m)%nat → (j < m)%nat →
  concat (map (λ row, firstn 1 (skipn j row)) (np.rows n m l))
  = map (λ i, nth (i * m + j) l 0) (seq 0 n).
Proof.
  intros Hl Hj. revert l Hl.
  induction n as [|n IH]; intros l Hl; [done|].
  cbn [np.rows map concat seq]. rewrite IH.
  2:{ rewrite length_skipn. lia. }
  rewrite firstn_1_skipn by lia.
  rewrite <- seq_shift, map_map. cbn [app]. f_equal.
  apply map_ext. intros i. rewrite nth_skipn_plus. f_equal. lia.
Qed.

(** C9. On a parameter matrix with [n] rows and two columns [normal_sp]
    returns a distribution whose location is the first column and whose
    scale is [1e-3 + softplus(0.05 * p)] for the entry [p] of the second
    column, row by row: the scale has exactly [n] entries and each of them
    is at least [1e-3]. *)
Theorem normal_sp_scale_floor (params : ndarray) (n : nat) :
  np.shape params = [n; 2%nat] → np.wf params →
  ∃ d, normal_sp params = Ok d
       ∧ loc d = np.mk_nd [n; 1%nat]
                   (map (λ i, nth (i * 2 + 0) (np.data params) 0) (seq 0 n))
       ∧ scale d = np.mk_nd [n; 1%nat]
                     (map (λ i, 1e-3 + softplus (0.05 * nth (i * 2 + 1) (np.data params) 0))
                        (seq 0 n))
       ∧ length (np.data (scale d)) = n
       ∧ ∀ i, (i < n)%nat → 1e-3 <= nth i (np.data (scale d)) 0.
Proof.
  intros Hshape Hwf. unfold np.wf in Hwf. rewrite Hshape in Hwf. cbn [np.numel fold_right] in Hwf.
  unfold normal_sp, slice_columns. rewrite Hshape.
  cbn [mbind result_bind lift2]. unfold np.multiply, np.add, np.broadcast.
  cbn [np.shape np.scalar np.umap mbind result_bind np.data np.item hd].
  change (Nat.min 2 2 - Nat.min 1 2)%nat with 1%nat.
  change (Nat.min 1 2 - Nat.min 0 2)%nat with 1%nat.
  change (2 - 1)%nat with 1%nat. change (1 - 0)%nat with 1%nat.
  rewrite !slice_one_column by lia.
  eexists. split; [reflexivity|]. cbn [loc scale np.shape np.data].
  rewrite !map_map. repeat split.
  - by rewrite length_map, length_seq.
  - intros i Hi.
    rewrite (nth_indep _ 0 ((λ i, 1e-3 + softplus (0.05 * nth (i * 2 + 1) (np.data params) 0)) 0%nat))
      by (by rewrite length_map, length_seq).
    rewrite (map_nth (λ i, 1e-3 + softplus (0.05 * nth (i * 2 + 1) (np.data params) 0))).
    pose proof (softplus_pos (0.05 * nth (nth i (seq 0 n) 0%nat * 2 + 1) (np.data params) 0)). lra.
Qed.

Lemma normal_sp_scale_floor_witness :
  ∃ d, normal_sp (np.mk_nd [2; 2]%nat [0; -100; 1; 100]) = Ok d
       ∧ loc d = np.mk_nd [2; 1]%nat
                   (map (λ i, nth (i * 2 + 0) [0; -100; 1; 100] 0) (seq 0 2))
       ∧ scale d = np.mk_nd [2; 1]%nat
                     (map (λ i, 1e-3 + softplus (0.05 * nth (i * 2 + 1) [0; -100; 1; 100] 0))
                        (seq 0 2))
       ∧ length (np.data (scale d)) = 2%nat
       ∧ ∀ i, (i < 2)%nat → 1e-3 <= nth i (np.data (scale d)) 0.
Proof.
  exact (normal_sp_scale_floor (np.mk_nd [2; 2]%nat [0; -100; 1; 100]) 2 eq_refl eq_refl).
Defined.

(** ** The capability flag along the life of an instance *)

Section flag_facts.
Context `{Backend}.
Implicit Types (cls : Family) (o : option Val).

(** No method assigns [self.is_probabilistic]; first the helpers. *)

Lemma flag_required o i args : preserves (attr_is "is_probabilistic" o) (required i args).
Proof. unfold required. frame. Qed.

Lemma flag_monte_carlo o cls X it :
  preserves (attr_is "is_probabilistic" o) (monte_carlo cls X it).
Proof. unfold monte_carlo. frame. Qed.

Lemma flag_promote_row o X : preserves (attr_is "is_probabilistic" o) (promote_row X).
Proof. unfold promote_row. frame. Qed.

Lemma flag_flipout_stack o i a x :
  preserves (attr_is "is_probabilistic" o) (flipout_stack i a x).
Proof. unfold flipout_stack. frame. Qed.

#[local] Hint Resolve flag_required flag_monte_carlo flag_promote_row
  flag_flipout_stack : frame.

(** The classical GP. *)
Lemma flag_gp_create_model o cls :
  preserves (attr_is "is_probabilistic" o) (GaussianProcess.create_model cls).
Proof. unfold GaussianProcess.create_model. frame. Qed.

Lemma flag_gp_get_noise o cls :
  preserves (attr_is "is_probabilistic" o) (GaussianProcess.get_noise cls).
Proof. apply preserves_get_noise. Qed.

Lemma flag_gp_model_fit o cls X y :
  preserves (attr_is "is_probabilistic" o) (GaussianProcess.model_fit cls X y).
Proof. by apply preserves_model_fit. Qed.

#[local] Hint Resolve flag_gp_create_model flag_gp_get_noise flag_gp_model_fit : frame.

Lemma flag_gp_init o cls r k :
  preserves (attr_is "is_probabilistic" o) (GaussianProcess.init cls r k).
Proof. unfold GaussianProcess.init. frame. Qed.

Lemma flag_gp_fit o cls X y :
  preserves (attr_is "is_probabilistic" o) (GaussianProcess.fit cls X y).
Proof. unfold GaussianProcess.fit. frame. Qed.

#[local] Hint Resolve flag_gp_fit : frame.

Lemma flag_gp_predict o cls X r :
  preserves (attr_is "is_probabilistic" o) (GaussianProcess.predict cls X r).
Proof. unfold GaussianProcess.predict. frame. Qed.

Lemma flag_gp_update o cls X y :
  preserves (attr_is "is_probabilistic" o) (GaussianProcess.update cls X y).
Proof. unfold GaussianProcess.update. frame. Qed.

(** The functional GP. *)
Lemma flag_tfp_create_model o :
  preserves (attr_is "is_probabilistic" o) GaussianProcessTFP.create_model.
Proof. unfold GaussianProcessTFP.create_model. frame. Qed.

Lemma flag_tfp_train_model o cls opt :
  preserves (attr_is "is_probabilistic" o) (GaussianProcessTFP.train_model cls opt).
Proof. unfold GaussianProcessTFP.train_model. frame. Qed.

#[local] Hint Resolve flag_tfp_create_model flag_tfp_train_model : frame.

Lemma flag_tfp_optimize_parameters o cls v :
  preserves (attr_is "is_probabilistic" o) (GaussianProcessTFP.optimize_parameters cls v).
Proof. unfold GaussianProcessTFP.optimize_parameters. frame. Qed.

#[local] Hint Resolve flag_tfp_optimize_parameters : frame.

Lemma flag_tfp_init o cls n :
  preserves (attr_is "is_probabilistic" o) (GaussianProcessTFP.init cls n).
Proof. unfold GaussianProcessTFP.init. frame. Qed.

Lemma flag_tfp_fit o cls X y :
  preserves (attr_is "is_probabilistic" o) (GaussianProcessTFP.fit cls X y).
Proof. unfold GaussianProcessTFP.fit. frame. Qed.

Lemma flag_tfp_predict o cls X i r s :
  preserves (attr_is "is_probabilistic" o) (GaussianProcessTFP.predict cls X i r s).
Proof. unfold GaussianProcessTFP.predict. frame. Qed.

Lemma flag_tfp_update o cls X y :
  preserves (attr_is "is_probabilistic" o) (GaussianProcessTFP.update cls X y).
Proof. unfold GaussianProcessTFP.update. frame. Qed.

(** The neural networks. *)
Lemma flag_nn_create_model o d : preserves (attr_is "is_probabilistic" o) (NN.create_model d).
Proof. unfold NN.create_model. frame. Qed.

Lemma flag_prob_nn_create_model o :
  preserves (attr_is "is_probabilistic" o) Prob_NN.create_model.
Proof. unfold Prob_NN.create_model. frame. Qed.

Lemma flag_bayesian_nn_create_model o x :
  preserves (attr_is "is_probabilistic" o) (Bayesian_NN.create_model x).
Proof. unfold Bayesian_NN.create_model. frame. Qed.

#[local] Hint Resolve flag_nn_create_model flag_prob_nn_create_model
  flag_bayesian_nn_create_model : frame.

Lemma flag_nn_init o : preserves (attr_is "is_probabilistic" o) NN.init.
Proof. unfold NN.init. frame. Qed.

Lemma flag_nn_fit o X y e : preserves (attr_is "is_probabilistic" o) (NN.fit X y e).
Proof. unfold NN.fit. frame. Qed.

Lemma flag_nn_update o X y : preserves (attr_is "is_probabilistic" o) (NN.update X y).
Proof. unfold NN.update. frame. Qed.

Lemma flag_nn_predict o X : preserves (attr_is "is_probabilistic" o) (NN.predict X).
Proof. unfold NN.predict. frame. Qed.

Lemma flag_prob_nn_init o : preserves (attr_is "is_probabilistic" o) Prob_NN.init.
Proof. unfold Prob_NN.init. frame. Qed.

Lemma flag_prob_nn_fit o X y e :
  preserves (attr_is "is_probabilistic" o) (Prob_NN.fit X y e).
Proof. unfold Prob_NN.fit. frame. Qed.

Lemma flag_prob_nn_update o X y :
  preserves (attr_is "is_probabilistic" o) (Prob_NN.update X y).
Proof. unfold Prob_NN.update. frame. Qed.

Lemma flag_prob_nn_predict o X i r :
  preserves (attr_is "is_probabilistic" o) (Prob_NN.predict X i r).
Proof. unfold Prob_NN.predict. frame. Qed.

Lemma flag_bayesian_nn_fit o X y e v :
  preserves (attr_is "is_probabilistic" o) (Bayesian_NN.fit X y e v).
Proof. unfold Bayesian_NN.fit. frame. Qed.

Lemma flag_bayesian_nn_update o X y e v :
  preserves (attr_is "is_probabilistic" o) (Bayesian_NN.update X y e v).
Proof. unfold Bayesian_NN.update. frame. Qed.

Lemma flag_bayesian_nn_predict o X i r :
  preserves (attr_is "is_probabilistic" o) (Bayesian_NN.predict X i r).
Proof. unfold Bayesian_NN.predict. frame. Qed.

Lemma flag_vanilla_nn_init o e b l :
  preserves (attr_is "is_probabilistic" o) (Vanilla_NN.init e b l).
Proof. unfold Vanilla_NN.init. frame. Qed.

Lemma flag_vanilla_nn_create_model o d a l :
  preserves (attr_is "is_probabilistic" o) (Vanilla_NN.create_model d a l).
Proof. unfold Vanilla_NN.create_model. frame. Qed.

Lemma flag_vanilla_nn_fit o X y :
  preserves (attr_is "is_probabilistic" o) (Vanilla_NN.fit X y).
Proof. unfold Vanilla_NN.fit. frame. Qed.

Lemma flag_vanilla_nn_update o X y :
  preserves (attr_is "is_probabilistic" o) (Vanilla_NN.update X y).
Proof. unfold Vanilla_NN.update. frame. Qed.

Lemma flag_vanilla_nn_predict o X :
  preserves (attr_is "is_probabilistic" o) (Vanilla_NN.predict X).
Proof. unfold Vanilla_NN.predict. frame. Qed.

Lemma flag_vanilla_bnn_init o e b :
  preserves (attr_is "is_probabilistic" o) (Vanilla_BayesianNN.init e b).
Proof. unfold Vanilla_BayesianNN.init. frame. Qed.

Lemma flag_vanilla_bnn_create_model o d a l :
  preserves (attr_is "is_probabilistic" o) (Vanilla_BayesianNN.create_model d a l).
Proof. unfold Vanilla_BayesianNN.create_model. frame. Qed.

Lemma flag_vanilla_bnn_fit o X y :
  preserves (attr_is "is_probabilistic" o) (Vanilla_BayesianNN.fit X y).
Proof. unfold Vanilla_BayesianNN.fit. frame. Qed.

Lemma flag_vanilla_bnn_update o X y :
  preserves (attr_is "is_probabilistic" o) (Vanilla_BayesianNN.update X y).
Proof. unfold Vanilla_BayesianNN.update. frame. Qed.

Lemma flag_vanilla_bnn_predict o X i :
  preserves (attr_is "is_probabilistic" o) (Vanilla_BayesianNN.predict X i).
Proof. unfold Vanilla_BayesianNN.predict. frame. Qed.

(** The gpytorch families: the shared text preserves the flag as soon as
    the parts a family supplies do. *)
Lemma flag_check_rows o cls :
  preserves (attr_is "is_probabilistic" o) (gpytorch.check_rows cls).
Proof. unfold gpytorch.check_rows. frame. Qed.

Lemma flag_as_tensor_2d o x :
  preserves (attr_is "is_probabilistic" o) (gpytorch.as_tensor_2d x).
Proof. unfold gpytorch.as_tensor_2d. frame. Qed.

Lemma flag_likelihood_noise_sqrt o cls :
  preserves (attr_is "is_probabilistic" o) (gpytorch.likelihood_noise_sqrt cls).
Proof. unfold gpytorch.likelihood_noise_sqrt. frame. Qed.

Lemma flag_init_common o a b c d e :
  preserves (attr_is "is_probabilistic" o) (gpytorch.init_common a b c d e).
Proof. unfold gpytorch.init_common. frame. Qed.

Lemma flag_init_warnings o cls s :
  preserves (attr_is "is_probabilistic" o) (gpytorch.init_warnings cls s).
Proof. unfold gpytorch.init_warnings. frame. Qed.

Lemma flag_fast_pred_var_setting o cls :
  preserves (attr_is "is_probabilistic" o) (fast_pred_var_setting cls).
Proof. unfold fast_pred_var_setting. frame. Qed.

Lemma flag_set_fast_pred_var o cls v :
  preserves (attr_is "is_probabilistic" o) (set_fast_pred_var cls v).
Proof. unfold set_fast_pred_var. frame. Qed.

#[local] Hint Resolve flag_check_rows flag_as_tensor_2d flag_likelihood_noise_sqrt
  flag_init_common flag_init_warnings flag_fast_pred_var_setting
  flag_set_fast_pred_var : frame.

Lemma flag_train_iteration o cls V loss_0 :
  variant_untouched V →
  preserves (attr_is "is_probabilistic" o) (gpytorch.train_iteration cls V loss_0).
Proof.
  intros (Hstore & Hcreate & Hforward & Htargets & Hnoise).
  unfold gpytorch.train_iteration. frame.
Qed.

Lemma flag_train_loop o cls V n loss_0 last :
  variant_untouched V →
  preserves (attr_is "is_probabilistic" o) (gpytorch.train_loop cls V n loss_0 last).
Proof.
  intros HV. revert loss_0 last. induction n as [|n IH]; intros loss_0 last; simpl.
  - apply preserves_ret.
  - apply preserves_bind; [by apply flag_train_iteration|].
    intros [[loss ratio] stop]. destruct stop; [apply preserves_ret|].
    apply preserves_bind; [apply preserves_lift | intros; apply IH].
Qed.

Lemma flag_gpytorch_fit o cls V X y :
  variant_untouched V →
  preserves (attr_is "is_probabilistic" o) (gpytorch.fit cls V X y).
Proof.
  intros HV. pose proof HV as (Hstore & Hcreate & Hforward & Htargets & Hnoise).
  pose proof (λ n l0 la, flag_train_loop o cls V n l0 la HV) as Hloop.
  unfold gpytorch.fit. frame.
Qed.

Lemma flag_gpytorch_update o cls V X y :
  variant_untouched V →
  preserves (attr_is "is_probabilistic" o) (gpytorch.update cls V X y).
Proof.
  intros HV. pose proof (λ a b, flag_gpytorch_fit o cls V a b HV) as Hfit.
  unfold gpytorch.update. frame.
Qed.

Lemma flag_gpytorch_predict o cls convert fast X r :
  (∀ v, preserves (attr_is "is_probabilistic" o) (convert v)) →
  preserves (attr_is "is_probabilistic" o) fast →
  preserves (attr_is "is_probabilistic" o) (gpytorch.predict cls convert fast X r).
Proof. intros Hconvert Hfast. unfold gpytorch.predict. frame. Qed.

Lemma flag_gpr_create_model o :
  preserves (attr_is "is_probabilistic" o) GaussianProcessRegression.create_model.
Proof. unfold GaussianProcessRegression.create_model. frame. Qed.

Lemma flag_multitask_create_likelihood o cls :
  preserves (attr_is "is_probabilistic" o) (MultiTaskGaussianProcess.create_likelihood cls).
Proof. unfold MultiTaskGaussianProcess.create_likelihood. frame. Qed.

#[local] Hint Resolve flag_gpr_create_model flag_multitask_create_likelihood : frame.

Lemma flag_multitask_create_model o cls :
  preserves (attr_is "is_probabilistic" o) (MultiTaskGaussianProcess.create_model cls).
Proof. unfold MultiTaskGaussianProcess.create_model. frame. Qed.

Lemma flag_deep_kernel_create_model o :
  preserves (attr_is "is_probabilistic" o) DeepKernelMultiTaskGaussianProcess.create_model.
Proof. unfold DeepKernelMultiTaskGaussianProcess.create_model. frame. Qed.

Lemma flag_model_list_create_model_step o cls i lists :
  preserves (attr_is "is_probabilistic" o)
    (ModelListGaussianProcess.create_model_step cls i lists).
Proof. unfold ModelListGaussianProcess.create_model_step. frame. Qed.

#[local] Hint Resolve flag_multitask_create_model flag_deep_kernel_create_model
  flag_model_list_create_model_step : frame.

Lemma flag_model_list_create_model o cls :
  preserves (attr_is "is_probabilistic" o) (ModelListGaussianProcess.create_model cls).
Proof. unfold ModelListGaussianProcess.create_model. frame. Qed.

#[local] Hint Resolve flag_model_list_create_model : frame.

Lemma gpr_variant_untouched : variant_untouched GaussianProcessRegression.variant.
Proof.
  unfold variant_untouched, GaussianProcessRegression.variant,
    GaussianProcessRegression.get_noise; cbn.
  repeat split; intros; frame.
Qed.

Lemma multitask_variant_untouched cls create :
  (∀ o, preserves (attr_is "is_probabilistic" o) create) →
  variant_untouched (MultiTaskGaussianProcess.variant_with cls create).
Proof.
  intros Hcreate.
  unfold variant_untouched, MultiTaskGaussianProcess.variant_with,
    MultiTaskGaussianProcess.get_noise; cbn.
  repeat split; intros; frame.
Qed.

Lemma model_list_variant_untouched cls :
  variant_untouched (ModelListGaussianProcess.variant cls).
Proof.
  unfold variant_untouched, ModelListGaussianProcess.variant,
    ModelListGaussianProcess.get_noise; cbn.
  repeat split; intros; frame.
Qed.

Lemma flag_model_list_predict_loop o cls sample j predictions :
  preserves (attr_is "is_probabilistic" o)
    (ModelListGaussianProcess.predict_loop cls sample j predictions).
Proof.
  revert j. induction predictions as [|p ps IH]; intros j; simpl.
  - apply preserves_ret.
  - apply preserves_bind; [|intros; apply IH].
    unfold ModelListGaussianProcess.predict_step. frame.
Qed.

Lemma flag_model_list_zeros o cls X :
  preserves (attr_is "is_probabilistic" o) (ModelListGaussianProcess.zeros_per_model cls X).
Proof. unfold ModelListGaussianProcess.zeros_per_model. frame. Qed.

#[local] Hint Resolve flag_model_list_predict_loop flag_model_list_zeros : frame.

#[local] Hint Resolve flag_gp_init flag_gp_fit flag_gp_predict flag_gp_update
  flag_tfp_init flag_tfp_fit flag_tfp_predict flag_tfp_update
  flag_nn_init flag_nn_fit flag_nn_update flag_nn_predict
  flag_prob_nn_init flag_prob_nn_fit flag_prob_nn_update flag_prob_nn_predict
  flag_bayesian_nn_fit flag_bayesian_nn_update flag_bayesian_nn_predict
  flag_vanilla_nn_init flag_vanilla_nn_create_model flag_vanilla_nn_fit
  flag_vanilla_nn_update flag_vanilla_nn_predict
  flag_vanilla_bnn_init flag_vanilla_bnn_create_model flag_vanilla_bnn_fit
  flag_vanilla_bnn_update flag_vanilla_bnn_predict
  flag_gpytorch_fit flag_gpytorch_update flag_gpytorch_predict
  gpr_variant_untouched model_list_variant_untouched : frame.

Lemma multitask_variant_ok cls :
  variant_untouched (MultiTaskGaussianProcess.variant cls).
Proof. apply multitask_variant_untouched. intros; apply flag_multitask_create_model. Qed.

Lemma deep_kernel_variant_ok :
  variant_untouched DeepKernelMultiTaskGaussianProcess.variant.
Proof. apply multitask_variant_untouched. intros; apply flag_deep_kernel_create_model. Qed.

#[local] Hint Resolve multitask_variant_ok deep_kernel_variant_ok : frame.

Lemma flag_model_list_predict o cls X r :
  preserves (attr_is "is_probabilistic" o) (ModelListGaussianProcess.predict cls X r).
Proof. unfold ModelListGaussianProcess.predict. frame. Qed.

#[local] Hint Resolve flag_model_list_predict : frame.

(** Every operation of the contract, on every family. *)
Lemma flag_invoke o cls op :
  preserves (attr_is "is_probabilistic" o) (invoke cls op).
Proof.
  destruct op as [args|args|args|args]; cbn [invoke].
  - destruct cls; cbn [invoke_create_model]; frame.
  - destruct cls; cbn [invoke_fit]; frame;
      unfold GaussianProcessRegression.fit, ModelListGaussianProcess.fit,
        MultiTaskGaussianProcess.fit, DeepKernelMultiTaskGaussianProcess.fit;
      auto with frame.
  - destruct cls; cbn [invoke_predict]; frame;
      unfold GaussianProcessRegression.predict, MultiTaskGaussianProcess.predict,
        DeepKernelMultiTaskGaussianProcess.predict;
      apply flag_gpytorch_predict; intros; auto with frame.
  - unfold invoke_update. destruct cls; frame;
      unfold GaussianProcessRegression.update, ModelListGaussianProcess.update,
        MultiTaskGaussianProcess.update, DeepKernelMultiTaskGaussianProcess.update;
      auto with frame.
Qed.

(** Construction leaves the flag to the class attribute, or, in
    [Bayesian_NN], sets the instance attribute to the same value. *)
Lemma flag_construct cls args st :
  self st !! "is_probabilistic" = None →
  lookup_attr cls (self (snd (construct cls args st))) "is_probabilistic"
  = Some (VBool (probabilistic cls)).
Proof.
  intros Hnone.
  destruct (decide (cls = L_Bayesian_NN)) as [-> | Hcls].
  - cbn [construct]. unfold required.
    destruct (args !! 0%nat) as [X|];
      [|by unfold mbind, M_bind, raise; cbn [snd]; unfold lookup_attr; rewrite Hnone].
    erewrite run_bind by reflexivity. unfold Bayesian_NN.init.
    do 2 (erewrite run_bind by reflexivity; cbn beta).
    apply lookup_attr_instance.
    apply (preserves_run (attr_is "is_probabilistic" (Some (VBool true)))).
    + apply flag_bayesian_nn_create_model.
    + unfold attr_is. cbn [self snd setattr]. by rewrite lookup_insert_eq.
  - assert (Hpres : preserves (attr_is "is_probabilistic" None) (construct cls args)).
    { destruct cls; try done; cbn [construct]; frame;
        unfold GaussianProcessRegression.init, ModelListGaussianProcess.init,
          MultiTaskGaussianProcess.init, DeepKernelMultiTaskGaussianProcess.init;
        frame. }
    specialize (Hpres st Hnone). unfold attr_is in Hpres.
    unfold lookup_attr. rewrite Hpres. by destruct cls.
Qed.

End flag_facts.

(** C8. From construction on, through any sequence of [create_model],
    [fit], [predict] and [update] calls with any arguments, whether they
    return or raise, [is_probabilistic] read on the instance is the
    constant of its family: [False] for the two deterministic networks,
    [True] for every other family. *)
Theorem is_probabilistic_fixed `{Backend} (cls : Family) (w : World)
    (ks : list Kernel) (init_args : list Val) (ops : list Op) :
  lookup_attr cls (self (lifetime cls init_args ops (new_instance w ks)))
    "is_probabilistic"
  = Some (VBool (probabilistic cls)).
Proof.
  unfold lifetime.
  pose proof (flag_construct cls init_args (new_instance w ks) (lookup_empty _)) as Hinit.
  revert Hinit. generalize (snd (construct cls init_args (new_instance w ks))).
  induction ops as [|op ops IH]; intros st Hst; cbn [run_ops]; [done|].
  apply IH.
  apply (preserves_attr_predicate "is_probabilistic"
           (λ o, match o with Some v => Some v | None => class_attr cls "is_probabilistic" end
                 = Some (VBool (probabilistic cls)))
           (invoke cls op) (λ o, flag_invoke o cls op) st Hst).
Qed.

(** ** Neural-network surrogates *)

(** C3. On an instance whose [model] is [None], [predict] of each of the
    five neural-network classes returns [None] for every input, without
    raising and without touching the instance or any library. *)
Theorem predict_without_model_returns_None `{Backend} (st : State)
    (X iterations return_samples : Val) :
  self st !! "model" = Some VNone →
  NN.predict X st = (Ok VNone, st)
  ∧ Prob_NN.predict X iterations return_samples st = (Ok VNone, st)
  ∧ Bayesian_NN.predict X iterations return_samples st = (Ok VNone, st)
  ∧ Vanilla_NN.predict X st = (Ok VNone, st)
  ∧ Vanilla_BayesianNN.predict X iterations st = (Ok VNone, st).
Proof.
  intros Hmodel.
  assert (Hget : ∀ cls, getattr cls "model" st = (Ok VNone, st)).
  { intros cls. apply run_getattr. by apply lookup_attr_instance. }
  repeat split.
  - unfold NN.predict. erewrite run_bind by apply Hget. by mstep.
  - unfold Prob_NN.predict. erewrite run_bind by apply Hget. by mstep.
  - unfold Bayesian_NN.predict. erewrite run_bind by apply Hget. by mstep.
  - unfold Vanilla_NN.predict. erewrite run_bind by apply Hget. by mstep.
  - unfold Vanilla_BayesianNN.predict. erewrite run_bind by apply Hget. by mstep.
Qed.

Lemma predict_without_model_returns_None_witness :
  NN.predict (VArr (np.zeros1 2)) vanilla_nn_new = (Ok VNone, vanilla_nn_new)
  ∧ Prob_NN.predict (VArr (np.zeros1 2)) (VInt 50) (VBool false) vanilla_nn_new
    = (Ok VNone, vanilla_nn_new)
  ∧ Bayesian_NN.predict (VArr (np.zeros1 2)) (VInt 50) (VBool false) vanilla_nn_new
    = (Ok VNone, vanilla_nn_new)
  ∧ Vanilla_NN.predict (VArr (np.zeros1 2)) vanilla_nn_new = (Ok VNone, vanilla_nn_new)
  ∧ Vanilla_BayesianNN.predict (VArr (np.zeros1 2)) (VInt 50) vanilla_nn_new
    = (Ok VNone, vanilla_nn_new).
Proof.
  apply (predict_without_model_returns_None (H := echo_backend)). reflexivity.
Defined.

(** C2. Whatever [return_samples] is, [predict] of [Prob_NN] and of
    [Bayesian_NN] returns at most the pair of the mean and the standard
    deviation: the sample matrix is never part of the result. *)
Theorem predict_never_returns_the_samples `{Backend} (st : State)
    (X iterations return_samples : Val) :
  mean_and_std_only (fst (Prob_NN.predict X iterations return_samples st))
  ∧ mean_and_std_only (fst (Bayesian_NN.predict X iterations return_samples st)).
Proof.
  assert (Hshared : ∀ cls,
    mean_and_std_only
      (fst ((model ← getattr cls "model";
             b ← lift (truthy model);
             if b : bool then
               '(mean, stdv, preds) ← monte_carlo cls X iterations;
               rs ← lift (truthy return_samples);
               (if rs : bool then mret (VTuple [VArr mean; VArr stdv; VArr preds])
                else mret VNone);;
               mret (VTuple [VArr mean; VArr stdv])
             else mret VNone) st))).
  { intros cls. unfold mbind at 1 2, M_bind, getattr, lift.
    destruct (lookup_attr cls (self st) "model") as [model|]; [|done].
    destruct (truthy model) as [[]|]; cbn [fst]; [|by left|done].
    unfold mbind at 1, M_bind.
    destruct (monte_carlo cls X iterations st) as [[[[mean stdv] preds]|e] st'];
      [|done].
    unfold mbind, M_bind, lift, mret, M_ret.
    destruct (truthy return_samples) as [[]|]; cbn; eauto. }
  split; apply Hshared.
Qed.

(** On the counting backend, [predict] with [return_samples=True] and two
    passes over a two-row input returns the pair of the row means and row
    standard deviations of the two passes, and no third component. *)
Lemma prob_nn_predict_with_return_samples :
  fst (Prob_NN.predict (VArr (np.mk_nd [2; 2]%nat [0; 0; 1; 1])) (VInt 2) (VBool true)
         prob_nn_new)
  = Ok (VTuple
          [VArr (np.mk_nd [2%nat]
                   [np.mean_list [INR 0; INR 1]; np.mean_list [INR 0; INR 1]]);
           VArr (np.mk_nd [2%nat]
                   [np.std_list [INR 0; INR 1]; np.std_list [INR 0; INR 1]])]).
Proof. reflexivity. Qed.

(** ** Weakest preconditions *)

Section weakest_preconditions.
Context `{Backend}.

Lemma wp_bind {A B} (m : M A) (k : A → M B) Q st :
  wp m (λ r st', match r with
                 | Ok a => wp (k a) Q st'
                 | Raise e => Q (Raise e) st'
                 end) st →
  wp (m ≫= k) Q st.
Proof.
  unfold wp, mbind, M_bind. by destruct (m st) as [[a|e] st'].
Qed.

Lemma wp_ret {A} (a : A) Q st : Q (Ok a) st → wp (mret a) Q st.
Proof. done. Qed.

Lemma wp_raise {A} e (Q : result A → State → Prop) st :
  Q (Raise e) st → wp (raise e) Q st.
Proof. done. Qed.

Lemma wp_lift {A} (r : result A) Q st : Q r st → wp (lift r) Q st.
Proof. done. Qed.

Lemma wp_getattr cls name Q st :
  match lookup_attr cls (self st) name with
  | Some v => Q (Ok v) st
  | None => Q (Raise AttributeError) st
  end →
  wp (getattr cls name) Q st.
Proof. unfold wp, getattr. by destruct (lookup_attr _ _ _). Qed.

Lemma wp_setattr name v Q st :
  Q (Ok tt) {| self := <[name := v]> (self st); kernels := kernels st;
               world := world st; log := log st |} →
  wp (setattr name v) Q st.
Proof. done. Qed.

Lemma wp_call name args Q st :
  (∀ r w, extern name args (world st) = (r, w) →
          Q r {| self := self st; kernels := kernels st; world := w;
                 log := name :: log st |}) →
  wp (call name args) Q st.
Proof.
  intros HQ. unfold wp, call. destruct (extern _ _ _) as [r w] eqn:Hext.
  by apply HQ.
Qed.

Lemma wp_method obj name args Q st :
  (obj = VNone → Q (Raise AttributeError) st) →
  (obj ≠ VNone → wp (call name (obj :: args)) Q st) →
  wp (method obj name args) Q st.
Proof.
  intros Hnone Hcall. destruct obj; try (apply Hcall; done). by apply Hnone.
Qed.

Lemma wp_conseq {A} (m : M A) (Q Q' : result A → State → Prop) st :
  wp m Q st → (∀ r st', Q r st' → Q' r st') → wp m Q' st.
Proof. unfold wp. auto. Qed.

End weakest_preconditions.

(** One step of symbolic execution. *)
Ltac wp_step :=
  lazymatch goal with
  | |- wp (_ ≫= _) _ _ => apply wp_bind
  | |- wp (mret _) _ _ => apply wp_ret
  | |- wp (raise _) _ _ => apply wp_raise
  | |- wp (lift _) _ _ => apply wp_lift
  | |- wp (getattr _ _) _ _ => apply wp_getattr; cbn [self]; mlookup
  | |- wp (setattr _ _) _ _ => apply wp_setattr
  | |- wp (call _ _) _ _ => apply wp_call; cbn [world]; intros [?|?] ? ?
  | |- wp (method _ _ _) _ _ => apply wp_method; intros ?
  | |- wp print _ _ => unfold print
  | |- wp (warn _) _ _ => unfold warn
  | |- wp (if ?b then _ else _) _ _ => destruct b eqn:?
  | |- wp (match ?x with _ => _ end) _ _ => destruct x eqn:?
  | |- match ?x with _ => _ end =>
      first [ match goal with Hx : x = _ |- _ => rewrite Hx end
            | destruct x eqn:? ]
  end;
  cbn beta iota delta [self kernels world log].

Ltac wp_run := repeat wp_step.

(** ** The training loop of the single-output exact GP *)

Section training_loop.
Context `{Backend}.
Let cls := S_GaussianProcessRegression.
Let V := GaussianProcessRegression.variant.

Lemma py_neg_float a b : py_neg a = Ok b → ∃ l, b = VF64 l.
Proof. destruct a; simpl; intros [=]; eauto. Qed.

(** The three arithmetic steps that compute [loss_ratio], and its test. *)
Lemma loss_ratio_test rate previous l decrease scaled ratio negative :
  py_sub (VF64 previous) (VF64 l) = Ok decrease →
  py_mul rate (VF64 l) = Ok scaled →
  py_sub decrease scaled = Ok ratio →
  py_lt_zero ratio = Ok negative →
  ∃ rho, as_f64 rate = Ok rho
         ∧ negative = loss_ratio_negative rho previous l.
Proof.
  unfold py_mul. destruct (as_f64 rate) as [rho|]; simpl; [|done].
  intros [= <-] [= <-] [= <-] [= <-]. by exists rho.
Qed.

Lemma train_iteration_spec c rate ls previous st :
  loop_inv c rate ls st →
  wp (gpytorch.train_iteration cls V (VF64 previous))
     (iteration_post c rate ls previous) st.
Proof.
  intros (Hsteps & Hvec & Hrate).
  unfold gpytorch.train_iteration, V, GaussianProcessRegression.variant,
    GaussianProcessRegression.get_noise, gpytorch.likelihood_noise_sqrt.
  cbn [gpytorch.forward gpytorch.targets gpytorch.get_noise].
  unfold cls in *. wp_run.
  all: try (unfold iteration_post; cbn [log optimizer_steps]; simpl String.eqb;
            cbn beta iota; lia).
  all: apply py_neg_float in Heqr as [l ->]; injection Heqr0 as <-.
  all: rewrite (lookup_attr_instance _ _ _ _ Hvec) in Heqo4; injection Heqo4 as <-.
  all: injection Heqr1 as <-.
  all: exists l; split; [done|]; split.
  all: try (unfold loop_inv; cbn [self log optimizer_steps]; simpl String.eqb;
            rewrite length_app, map_app; cbn [length map]; mlookup;
            repeat split; [lia | done..]).
  all: unfold stops; rewrite Heqr2; try done.
  all: by eapply loss_ratio_test.
Qed.

Lemma loss_history_cons rate n previous l ls' :
  stops rate previous l false →
  (n = 0%nat ∧ ls' = []) ∨ loss_history rate n l ls' →
  loss_history rate (S n) previous (l :: ls').
Proof.
  unfold stops, loss_history. destruct rate as [rate|]; [|done].
  destruct (truthy rate) as [[]|]; [| |done].
  - intros (rho & Hrho & Hneg) [[-> ->] | (rho' & Hrho' & Htrace)].
    + exists rho. split; [done|]. simpl. by rewrite <- Hneg.
    + exists rho. split; [done|]. simpl. rewrite <- Hneg.
      rewrite Hrho in Hrho'. by injection Hrho' as ->.
  - intros _ [[-> ->] | Hlen]; simpl; [done | by rewrite Hlen].
Qed.

Lemma loss_history_stop rate n previous l :
  stops rate previous l true → loss_history rate (S n) previous [l].
Proof.
  unfold stops, loss_history. destruct rate as [rate|]; [|done].
  destruct (truthy rate) as [[]|]; [|done..].
  intros (rho & Hrho & Hneg). exists rho. split; [done|]. simpl. by rewrite <- Hneg.
Qed.

Lemma train_loop_spec c rate n ls previous last st :
  loop_inv c rate ls st →
  wp (gpytorch.train_loop cls V n (VF64 previous) last)
     (loop_post c rate n ls previous last) st.
Proof.
  revert ls previous last st. induction n as [|n IH]; intros ls previous last st Hinv.
  - apply wp_ret. exists []. rewrite app_nil_r. split; [done|]. by left.
  - cbn [gpytorch.train_loop]. apply wp_bind.
    eapply wp_conseq; [by apply train_iteration_spec|].
    intros [[[loss ratio] stop]|e] st' Hpost; cbn [iteration_post] in Hpost.
    + destruct Hpost as (l & -> & Hinv' & Hstop). destruct stop.
      * apply wp_ret. exists [l]. split; [done|]. right. split; [done|].
        by apply loss_history_stop.
      * apply wp_bind, wp_lift. cbn [item_of].
        eapply wp_conseq; [apply (IH (ls ++ [l]) l); exact Hinv'|].
        intros [last'|e] st''; cbn [loop_post].
        -- intros (ls' & Hinv'' & Hcases). exists (l :: ls').
           rewrite <- app_assoc in Hinv''. split; [done|]. right.
           destruct Hcases as [(-> & -> & ->) | [Hlast Hhist]].
           ++ split; [done|]. apply loss_history_cons; [done | by left].
           ++ split; [done|]. apply loss_history_cons; [done | by right].
        -- rewrite length_app. cbn [length]. lia.
    + cbn [loop_post]. lia.
Qed.

End training_loop.

Section training_progress.
Context `{Backend}.
Let cls := S_GaussianProcessRegression.
Let V := GaussianProcessRegression.variant.
Hypothesis Hlib : library_trains.

Ltac lib_call :=
  let r := fresh "r" in let w' := fresh "w" in let Hx := fresh "Hx" in
  apply wp_call; cbn [world]; intros r w' Hx;
  lazymatch type of Hx with
  | extern ?name ?args ?w = _ =>
      let v := fresh "v" in let w2 := fresh "w" in let Hok := fresh "Hok" in
      let Hmll := fresh "Hmll" in let Hobj := fresh "Hobj" in
      destruct (Hlib name args w) as (v & w2 & Hok & Hmll & Hobj);
      rewrite Hok in Hx; injection Hx as <- <-; clear Hok;
      first [ destruct (Hmll eq_refl) as [? ->]
            | destruct (Hobj eq_refl) as [? ->]
            | idtac ];
      clear Hmll Hobj
  end.

Ltac known_attr :=
  apply wp_getattr; cbn [self]; mlookup;
  try match goal with
      | Ha : lookup_attr _ ?d ?n = Some _ |- context [lookup_attr _ ?d ?n] => rewrite Ha
      end.

Ltac wp_go :=
  lazymatch goal with
  | |- wp (_ ≫= _) _ _ => apply wp_bind
  | |- wp (mret _) _ _ => apply wp_ret
  | |- wp (lift _) _ _ => apply wp_lift;
        cbn [py_neg py_sub py_mul py_lt_zero item_of py_append as_f64 mbind result_bind]
  | |- wp (getattr _ _) _ _ => known_attr
  | |- wp (setattr _ _) _ _ => apply wp_setattr
  | |- wp (call _ _) _ _ => lib_call
  | |- wp (method (VObj _) _ _) _ _ => apply wp_method; [discriminate | intros _]
  | |- wp print _ _ => unfold print
  | |- wp (if ?b then _ else _) _ _ => destruct b
  | |- match truthy ?v with _ => _ end =>
      match goal with Ht : truthy v = Ok _ |- _ => rewrite Ht end
  | |- context [as_f64 ?v] =>
      match goal with Ht : as_f64 v = Ok _ |- _ => rewrite Ht end;
      cbn [mbind result_bind]
  end;
  cbn beta iota delta [self kernels world log is_none].

Lemma train_iteration_returns rate stopping shown previous st :
  trainable rate stopping shown st →
  wp (gpytorch.train_iteration cls V (VF64 previous))
     (λ r st', ∃ x ratio stop, r = Ok (VF64 x, ratio, stop)
                               ∧ trainable rate stopping shown st') st.
Proof.
  intros ((ho & Hopt) & (hm & Hmll) & (hmo & Hmodel) & (vX & HX) & (vy & Hy)
          & (l & Hvec) & Hrate & Htruthy & Hrho & (sp & Hsp & Hshown)).
  unfold gpytorch.train_iteration, V, GaussianProcessRegression.variant,
    GaussianProcessRegression.get_noise, gpytorch.likelihood_noise_sqrt.
  cbn [gpytorch.forward gpytorch.targets gpytorch.get_noise].
  unfold cls in *.
  repeat wp_go.
  all: try (destruct (Hrho eq_refl) as (rho & Hrho')).
  all: repeat wp_go.
  all: eexists _, _, _; split; [reflexivity|].
  all: unfold trainable; cbn [self]; mlookup.
  all: repeat split; eauto.
Qed.

Lemma train_loop_returns rate stopping shown n previous last st :
  trainable rate stopping shown st →
  wp (gpytorch.train_loop cls V n (VF64 previous) last)
     (λ r st', ∃ last', r = Ok last' ∧ (last' = None → n = 0%nat ∧ last = None)) st.
Proof.
  revert previous last st. induction n as [|n IH]; intros previous last st Hst.
  - apply wp_ret. by exists last.
  - cbn [gpytorch.train_loop]. apply wp_bind.
    eapply wp_conseq; [by apply train_iteration_returns|].
    intros r st' (x & ratio & stop & -> & Hst'). cbn beta iota.
    destruct stop.
    + apply wp_ret. by eexists.
    + apply wp_bind, wp_lift. cbn [item_of].
      eapply wp_conseq; [by apply IH|].
      intros r st'' (last' & -> & Hlast). exists last'. split; [done|].
      intros ->. by destruct (Hlast eq_refl).
Qed.

(** With arrays of equal length, at least one iteration, settings that
    Python can test and a library that answers, [fit] returns. *)
Lemma fit_returns (X y lr rate sp : Val) (a : nat) (z : Z) (stopping shown : bool) st :
  is_none X = false → is_none y = false →
  shape_at X 0 = Ok a → shape_at y 0 = Ok a →
  lookup_attr cls (self st) "learning_rate" = Some lr →
  lookup_attr cls (self st) "training_max_iter" = Some (VInt z) → (1 <= z)%Z →
  lookup_attr cls (self st) "min_loss_rate" = Some rate →
  truthy rate = Ok stopping → (stopping = true → ∃ rho, as_f64 rate = Ok rho) →
  lookup_attr cls (self st) "show_progress" = Some sp → truthy sp = Ok shown →
  wp (GaussianProcessRegression.fit X y) (λ r _, r = Ok VNone) st.
Proof.
  intros HX Hy HsX Hsy Hlr Hmax Hz Hrate Htruthy Hrho Hsp Hshown.
  unfold GaussianProcessRegression.fit, gpytorch.fit. rewrite HX, Hy. cbn [orb].
  unfold GaussianProcessRegression.variant.
  cbn [gpytorch.store gpytorch.create_model gpytorch.mll_class].
  unfold GaussianProcessRegression.create_model, gpytorch.check_rows.
  unfold cls in *.
  repeat wp_go. rewrite Hsy. repeat wp_go. rewrite HsX. repeat wp_go.
  all: try match goal with Hne : ?a ≠ ?a |- _ => by destruct Hne end.
  all: repeat wp_go.
  all: cbn [as_int]; cbn beta iota.
  all: apply wp_bind.
  all: eapply wp_conseq;
    [ apply (train_loop_returns rate stopping shown);
      unfold trainable; cbn [self]; mlookup; repeat split; eauto |].
  all: intros r st' (last' & -> & Hlast); cbn beta iota.
  all: destruct last' as [last'|]; [|destruct (Hlast eq_refl); lia].
  all: repeat wp_go.
  all: done.
Qed.

End training_progress.

Lemma early_stop_trace_length rho n previous ls :
  early_stop_trace rho n previous ls → (length ls <= n)%nat.
Proof.
  revert previous ls. induction n as [|n IH]; intros previous [|l ls]; simpl; try done.
  destruct (loss_ratio_negative rho previous l).
  - intros ->. simpl. lia.
  - intros Htrace. apply IH in Htrace. lia.
Qed.

Lemma loss_history_length rate n previous ls :
  loss_history rate n previous ls → (length ls <= n)%nat.
Proof.
  unfold loss_history. destruct rate as [rate|]; [|done].
  destruct (truthy rate) as [[]|]; [| |done].
  - intros (rho & _ & Htrace). by eapply early_stop_trace_length.
  - intros ->. lia.
Qed.

Lemma max_iter_as_int (o : option Val) (v : Val) (z : Z) :
  o = Some v → as_int v = Ok z → max_iter o = Z.to_nat z.
Proof. intros -> Hz. destruct v; simpl in Hz; by try injection Hz as ->. Qed.

Lemma fit_loss_history `{Backend} (train_X train_y : Val) (st : State) :
  wp (GaussianProcessRegression.fit train_X train_y) (fit_post st) st.
Proof.
  unfold GaussianProcessRegression.fit, gpytorch.fit.
  unfold GaussianProcessRegression.variant.
  cbn [gpytorch.store gpytorch.create_model gpytorch.mll_class].
  unfold GaussianProcessRegression.create_model, gpytorch.check_rows.
  wp_run.
  (* an exception before the loop: no optimizer step has been made *)
  all: try (unfold fit_post; split;
            [cbn [log optimizer_steps]; simpl String.eqb; cbn beta iota; lia | done]).
  (* the loop, from an empty loss history *)
  all: eapply wp_conseq;
    [ apply (train_loop_spec (optimizer_steps (log st))
               (lookup_attr S_GaussianProcessRegression (self st) "min_loss_rate")
               _ [] infinity None);
      unfold loop_inv; cbn [self log optimizer_steps length map]; simpl String.eqb;
      mlookup; repeat split; lia | ].
  all: match goal with
       | Hv : lookup_attr _ _ "training_max_iter" = Some ?v, Hz : as_int ?v = Ok ?z
         |- _ => pose proof (max_iter_as_int _ _ _ Hv Hz) as Hn
       end.
  all: intros [[last|]|e] st1; cbn [loop_post app length]; unfold fit_post; rewrite Hn.
  (* the loop returned with [loss] bound, with [loss] unbound, or raised *)
  1,4,7,10:
    intros (ls & (Hsteps & Hvec & _) & [(_ & _ & [=]) | [_ Hhist]]);
    pose proof (loss_history_length _ _ _ _ Hhist);
    wp_run; cbn [optimizer_steps]; simpl String.eqb; cbn beta iota;
    (split; [lia|]); first [done | exists ls; split; [done | split; [lia | done]]].
  1,3,5,7:
    intros (ls & (Hsteps & _) & [(Hzero & -> & _) | [[] _]]); [|done];
    apply wp_raise; split; [cbn [length] in Hsteps; lia | done].
  all: intros Hle; split; [lia | done].
Qed.

(** C5, as amended. [fit] of the single-output exact GP makes at most
    [training_max_iter] optimizer steps, whatever happens. When it
    returns, [vec_loss] holds one loss per step made; with a
    [min_loss_rate] that Python treats as true (neither [None] nor a
    zero), these are the losses of a loop that stops right after the first
    iteration whose loss ratio
    [(previous - current) - min_loss_rate * current], computed in binary64
    with an infinite previous loss at the first iteration, is negative;
    with [min_loss_rate] equal to [None] or to zero, all
    [training_max_iter] iterations are run. And [fit] does return, when
    the library answers its calls and the instance is ready for it. *)
Theorem fit_training_loop `{Backend} (train_X train_y : Val) (st : State) :
  wp (GaussianProcessRegression.fit train_X train_y) (fit_post st) st
  ∧ (library_trains → fit_ready train_X train_y st →
     fst (GaussianProcessRegression.fit train_X train_y st) = Ok VNone).
Proof.
  split; [apply fit_loss_history|].
  intros Hlib (HX & Hy & (a & HsX & Hsy) & (lr & Hlr) & (z & Hmax & Hz)
               & (rate & stopping & Hrate & Htruthy & Hrho)
               & (sp & shown & Hsp & Hshown)).
  exact (fit_returns Hlib train_X train_y lr rate sp a z stopping shown st
           HX Hy HsX Hsy Hlr Hmax Hz Hrate Htruthy Hrho Hsp Hshown).
Qed.

Lemma fit_training_loop_witness :
  wp (GaussianProcessRegression.fit
        (VArr (np.mk_nd [2; 1]%nat [0; 1])) (VArr (np.mk_nd [2]%nat [0; 1])))
     (fit_post gpr_example) gpr_example
  ∧ fst (GaussianProcessRegression.fit
           (VArr (np.mk_nd [2; 1]%nat [0; 1])) (VArr (np.mk_nd [2]%nat [0; 1]))
           gpr_example) = Ok VNone.
Proof.
  destruct (@fit_training_loop stalling_backend
              (VArr (np.mk_nd [2; 1]%nat [0; 1])) (VArr (np.mk_nd [2]%nat [0; 1]))
              gpr_example) as [Hhistory Hreturns].
  split; [exact Hhistory|]. apply Hreturns.
  - intros name args w. unfold extern, stalling_backend.
    destruct (decide (name = "mll.__call__"%string)) as [->|Hmll].
    + eexists _, _. split; [reflexivity|]. split; [intros _; eexists; reflexivity | intros [=]].
    + destruct (decide (name = "optimizer.step"%string)) as [->|Hstep].
      * eexists _, _. split; [reflexivity|]. split; intros [=].
      * eexists _, _. split; [reflexivity|].
        split; [intros ->; by destruct Hmll | intros _; by exists 0%nat].
  - unfold fit_ready. split; [reflexivity|]. split; [reflexivity|].
    split; [exists 2%nat; split; reflexivity|].
    split; [exists (VFloat 0.1); reflexivity|].
    split; [exists 10%Z; split; [reflexivity | lia]|].
    split.
    + exists (VF64 0.5), true. split; [reflexivity|]. split; [reflexivity|].
      intros _. exists 0.5%float. reflexivity.
    + exists (VBool false), false. split; reflexivity.
Defined.

(** ** The loop on the stalling backend *)

Lemma train_loop_S `{Backend} cls V n loss_0 last :
  gpytorch.train_loop cls V (S n) loss_0 last
  = ('(loss, loss_ratio, stop) ← gpytorch.train_iteration cls V loss_0;
     if stop : bool then mret (Some (loss, loss_ratio))
     else
       loss_0 ← lift (item_of loss);
       gpytorch.train_loop cls V n loss_0 (Some (loss, loss_ratio))).
Proof. reflexivity. Qed.

(** One step of execution on a backend whose calls compute. *)
Ltac wp_exec :=
  lazymatch goal with
  | |- wp (_ ≫= _) _ _ => apply wp_bind
  | |- wp (mret _) _ _ => apply wp_ret
  | |- wp (raise _) _ _ => apply wp_raise
  | |- wp (lift _) _ _ => apply wp_lift
  | |- wp (getattr _ _) _ _ => apply wp_getattr; cbn [self]; mlookup
  | |- wp (setattr _ _) _ _ => apply wp_setattr
  | |- wp (call _ _) _ _ =>
      let Hext := fresh in
      apply wp_call; cbn [world]; intros ? ? Hext; injection Hext as <- <-
  | |- wp (method _ _ _) _ _ => apply wp_method; [discriminate | intros _]
  | |- wp print _ _ => unfold print
  | |- wp (warn _) _ _ => unfold warn
  | |- wp (if decide _ then _ else _) _ _ =>
      let Hne := fresh in destruct (decide _) as [Hne|_]; [by destruct Hne|]
  | |- wp (gpytorch.train_loop _ _ (S _) _ _) _ _ => rewrite train_loop_S
  | |- wp (gpytorch.train_loop _ _ ?n _ _) _ _ =>
      let k := eval cbv in n in change n with k
  | |- wp (gpytorch.train_iteration _ _ _) _ _ =>
      unfold gpytorch.train_iteration;
      cbn [gpytorch.forward gpytorch.targets gpytorch.get_noise];
      unfold GaussianProcessRegression.get_noise, gpytorch.likelihood_noise_sqrt
  | |- match ?x with _ => _ end =>
      let y := eval cbn -[bool_decide] in x in change x with y
  | |- context [bool_decide ?P] =>
      first [ rewrite (bool_decide_eq_true_2 P) by lra
            | rewrite (bool_decide_eq_false_2 P) by lra ];
      cbn [negb]
  end;
  cbn beta iota delta [self kernels world log is_none orb].

(** With losses 3, 1, 1, ... and [min_loss_rate = 0.5] the loss ratio is
    infinite in the first iteration, [1.5] in the second and [-0.5] in the
    third: [fit] returns after three of the ten iterations. *)
Lemma fit_stops_when_the_loss_stalls :
  wp (GaussianProcessRegression.fit VNone VNone)
     (λ r st, r = Ok VNone
              ∧ self st !! "vec_loss" = Some (VList (map VF64 [3; 1; 1]%float))
              ∧ optimizer_steps (log st) = 3%nat)
     gpr_example.
Proof.
  unfold GaussianProcessRegression.fit, gpytorch.fit.
  unfold GaussianProcessRegression.variant.
  cbn [gpytorch.store gpytorch.create_model gpytorch.mll_class].
  unfold GaussianProcessRegression.create_model, gpytorch.check_rows, gpr_example.
  repeat wp_exec.
  split; [done|]. split; [mlookup; reflexivity | reflexivity].
Qed.

(** C5, as stated, fails for [min_loss_rate = 0.0]: the rate is
    configured, the loss ratio of the second iteration is
    [(1 - 2) - 0.0 * 2 = -1], below zero, and the loop still runs its three
    iterations, because [if self.min_loss_rate:] is false for a zero. *)
Lemma fit_ignores_a_zero_min_loss_rate :
  wp (GaussianProcessRegression.fit VNone VNone)
     (λ r st, r = Ok VNone
              ∧ self st !! "vec_loss" = Some (VList (map VF64 [1; 2; 3]%float))
              ∧ optimizer_steps (log st) = 3%nat)
     gpr_zero_rate
  ∧ self gpr_zero_rate !! "min_loss_rate" = Some (VF64 0)
  ∧ loss_ratio_negative 0 1 2 = true.
Proof.
  split; [|split; [reflexivity | reflexivity]].
  unfold GaussianProcessRegression.fit, gpytorch.fit.
  unfold GaussianProcessRegression.variant.
  cbn [gpytorch.store gpytorch.create_model gpytorch.mll_class].
  unfold GaussianProcessRegression.create_model, gpytorch.check_rows, gpr_zero_rate.
  repeat wp_exec.
  split; [done|]. split; [mlookup; reflexivity | reflexivity].
Qed.

(** ** Benchmark functions: input shapes *)

Section benchmark_facts.
Import test_functions.
Implicit Types (f g : nat → R) (n m : nat) (l : list R).

Lemma umap_tabulate (h : R → R) n f :
  np.umap h (np.tabulate n f) = np.tabulate n (λ k, h (f k)).
Proof. unfold np.umap, np.tabulate; simpl. by rewrite map_map. Qed.

End benchmark_facts.

(** X7. On a matrix with fewer than four columns [shekel] raises
    [IndexError]; with fewer than two columns so do [six_hump_camel_2D],
    [bohachevsky_2D] and [peaks_2d]. *)
Theorem benchmark_missing_columns (X : ndarray) (n m : nat) :
  np.shape X = [n; m] → (m < 4)%nat →
  test_functions.shekel X = Raise IndexError
  ∧ ((m < 2)%nat →
     test_functions.six_hump_camel_2D X = Raise IndexError
     ∧ test_functions.bohachevsky_2D X = Raise IndexError
     ∧ test_functions.peaks_2d X = Raise IndexError).
Proof.
  intros HX Hm.
  assert (Hat : np.atleast_2d X = X) by (unfold np.atleast_2d; by rewrite HX).
  split; [|intros Hm2; repeat split].
  all: unfold test_functions.shekel, test_functions.six_hump_camel_2D,
         test_functions.bohachevsky_2D, test_functions.peaks_2d, np.column;
       rewrite ?Hat, HX.
  all: repeat case_decide; cbn [mbind result_bind]; done || lia.
Qed.

Lemma benchmark_missing_columns_witness :
  test_functions.shekel (np.mk_nd [1; 1]%nat [5]) = Raise IndexError
  ∧ ((1 < 2)%nat →
     test_functions.six_hump_camel_2D (np.mk_nd [1; 1]%nat [5]) = Raise IndexError
     ∧ test_functions.bohachevsky_2D (np.mk_nd [1; 1]%nat [5]) = Raise IndexError
     ∧ test_functions.peaks_2d (np.mk_nd [1; 1]%nat [5]) = Raise IndexError).
Proof.
  apply (benchmark_missing_columns (np.mk_nd [1; 1]%nat [5]) 1 1); [reflexivity | lia].
Defined.

Lemma peaks_2d_matrix (X : ndarray) (n m : nat) :
  np.shape X = [n; m] → (2 <= m)%nat →
  test_functions.peaks_2d X
  = Ok (np.tabulate n (λ i, peaks_point (nth (i * m + 0) (np.data X) 0)
                                         (nth (i * m + 1) (np.data X) 0))).
Proof.
  intros HX Hm. unfold test_functions.peaks_2d.
  assert (Hat : np.atleast_2d X = X) by (unfold np.atleast_2d; by rewrite HX).
  rewrite Hat.
  rewrite (column_tabulate X n m 0), (column_tabulate X n m 1) by (done || lia).
  cbn [mbind result_bind]. unfold lift1, np.negative, np.exp.
  repeat first [ progress np_eval | rewrite umap_tabulate ].
  reflexivity.
Qed.

(** X8. On a 1-D input of length at least two, [six_hump_camel_2D],
    [bohachevsky_2D] and [shekel] raise [IndexError], whereas [ackley_nd]
    and [peaks_2d] take it as the single row of a matrix: [peaks_2d]
    returns the one value at [(x[0], x[1])]. *)
Theorem benchmark_vector_input (x : ndarray) (n : nat) (a b c : R) :
  np.shape x = [n] → (2 <= n)%nat →
  test_functions.six_hump_camel_2D x = Raise IndexError
  ∧ test_functions.bohachevsky_2D x = Raise IndexError
  ∧ test_functions.shekel x = Raise IndexError
  ∧ test_functions.ackley_nd x a b c
    = test_functions.ackley_nd (np.mk_nd [1%nat; n] (np.data x)) a b c
  ∧ test_functions.peaks_2d x
    = Ok (np.mk_nd [1%nat] [peaks_point (nth 0 (np.data x) 0) (nth 1 (np.data x) 0)]).
Proof.
  intros Hx Hn.
  assert (Hat : np.atleast_2d x = np.mk_nd [1%nat; n] (np.data x))
    by (unfold np.atleast_2d; by rewrite Hx).
  repeat split.
  1-3: unfold test_functions.shekel, test_functions.six_hump_camel_2D,
         test_functions.bohachevsky_2D, np.column; by rewrite Hx.
  - unfold test_functions.ackley_nd. by rewrite Hat.
  - transitivity (test_functions.peaks_2d (np.mk_nd [1%nat; n] (np.data x))).
    + unfold test_functions.peaks_2d. rewrite Hat.
      by replace (np.atleast_2d (np.mk_nd [1%nat; n] (np.data x)))
        with (np.mk_nd [1%nat; n] (np.data x)).
    + by rewrite (peaks_2d_matrix _ 1 n).
Qed.

Lemma benchmark_vector_input_witness :
  test_functions.six_hump_camel_2D (np.array1 [1; 2]) = Raise IndexError
  ∧ test_functions.bohachevsky_2D (np.array1 [1; 2]) = Raise IndexError
  ∧ test_functions.shekel (np.array1 [1; 2]) = Raise IndexError
  ∧ test_functions.ackley_nd (np.array1 [1; 2]) 20 0.2 (2 * PI)
    = test_functions.ackley_nd (np.mk_nd [1; 2]%nat [1; 2]) 20 0.2 (2 * PI)
  ∧ test_functions.peaks_2d (np.array1 [1; 2])
    = Ok (np.mk_nd [1%nat] [peaks_point 1 2]).
Proof.
  apply (benchmark_vector_input (np.array1 [1; 2]) 2 20 0.2 (2 * PI)); [reflexivity | lia].
Defined.

(** ** The classical Gaussian Process surrogate: kernel objects *)

Section kernel_frames.
Context `{Backend}.
Implicit Types (l : nat) (k : Kernel).

Lemma kernel_is_setattr l k name v : preserves (kernel_is l k) (setattr name v).
Proof. by intros st Hst. Qed.

Lemma kernel_is_call l k fn args : preserves (kernel_is l k) (call fn args).
Proof. intros st Hst. unfold call. by destruct (extern _ _ _). Qed.

Lemma kernel_is_new_kernel l k k' : preserves (kernel_is l k) (new_kernel k').
Proof.
  intros st Hst. unfold kernel_is in *. simpl.
  rewrite lookup_insert_ne; [done|].
  intros <-. pose proof (is_fresh (dom (kernels st))) as Hfresh.
  apply Hfresh, elem_of_dom. by eexists.
Qed.

Lemma kernel_is_model_fit l k cls X y :
  preserves (kernel_is l k) (GaussianProcess.model_fit cls X y).
Proof.
  unfold GaussianProcess.model_fit.
  apply preserves_bind; [apply preserves_getattr | intros model].
  destruct model as [| | | | | | | | | | |kernel restarts fitted|];
    try apply preserves_raise.
  apply preserves_bind.
  - destruct kernel; try apply preserves_ret.
    apply preserves_bind; [apply preserves_read_kernel | intros; apply preserves_ret].
  - intros template. apply preserves_bind; [apply kernel_is_call | intros out].
    destruct out; try apply preserves_raise.
    apply preserves_bind; [apply kernel_is_new_kernel | intros; apply kernel_is_setattr].
Qed.

Lemma kernel_is_get_noise l k cls :
  preserves (kernel_is l k) (GaussianProcess.get_noise cls).
Proof.
  unfold GaussianProcess.get_noise.
  repeat first
    [ apply preserves_bind; [|intros ?]
    | apply preserves_lift | apply preserves_read_kernel | apply preserves_getattr
    | apply preserves_raise
    | match goal with |- preserves _ (match ?x with _ => _ end) => destruct x end
    | match goal with |- preserves _ (if ?x then _ else _) => destruct x end ].
Qed.

Lemma kernel_is_fit l k cls X y :
  preserves (kernel_is l k) (GaussianProcess.fit cls X y).
Proof.
  unfold GaussianProcess.fit.
  repeat first
    [ apply kernel_is_model_fit | apply kernel_is_get_noise
    | apply kernel_is_setattr | apply preserves_getattr | apply preserves_ret
    | apply preserves_bind; [|intros ?] ].
Qed.

End kernel_frames.

(** [update] writes the fitted hyperparameters into the kernel object the
    instance was constructed with, before it refits. *)
Lemma update_writes_kernel `{Backend} cls st X0 y0 new_X new_y
    n m sx p q sy l l_ k k_ kv restarts tr :
  self st !! "X" = Some (VArr X0) →
  self st !! "y" = Some (VArr y0) →
  lookup_attr cls (self st) "kernel" = Some (VKernelRef l) →
  lookup_attr cls (self st) "train_restarts" = Some tr →
  lookup_attr cls (self st) "model" = Some (VRegressor kv restarts (Some l_)) →
  kernels st !! l = Some k →
  kernels st !! l_ = Some k_ →
  sklearn.same_structure k k_ = true →
  let new_y' := if decide (np.ndim y0 < np.ndim new_y)%nat
                then np.mk_nd [length (np.data new_y)] (np.data new_y)
                else new_y in
  np.shape X0 = n :: sx → np.shape new_X = m :: sx →
  np.shape y0 = p :: sy → np.shape new_y' = q :: sy →
  kernels (snd (GaussianProcess.update cls (VArr new_X) (VArr new_y) st)) !! l
  = Some k_.
Proof.
  intros HX Hy Hkernel Htr Hmodel Hk Hk_ Hsame new_y' HsX HsnX Hsy Hsny.
  assert (Hcat : ∀ a b n m s, np.shape a = n :: s → np.shape b = m :: s →
    concatenate (VArr a) (VArr b)
    = Ok (VArr (np.mk_nd ((n + m)%nat :: s) (np.data a ++ np.data b)))).
  { intros a b n' m' s Ha Hb. unfold concatenate. rewrite Ha, Hb.
    by rewrite decide_True. }
  pose proof (lookup_attr_instance cls _ _ _ HX) as HX'.
  pose proof (lookup_attr_instance cls _ _ _ Hy) as Hy'.
  assert (Hrun : ∃ st2,
    GaussianProcess.update cls (VArr new_X) (VArr new_y) st
    = GaussianProcess.fit cls
        (VArr (np.mk_nd ((n + m)%nat :: sx) (np.data X0 ++ np.data new_X)))
        (VArr (np.mk_nd ((p + q)%nat :: sy) (np.data y0 ++ np.data new_y'))) st2
    ∧ kernel_is l k_ st2).
  { eexists. split.
    - unfold GaussianProcess.update.
      mstep. rewrite (Hcat _ _ _ _ _ HsX HsnX). mstep.
      cbn [ndim_of]. mstep. mstep. mstep.
      assert (Hflat :
        (if decide (np.ndim y0 < np.ndim new_y)%nat
         then lift (flatten (VArr new_y)) else mret (VArr new_y)) st
        = (Ok (VArr new_y'), st)).
      { subst new_y'. by destruct (decide _). }
      erewrite run_bind by exact Hflat. cbn beta.
      mstep. rewrite (Hcat _ _ _ _ _ Hsy Hsny). mstep. mstep. mstep. mstep. mstep.
      unfold sklearn.set_params_from. rewrite Hsame. mstep. mstep.
      unfold GaussianProcess.create_model at 1.
      erewrite run_bind; [|do 3 mstep; reflexivity]. cbn beta.
      reflexivity.
    - unfold kernel_is. cbn [kernels snd]. apply lookup_insert_eq. }
  destruct Hrun as (st2 & -> & Hst2).
  exact (kernel_is_fit l k_ cls _ _ st2 Hst2).
Qed.

(** A default-constructed classical GP after its first [fit]. *)
Lemma default_constructed_and_fitted `{Backend} cls w restarts X y k_ w' :
  classical cls →
  extern "GaussianProcessRegressor.fit" [VKernel default_kernel; restarts; X; y] w
    = (Ok (VKernel k_), w') →
  (GaussianProcess.init cls restarts (VKernelRef (class_kernel_ref cls)) ≫= λ _,
   GaussianProcess.fit cls X y) (new_instance w [])
  = (Ok VNone,
     {| self :=
          <["noise_std" := VFloat (sqrt 1.0)]>
          (<["model" := VRegressor (VKernelRef (class_kernel_ref cls)) restarts
                          (Some 2%nat)]>
          (<["y" := y]>
          (<["X" := X]>
          (<["model" := VRegressor (VKernelRef (class_kernel_ref cls)) restarts None]>
          (<["kernel" := VKernelRef (class_kernel_ref cls)]>
          (<["noise_std" := VNone]>
          (<["train_restarts" := restarts]>
          (<["model" := VNone]> ∅))))))));
        kernels := <[2%nat := k_]> class_kernels;
        world := w';
        log := ["GaussianProcessRegressor.fit"%string] |}).
Proof.
  intros Hcls Hext.
  assert (Hclass : class_kernels !! class_kernel_ref cls = Some default_kernel)
    by (by destruct Hcls as [-> | ->]).
  erewrite run_bind; cycle 1.
  { unfold GaussianProcess.init, GaussianProcess.create_model.
    do 7 mstep. reflexivity. }
  cbn beta. unfold GaussianProcess.fit. do 4 mstep.
  erewrite run_bind; cycle 1.
  { unfold GaussianProcess.model_fit. mstep.
    erewrite run_bind; cycle 1.
    { erewrite run_bind by (apply run_read_kernel; exact Hclass). reflexivity. }
    cbn beta. mstep. mstep. reflexivity. }
  cbn beta.
  assert (Hfresh : fresh (dom (kernels (new_instance w []))) = 2%nat) by reflexivity.
  cbn [self kernels world log]. rewrite Hfresh.
  erewrite run_bind; cycle 1.
  { erewrite get_noise_reads_k2 with (k0 := default_kernel) (k := default_kernel);
      [|done| |reflexivity| |].
    - unfold GaussianProcess.noise_level_sqrt. simpl.
      rewrite decide_True by lra. reflexivity.
    - cbn [kernels new_instance with_kernels].
      rewrite lookup_insert_ne by (destruct Hcls as [-> | ->]; done). exact Hclass.
    - cbn [self]. by mlookup.
    - cbn [kernels new_instance with_kernels].
      rewrite lookup_insert_ne by (destruct Hcls as [-> | ->]; done). exact Hclass. }
  cbn beta. mstep. reflexivity.
Qed.

(** X9. The kernel object of a default-constructed classical GP is the
    class attribute itself: after [fit] and one [update] the class-level
    kernel, which was the default before, holds the hyperparameters the
    first [fit] found, whether or not the refit inside [update] succeeds. *)
Theorem update_rewrites_the_class_kernel `{Backend} cls w restarts X y new_X new_y
    k_ w' n m sx p q sy :
  classical cls →
  extern "GaussianProcessRegressor.fit"
    [VKernel default_kernel; restarts; VArr X; VArr y] w = (Ok (VKernel k_), w') →
  sklearn.same_structure default_kernel k_ = true →
  let new_y' := if decide (np.ndim y < np.ndim new_y)%nat
                then np.mk_nd [length (np.data new_y)] (np.data new_y)
                else new_y in
  np.shape X = n :: sx → np.shape new_X = m :: sx →
  np.shape y = p :: sy → np.shape new_y' = q :: sy →
  let fitted :=
    snd ((GaussianProcess.init cls restarts (VKernelRef (class_kernel_ref cls)) ≫= λ _,
          GaussianProcess.fit cls (VArr X) (VArr y)) (new_instance w [])) in
  kernels fitted !! class_kernel_ref cls = Some default_kernel
  ∧ kernels (snd (GaussianProcess.update cls (VArr new_X) (VArr new_y) fitted))
      !! class_kernel_ref cls = Some k_.
Proof.
  intros Hcls Hext Hsame new_y' HsX HsnX Hsy Hsny fitted. subst fitted.
  rewrite (default_constructed_and_fitted cls w restarts _ _ k_ w' Hcls Hext).
  cbn [snd].
  assert (Hclass : (<[2%nat := k_]> class_kernels : gmap nat Kernel)
                     !! class_kernel_ref cls = Some default_kernel).
  { rewrite lookup_insert_ne by (destruct Hcls as [-> | ->]; done).
    by destruct Hcls as [-> | ->]. }
  split; [exact Hclass|].
  eapply (update_writes_kernel cls _ X y new_X new_y n m sx p q sy
            (class_kernel_ref cls) 2 default_kernel k_);
    cbn [self kernels]; first [done | by mlookup | apply lookup_insert_eq].
Qed.

Lemma update_rewrites_the_class_kernel_witness :
  kernels (snd ((GaussianProcess.init L_GaussianProcess (VInt 10) (VKernelRef 0) ≫= λ _,
                 GaussianProcess.fit L_GaussianProcess
                   (VArr (np.mk_nd [2; 1]%nat [0; 1])) (VArr (np.mk_nd [2]%nat [0; 1])))
                  (@new_instance fitting_backend tt []))) !! 0%nat
  = Some default_kernel
  ∧ kernels (snd (GaussianProcess.update L_GaussianProcess
                    (VArr (np.mk_nd [1; 1]%nat [2])) (VArr (np.mk_nd [1]%nat [4]))
                    (snd ((GaussianProcess.init L_GaussianProcess (VInt 10)
                             (VKernelRef 0) ≫= λ _,
                           GaussianProcess.fit L_GaussianProcess
                             (VArr (np.mk_nd [2; 1]%nat [0; 1]))
                             (VArr (np.mk_nd [2]%nat [0; 1])))
                            (@new_instance fitting_backend tt []))))) !! 0%nat
  = Some fitted_kernel.
Proof.
  apply (update_rewrites_the_class_kernel (H := fitting_backend) L_GaussianProcess tt
           (VInt 10) (np.mk_nd [2; 1]%nat [0; 1]) (np.mk_nd [2]%nat [0; 1])
           (np.mk_nd [1; 1]%nat [2]) (np.mk_nd [1]%nat [4])
           fitted_kernel tt 2 1 [1%nat] 2 1 []); try reflexivity.
  by left.
Defined.

(** X10. On a classical GP that has been constructed but never fitted,
    [update] raises [AttributeError] (there is no [self.X] yet) and leaves
    the instance as it was. *)
Theorem update_before_fit_raises `{Backend} cls w ks args new_X new_y :
  classical cls →
  let st := snd (construct cls args (new_instance w ks)) in
  GaussianProcess.update cls new_X new_y st = (Raise AttributeError, st).
Proof.
  intros Hcls st.
  assert (HX : self st !! "X" = None).
  { subst st. apply (preserves_run (attr_is "X" None)); [|done].
    destruct Hcls as [-> | ->]; unfold construct, GaussianProcess.init,
      GaussianProcess.create_model; frame. }
  unfold GaussianProcess.update, getattr, mbind, M_bind, lookup_attr.
  rewrite HX. by destruct Hcls as [-> | ->].
Qed.

Lemma update_before_fit_raises_witness :
  GaussianProcess.update L_GaussianProcess
    (VArr (np.mk_nd [1; 1]%nat [2])) (VArr (np.mk_nd [1]%nat [4]))
    (snd (construct L_GaussianProcess [] (@new_instance echo_backend tt [])))
  = (Raise AttributeError,
     snd (construct L_GaussianProcess [] (@new_instance echo_backend tt []))).
Proof.
  apply (update_before_fit_raises (H := echo_backend) L_GaussianProcess tt [] []).
  by left.
Defined.

Lemma noise_level_sqrt_second_operand k :
  GaussianProcess.noise_level_sqrt k "k2"
  = match second_operand_noise k with
    | Some n => if decide (0 <= n) then Ok (VFloat (sqrt n)) else Raise NotModelled
    | None => Raise AttributeError
    end.
Proof.
  unfold GaussianProcess.noise_level_sqrt, sklearn.kernel_getattr.
  destruct k as [? []|? []|? []|a b|a b]; try done;
    destruct b as [? []|? []|? []|? ?|? ?]; done.
Qed.

(** X11. With the class kernel in its default state, construction with a
    kernel [k] followed by [fit] succeeds exactly when the second operand
    of the top-level sum or product of [k] is a white-noise kernel, and
    [noise_std] is then the root of its noise level; with any other kernel,
    [WhiteKernel() + RBF()] included, [fit] raises [AttributeError]. *)
Theorem fit_reads_noise_of_second_operand `{Backend} cls w X y k restarts k_ w' :
  classical cls →
  extern "GaussianProcessRegressor.fit" [VKernel k; restarts; X; y] w
    = (Ok (VKernel k_), w') →
  let run := (GaussianProcess.init cls restarts (VKernelRef 2) ≫= λ _,
              GaussianProcess.fit cls X y) (new_instance w [k]) in
  match second_operand_noise k with
  | Some n => 0 <= n →
              fst run = Ok VNone
              ∧ self (snd run) !! "noise_std" = Some (VFloat (sqrt n))
  | None => fst run = Raise AttributeError
  end.
Proof.
  intros Hcls Hext run.
  destruct (construct_and_fit cls w X y k restarts k_ w' Hcls Hext) as [Hres Hnoise].
  fold run in Hres, Hnoise. rewrite noise_level_sqrt_second_operand in Hres, Hnoise.
  destruct (second_operand_noise k) as [n|]; [|done].
  intros Hn. rewrite decide_True in Hres, Hnoise by done. split; [done|].
  by apply Hnoise.
Qed.

Lemma fit_reads_noise_of_second_operand_witness :
  fst ((GaussianProcess.init L_GaussianProcess (VInt 10) (VKernelRef 2) ≫= λ _,
        GaussianProcess.fit L_GaussianProcess
          (VArr (np.mk_nd [2; 1]%nat [0; 1])) (VArr (np.mk_nd [2]%nat [0; 1])))
         (@new_instance echo_backend tt
            [Sum (WhiteKernel 1 (5e-5, 5e-2)) (RBF 1 (1e-5, 1e5))]))
  = Raise AttributeError.
Proof.
  apply (fit_reads_noise_of_second_operand (H := echo_backend) L_GaussianProcess tt
           (VArr (np.mk_nd [2; 1]%nat [0; 1])) (VArr (np.mk_nd [2]%nat [0; 1]))
           (Sum (WhiteKernel 1 (5e-5, 5e-2)) (RBF 1 (1e-5, 1e5))) (VInt 10)
           (Sum (WhiteKernel 1 (5e-5, 5e-2)) (RBF 1 (1e-5, 1e5))) tt).
  - by left.
  - reflexivity.
Defined.

(** ** The single-output exact GP: what [fit] and [update] leave behind *)

Section gpr_frames.
Context `{Backend}.
Implicit Types (name : string) (o : option Val).

Lemma gpr_create_model_keeps name o :
  name ≠ "optimizer"%string → name ≠ "likelihood"%string → name ≠ "model"%string →
  preserves (attr_is name o) GaussianProcessRegression.create_model.
Proof.
  intros H1 H2 H3. unfold GaussianProcessRegression.create_model, gpytorch.check_rows.
  frame. all: try (apply preserves_setattr; done).
Qed.

Lemma gpr_train_iteration_keeps name o loss_0 :
  name ≠ "vec_loss"%string → name ≠ "noise_std"%string →
  preserves (attr_is name o)
    (gpytorch.train_iteration S_GaussianProcessRegression
       GaussianProcessRegression.variant loss_0).
Proof.
  intros H1 H2.
  unfold gpytorch.train_iteration, GaussianProcessRegression.variant,
    GaussianProcessRegression.get_noise, gpytorch.likelihood_noise_sqrt.
  cbn [gpytorch.forward gpytorch.targets gpytorch.get_noise].
  frame. all: try (apply preserves_setattr; done).
Qed.

Lemma gpr_train_loop_keeps name o n loss_0 last :
  name ≠ "vec_loss"%string → name ≠ "noise_std"%string →
  preserves (attr_is name o)
    (gpytorch.train_loop S_GaussianProcessRegression
       GaussianProcessRegression.variant n loss_0 last).
Proof.
  intros H1 H2. revert loss_0 last.
  induction n as [|n IH]; intros loss_0 last; cbn [gpytorch.train_loop].
  - apply preserves_ret.
  - apply preserves_bind; [by apply gpr_train_iteration_keeps|].
    intros [[loss ratio] stop]. destruct stop; [apply preserves_ret|].
    apply preserves_bind; [apply preserves_lift | intros; apply IH].
Qed.

End gpr_frames.

Section gpr_fit_facts.
Context `{Backend}.
Implicit Types (name : string) (o : option Val) (st : State).

(** What holds after the first statement holds at the end, when the rest
    preserves it. *)
Lemma established_by_prefix {A B} (I : State → Prop) (m : M A) (k : A → M B) st :
  (∀ a, preserves I (k a)) → I (snd (m st)) → I (snd ((m ≫= k) st)).
Proof.
  intros Hk Hm. unfold mbind, M_bind.
  destruct (m st) as [[a|e] st']; simpl in *; [by apply Hk | done].
Qed.

Lemma gpr_fit_body_keeps name o X y :
  is_none X || is_none y = true →
  name ≠ "optimizer"%string → name ≠ "likelihood"%string → name ≠ "model"%string →
  name ≠ "mll"%string → name ≠ "vec_loss"%string → name ≠ "noise_std"%string →
  preserves (attr_is name o) (GaussianProcessRegression.fit X y).
Proof.
  intros Hnone H1 H2 H3 H4 H5 H6.
  pose proof (gpr_create_model_keeps name o H1 H2 H3) as Hcreate.
  pose proof (λ n l0 la, gpr_train_loop_keeps name o n l0 la H5 H6) as Hloop.
  unfold GaussianProcessRegression.fit, gpytorch.fit. rewrite Hnone.
  unfold GaussianProcessRegression.variant at 1 2.
  cbn [gpytorch.create_model gpytorch.mll_class].
  frame. all: try (apply preserves_setattr; done).
Qed.

(** [fit] with both arguments stores them first; nothing after that
    assigns [train_X] or [train_y]. *)
Lemma gpr_fit_stores_dataset X y st :
  is_none X || is_none y = false →
  self (snd (GaussianProcessRegression.fit X y st)) !! "train_X" = Some X
  ∧ self (snd (GaussianProcessRegression.fit X y st)) !! "train_y" = Some y.
Proof.
  intros Hsome.
  assert (Htail : ∀ name o,
    name ≠ "optimizer"%string → name ≠ "likelihood"%string → name ≠ "model"%string →
    name ≠ "mll"%string → name ≠ "vec_loss"%string → name ≠ "noise_std"%string →
    ∀ u : unit, preserves (attr_is name o)
      (gpytorch.create_model GaussianProcessRegression.variant ≫= λ _,
       model ← getattr S_GaussianProcessRegression "model";
       method model "model.train" [];;
       likelihood ← getattr S_GaussianProcessRegression "likelihood";
       method likelihood "likelihood.train" [];;
       optimizer ← getattr S_GaussianProcessRegression "optimizer";
       (if is_none optimizer then
          model ← getattr S_GaussianProcessRegression "model";
          parameters ← method model "model.parameters" [];
          lr ← getattr S_GaussianProcessRegression "learning_rate";
          optimizer ← call "torch.optim.Adam" [parameters; lr];
          setattr "optimizer" optimizer
        else mret tt);;
       likelihood ← getattr S_GaussianProcessRegression "likelihood";
       model ← getattr S_GaussianProcessRegression "model";
       mll ← call (gpytorch.mll_class GaussianProcessRegression.variant)
               [likelihood; model];
       setattr "mll" mll;;
       setattr "vec_loss" (VList []);;
       max_iter ← getattr S_GaussianProcessRegression "training_max_iter";
       n ← lift (as_int max_iter);
       last ← gpytorch.train_loop S_GaussianProcessRegression
                GaussianProcessRegression.variant (Z.to_nat n) (VF64 infinity) None;
       match last with
       | None => raise UnboundLocalError
       | Some _ => print;; mret VNone
       end)).
  { intros name o H1 H2 H3 H4 H5 H6 u.
    pose proof (gpr_create_model_keeps name o H1 H2 H3) as Hcreate.
    pose proof (λ n l0 la, gpr_train_loop_keeps name o n l0 la H5 H6) as Hloop.
    unfold GaussianProcessRegression.variant at 1 2.
    cbn [gpytorch.create_model gpytorch.mll_class].
    frame. all: try (apply preserves_setattr; done). }
  unfold GaussianProcessRegression.fit, gpytorch.fit. rewrite Hsome.
  unfold GaussianProcessRegression.variant at 1 2. cbn [gpytorch.store].
  split.
  - apply (established_by_prefix (attr_is "train_X" (Some X))); [by apply Htail|].
    unfold GaussianProcessRegression.variant, attr_is. cbn [gpytorch.store].
    msimpl. by mlookup.
  - apply (established_by_prefix (attr_is "train_y" (Some y))); [by apply Htail|].
    unfold GaussianProcessRegression.variant, attr_is. cbn [gpytorch.store].
    msimpl. by mlookup.
Qed.

End gpr_fit_facts.

(** X12. [fit(X, y)] of the single-output exact GP with arrays whose numbers
    of rows differ raises [ValueError] without calling any library, after it
    has stored the two arrays and reset the optimizer: the rejected data
    replace the stored ones, everything else is as before. *)
Theorem fit_rejects_mismatched_rows `{Backend} (st : State) (X y : Val) (a b : nat) :
  is_none X = false → is_none y = false →
  shape_at X 0 = Ok a → shape_at y 0 = Ok b → a ≠ b →
  GaussianProcessRegression.fit X y st
  = (Raise ValueError,
     {| self := <["optimizer" := VNone]>
                  (<["train_y" := y]> (<["train_X" := X]> (self st)));
        kernels := kernels st; world := world st; log := log st |}).
Proof.
  intros HX Hy Ha Hb Hab.
  unfold GaussianProcessRegression.fit, gpytorch.fit. rewrite HX, Hy. cbn [orb].
  unfold GaussianProcessRegression.variant.
  cbn [gpytorch.store gpytorch.create_model].
  unfold GaussianProcessRegression.create_model, gpytorch.check_rows.
  msimpl. mlookup. rewrite Hb. msimpl. mlookup. rewrite Ha. msimpl.
  rewrite decide_True by done. reflexivity.
Qed.

Lemma fit_rejects_mismatched_rows_witness :
  GaussianProcessRegression.fit
    (VArr (np.mk_nd [2; 1]%nat [0; 1])) (VArr (np.mk_nd [3]%nat [0; 1; 2])) gpr_example
  = (Raise ValueError,
     {| self := <["optimizer" := VNone]>
                  (<["train_y" := VArr (np.mk_nd [3]%nat [0; 1; 2])]>
                     (<["train_X" := VArr (np.mk_nd [2; 1]%nat [0; 1])]>
                        (self gpr_example)));
        kernels := kernels gpr_example; world := world gpr_example;
        log := log gpr_example |}).
Proof.
  apply (fit_rejects_mismatched_rows (H := stalling_backend) gpr_example
           (VArr (np.mk_nd [2; 1]%nat [0; 1])) (VArr (np.mk_nd [3]%nat [0; 1; 2])) 2 3);
    (reflexivity || lia).
Defined.

(** X13. When either argument of [fit] is [None], the stored [train_X] and
    [train_y] are left as they are, in every outcome: an argument given alone
    is ignored. *)
Theorem fit_without_both_arguments_keeps_dataset `{Backend} (st : State) (X y : Val) :
  is_none X || is_none y = true →
  self (snd (GaussianProcessRegression.fit X y st)) !! "train_X" = self st !! "train_X"
  ∧ self (snd (GaussianProcessRegression.fit X y st)) !! "train_y" = self st !! "train_y".
Proof.
  intros Hnone. split.
  - apply (preserves_run (attr_is "train_X" (self st !! "train_X"))); [|done].
    by apply gpr_fit_body_keeps.
  - apply (preserves_run (attr_is "train_y" (self st !! "train_y"))); [|done].
    by apply gpr_fit_body_keeps.
Qed.

Lemma fit_without_both_arguments_keeps_dataset_witness :
  self (snd (GaussianProcessRegression.fit (VArr (np.mk_nd [1; 1]%nat [7])) VNone
               gpr_example)) !! "train_X"
  = self gpr_example !! "train_X"
  ∧ self (snd (GaussianProcessRegression.fit (VArr (np.mk_nd [1; 1]%nat [7])) VNone
                 gpr_example)) !! "train_y"
    = self gpr_example !! "train_y".
Proof.
  apply (fit_without_both_arguments_keeps_dataset (H := stalling_backend) gpr_example).
  reflexivity.
Defined.

(** X14. [update(new_X, new_y)] of the single-output exact GP leaves in
    [train_X] and [train_y] the stored arrays followed by the new ones,
    whether or not the training that follows succeeds. *)
Theorem gpr_update_extends_dataset `{Backend} (st : State) (X0 y0 new_X new_y : ndarray)
    (n m p q : nat) (sx sy : list nat) :
  lookup_attr S_GaussianProcessRegression (self st) "train_X" = Some (VArr X0) →
  lookup_attr S_GaussianProcessRegression (self st) "train_y" = Some (VArr y0) →
  np.shape X0 = n :: sx → np.shape new_X = m :: sx →
  np.shape y0 = p :: sy → np.shape new_y = q :: sy →
  let st' := snd (GaussianProcessRegression.update (VArr new_X) (VArr new_y) st) in
  self st' !! "train_X"
    = Some (VArr (np.mk_nd ((n + m)%nat :: sx) (np.data X0 ++ np.data new_X)))
  ∧ self st' !! "train_y"
    = Some (VArr (np.mk_nd ((p + q)%nat :: sy) (np.data y0 ++ np.data new_y))).
Proof.
  intros HX Hy HsX HsnX Hsy Hsny st'. subst st'.
  assert (Hcat : ∀ a b n m s, np.shape a = n :: s → np.shape b = m :: s →
    concatenate (VArr a) (VArr b)
    = Ok (VArr (np.mk_nd ((n + m)%nat :: s) (np.data a ++ np.data b)))).
  { intros a b n' m' s Ha Hb. unfold concatenate. rewrite Ha, Hb.
    by rewrite decide_True. }
  assert (Hrun : ∃ st2,
    GaussianProcessRegression.update (VArr new_X) (VArr new_y) st
    = GaussianProcessRegression.fit
        (VArr (np.mk_nd ((n + m)%nat :: sx) (np.data X0 ++ np.data new_X)))
        (VArr (np.mk_nd ((p + q)%nat :: sy) (np.data y0 ++ np.data new_y))) st2).
  { eexists. unfold GaussianProcessRegression.update, gpytorch.update.
    mstep. rewrite (Hcat _ _ _ _ _ HsX HsnX). mstep.
    mstep. rewrite (Hcat _ _ _ _ _ Hsy Hsny). mstep. mstep. reflexivity. }
  destruct Hrun as [st2 ->]. by apply gpr_fit_stores_dataset.
Qed.

Lemma gpr_update_extends_dataset_witness :
  self (snd (GaussianProcessRegression.update
               (VArr (np.mk_nd [1; 1]%nat [2])) (VArr (np.mk_nd [1]%nat [4]))
               gpr_example)) !! "train_X"
    = Some (VArr (np.mk_nd [3; 1]%nat [0; 1; 2]))
  ∧ self (snd (GaussianProcessRegression.update
                 (VArr (np.mk_nd [1; 1]%nat [2])) (VArr (np.mk_nd [1]%nat [4]))
                 gpr_example)) !! "train_y"
    = Some (VArr (np.mk_nd [3]%nat [0; 1; 4])).
Proof.
  apply (gpr_update_extends_dataset (H := stalling_backend) gpr_example
           (np.mk_nd [2; 1]%nat [0; 1]) (np.mk_nd [2]%nat [0; 1])
           (np.mk_nd [1; 1]%nat [2]) (np.mk_nd [1]%nat [4]) 2 1 2 1 [1%nat] []);
    reflexivity.
Defined.

Section call_counts.
Context `{Backend}.
Implicit Types (name fn : string) (c : nat).

Lemma calls_to_setattr name c a v :
  preserves (λ st, calls_to name (log st) = c) (setattr a v).
Proof. by intros st Hst. Qed.

Lemma calls_to_call name c fn args :
  fn ≠ name → preserves (λ st, calls_to name (log st) = c) (call fn args).
Proof.
  intros Hne st Hst. unfold call. destruct (extern _ _ _) as [r w]. cbn.
  apply String.eqb_neq in Hne. by rewrite Hne.
Qed.

Lemma calls_to_method name c obj fn args :
  fn ≠ name → preserves (λ st, calls_to name (log st) = c) (method obj fn args).
Proof.
  intros Hne. destruct obj; simpl; first [apply preserves_raise | by apply calls_to_call].
Qed.

Lemma calls_to_print name c :
  name ≠ "print"%string → preserves (λ st, calls_to name (log st) = c) print.
Proof.
  intros Hne. apply preserves_bind; [by apply calls_to_call | intros; apply preserves_ret].
Qed.

(** The training loop creates no optimiser. *)
Lemma train_iteration_builds_no_adam c loss_0 :
  preserves (λ st, calls_to "torch.optim.Adam" (log st) = c)
    (gpytorch.train_iteration S_GaussianProcessRegression
       GaussianProcessRegression.variant loss_0).
Proof.
  unfold gpytorch.train_iteration, GaussianProcessRegression.variant,
    GaussianProcessRegression.get_noise, gpytorch.likelihood_noise_sqrt.
  cbn [gpytorch.forward gpytorch.targets gpytorch.get_noise].
  repeat first
    [ apply preserves_bind; [|intros ?]
    | apply preserves_getattr | apply preserves_lift | apply preserves_ret
    | apply calls_to_setattr
    | apply calls_to_method; done | apply calls_to_call; done | apply calls_to_print; done
    | match goal with |- preserves _ (if ?x then _ else _) => destruct x end ].
Qed.

Lemma train_loop_builds_no_adam c n loss_0 last :
  preserves (λ st, calls_to "torch.optim.Adam" (log st) = c)
    (gpytorch.train_loop S_GaussianProcessRegression
       GaussianProcessRegression.variant n loss_0 last).
Proof.
  revert loss_0 last. induction n as [|n IH]; intros loss_0 last; cbn [gpytorch.train_loop].
  - apply preserves_ret.
  - apply preserves_bind; [apply train_iteration_builds_no_adam|].
    intros [[loss ratio] stop]. destruct stop; [apply preserves_ret|].
    apply preserves_bind; [apply preserves_lift | intros; apply IH].
Qed.

Lemma wp_preserves {A} (I : State → Prop) (m : M A) (Q : result A → State → Prop) st :
  preserves I m → I st → (∀ r st', I st' → Q r st') → wp m Q st.
Proof. intros Hm Hst HQ. apply HQ, Hm, Hst. Qed.

End call_counts.

(** X15. Whatever optimizer the instance holds, every [fit] of the
    single-output exact GP that returns has created exactly one
    [torch.optim.Adam]: [create_model] resets [self.optimizer] first, so an
    optimizer supplied by the caller is never used. *)
Theorem fit_always_builds_adam `{Backend} (st : State) (X y : Val) :
  wp (GaussianProcessRegression.fit X y)
     (λ r st', match r with
               | Ok _ => calls_to "torch.optim.Adam" (log st')
                         = S (calls_to "torch.optim.Adam" (log st))
               | Raise _ => True
               end) st.
Proof.
  unfold GaussianProcessRegression.fit, gpytorch.fit.
  unfold GaussianProcessRegression.variant.
  cbn [gpytorch.store gpytorch.create_model gpytorch.mll_class].
  unfold GaussianProcessRegression.create_model, gpytorch.check_rows.
  wp_run. all: try done.
  all: try (eapply (wp_preserves
              (λ st', calls_to "torch.optim.Adam" (log st')
                      = S (calls_to "torch.optim.Adam" (log st))));
            [apply train_loop_builds_no_adam | reflexivity |];
            intros [[last|]|e] st1 Hst1; [|done|done];
            wp_run; done).
Qed.

(** X16. With [training_max_iter <= 0], consistent data and every library
    call succeeding, [fit] raises [UnboundLocalError]: the loop body never
    binds [loss], which the statements after the loop read. No optimizer step
    has been taken. *)
Theorem fit_without_iterations_raises `{Backend} (st : State) (X y lr : Val)
    (a : nat) (z : Z) :
  (∀ name args w, ∃ h w', extern name args w = (Ok (VObj h), w')) →
  is_none X = false → is_none y = false →
  shape_at X 0 = Ok a → shape_at y 0 = Ok a →
  lookup_attr S_GaussianProcessRegression (self st) "learning_rate" = Some lr →
  lookup_attr S_GaussianProcessRegression (self st) "training_max_iter"
    = Some (VInt z) →
  (z <= 0)%Z →
  wp (GaussianProcessRegression.fit X y)
     (λ r st', r = Raise UnboundLocalError
               ∧ optimizer_steps (log st') = optimizer_steps (log st)) st.
Proof.
  intros Hlib HX Hy HsX Hsy Hlr Hmax Hz.
  unfold GaussianProcessRegression.fit, gpytorch.fit. rewrite HX, Hy. cbn [orb].
  unfold GaussianProcessRegression.variant.
  cbn [gpytorch.store gpytorch.create_model gpytorch.mll_class].
  unfold GaussianProcessRegression.create_model, gpytorch.check_rows.
  wp_run.
  all: repeat match goal with
       | Hx : extern ?name ?args ?w = (_, _) |- _ =>
           let h := fresh "h" in let w' := fresh "w" in let Hok := fresh "Hok" in
           destruct (Hlib name args w) as (h & w' & Hok);
           rewrite Hok in Hx; first [discriminate | injection Hx as <- <-];
           clear Hok
       end.
  all: try congruence.
  all: try match goal with
       | Hi : as_int (VInt _) = Ok _ |- _ => injection Hi as <-
       end.
  all: try (replace (Z.to_nat z) with 0%nat by lia; cbn [gpytorch.train_loop]; wp_run).
  all: split; [done|]; cbn [log optimizer_steps]; simpl String.eqb; cbn beta iota; lia.
Qed.

Lemma fit_without_iterations_raises_witness :
  wp (GaussianProcessRegression.fit
        (VArr (np.mk_nd [2; 1]%nat [0; 1])) (VArr (np.mk_nd [2]%nat [0; 1])))
     (λ r st', r = Raise UnboundLocalError
               ∧ optimizer_steps (log st') = optimizer_steps (log gpr_no_iterations))
     gpr_no_iterations.
Proof.
  apply (fit_without_iterations_raises (H := handle_backend) gpr_no_iterations
           (VArr (np.mk_nd [2; 1]%nat [0; 1])) (VArr (np.mk_nd [2]%nat [0; 1]))
           (VFloat 0.1) 2 0);
    first [reflexivity | lia | intros name args w; by exists 0%nat, w].
Defined.

(** ** The multi-output exact GPs *)

Section prediction_attribute.
Context `{Backend}.

(** No constructor of a single-model exact GP assigns [self.prediction]. *)
Lemma construct_leaves_prediction_unset cls args :
  In cls [S_GaussianProcessRegression; L_BatchIndependentGaussianProcess;
          S_BatchIndependentGaussianProcess; L_MultiTaskGaussianProcess;
          S_MultiTaskGaussianProcess; S_DeepKernelMultiTaskGaussianProcess] →
  preserves (attr_is "prediction" None) (construct cls args).
Proof.
  intros Hcls. cbn [In] in Hcls.
  destruct Hcls as [<-|[<-|[<-|[<-|[<-|[<-|[]]]]]]];
    unfold construct, required, GaussianProcessRegression.init,
      MultiTaskGaussianProcess.init, DeepKernelMultiTaskGaussianProcess.init,
      gpytorch.init_common, gpytorch.init_warnings, set_fast_pred_var,
      GaussianProcessRegression.create_model, MultiTaskGaussianProcess.create_model,
      DeepKernelMultiTaskGaussianProcess.create_model,
      MultiTaskGaussianProcess.create_likelihood, gpytorch.check_rows;
    cbn [second_generation]; frame.
Qed.

End prediction_attribute.

(** X17. On a single-model exact GP that has just been constructed,
    [sample_posterior] never returns: the constructor initialises
    [self.predictions] while [sample_posterior] reads [self.prediction], so
    it raises [AttributeError] unless a library call has raised before. *)
Theorem sample_posterior_before_predict `{Backend} cls w ks args n_samples :
  In cls [S_GaussianProcessRegression; L_BatchIndependentGaussianProcess;
          S_BatchIndependentGaussianProcess; L_MultiTaskGaussianProcess;
          S_MultiTaskGaussianProcess; S_DeepKernelMultiTaskGaussianProcess] →
  wp (gpytorch.sample_posterior cls n_samples)
     (λ r st', r = Raise AttributeError
               ∨ ∃ e name args' w0 w1,
                   r = Raise e ∧ extern name args' w0 = (Raise e, w1))
     (snd (construct cls args (new_instance w ks))).
Proof.
  intros Hcls.
  pose proof (construct_leaves_prediction_unset cls args Hcls
                (new_instance w ks) eq_refl) as Hunset.
  set (st := snd (construct cls args (new_instance w ks))) in *.
  assert (Hpred : lookup_attr cls (self st) "prediction" = None).
  { unfold lookup_attr. unfold attr_is in Hunset. rewrite Hunset.
    cbn [In] in Hcls. by destruct Hcls as [<-|[<-|[<-|[<-|[<-|[<-|[]]]]]]]. }
  clearbody st. unfold gpytorch.sample_posterior.
  wp_run.
  all: first [ by left | right; by do 5 eexists ].
Qed.

Lemma sample_posterior_before_predict_witness :
  wp (gpytorch.sample_posterior S_GaussianProcessRegression (VInt 1))
     (λ r st', r = Raise AttributeError
               ∨ ∃ e name args' w0 w1,
                   r = Raise e ∧ @extern handle_backend name args' w0 = (Raise e, w1))
     (snd (construct S_GaussianProcessRegression
             [VArr (np.mk_nd [2; 1]%nat [0; 1]); VArr (np.mk_nd [2]%nat [0; 1])]
             (@new_instance handle_backend tt []))).
Proof.
  apply (sample_posterior_before_predict (H := handle_backend)
           S_GaussianProcessRegression tt []
           [VArr (np.mk_nd [2; 1]%nat [0; 1]); VArr (np.mk_nd [2]%nat [0; 1])] (VInt 1)).
  by left.
Defined.

(** X18. The constructor of [ModelListGaussianProcess] raises [ValueError]
    when [model_names] or [list_params] is [None], the latter being the
    default of the signature; it has then made no library call and
    [self.model] is [None]. *)
Theorem model_list_requires_names_and_params `{Backend} cls (st : State)
    (train_X train_y model_names training_max_iter learning_rate min_loss_rate
     optimizer mean covar list_params show_progress silence_warnings
     fast_pred_var : Val) :
  cls = L_ModelListGaussianProcess ∨ cls = S_ModelListGaussianProcess →
  is_none model_names || is_none list_params = true →
  let run := ModelListGaussianProcess.init cls train_X train_y model_names
               training_max_iter learning_rate min_loss_rate optimizer mean covar
               list_params show_progress silence_warnings fast_pred_var st in
  fst run = Raise ValueError
  ∧ self (snd run) !! "model" = Some VNone
  ∧ world (snd run) = world st ∧ log (snd run) = log st.
Proof.
  intros Hcls Hnone run. subst run.
  match goal with
  | |- fst (?m st) = _ ∧ _ =>
      change (wp m (λ r st', r = Raise ValueError ∧ self st' !! "model" = Some VNone
                             ∧ world st' = world st ∧ log st' = log st) st)
  end.
  unfold ModelListGaussianProcess.init, gpytorch.init_common, set_fast_pred_var.
  destruct (is_none model_names) eqn:Hnames; cbn [orb] in Hnone.
  all: destruct Hcls as [-> | ->]; cbn [second_generation];
    repeat (wp_step; rewrite ?Hnames, ?Hnone).
  all: repeat split; by mlookup.
Qed.

Lemma model_list_requires_names_and_params_witness :
  fst (construct S_ModelListGaussianProcess
         [VArr (np.mk_nd [2; 1]%nat [0; 1]); VArr (np.mk_nd [2; 1]%nat [0; 1]);
          VList [VStr "a"]]
         (@new_instance handle_backend tt [])) = Raise ValueError
  ∧ self (snd (construct S_ModelListGaussianProcess
                 [VArr (np.mk_nd [2; 1]%nat [0; 1]); VArr (np.mk_nd [2; 1]%nat [0; 1]);
                  VList [VStr "a"]]
                 (@new_instance handle_backend tt []))) !! "model" = Some VNone
  ∧ world (snd (construct S_ModelListGaussianProcess
                  [VArr (np.mk_nd [2; 1]%nat [0; 1]); VArr (np.mk_nd [2; 1]%nat [0; 1]);
                   VList [VStr "a"]]
                  (@new_instance handle_backend tt [])))
    = world (@new_instance handle_backend tt [])
  ∧ log (snd (construct S_ModelListGaussianProcess
                [VArr (np.mk_nd [2; 1]%nat [0; 1]); VArr (np.mk_nd [2; 1]%nat [0; 1]);
                 VList [VStr "a"]]
                (@new_instance handle_backend tt [])))
    = log (@new_instance handle_backend tt []).
Proof.
  apply (model_list_requires_names_and_params (H := handle_backend)
           S_ModelListGaussianProcess (@new_instance handle_backend tt [])
           (VArr (np.mk_nd [2; 1]%nat [0; 1])) (VArr (np.mk_nd [2; 1]%nat [0; 1]))
           (VList [VStr "a"]) (VInt 100) (VFloat 0.1) VNone VNone VNone VNone VNone
           (VBool true) (VBool false) (VBool false)).
  - by right.
  - reflexivity.
Defined.

(** ** Neural-network surrogates: missing models and missing data *)

(** X19. A [Vanilla_NN] or [Vanilla_BayesianNN] comes out of its constructor
    without a model: [fit] called next raises [AttributeError] before any
    library call, and [update] called next never returns, raising
    [AttributeError] whenever the library calls it makes succeed. *)
Theorem vanilla_networks_need_create_model `{Backend} cls args w ks X y :
  cls = S_Vanilla_NN ∨ cls = S_Vanilla_BayesianNN →
  let st := snd (construct cls args (new_instance w ks)) in
  wp (invoke_fit cls [X; y])
     (λ r st', r = Raise AttributeError ∧ log st' = log st) st
  ∧ wp (invoke_update cls [X; y])
       (λ r st', ∃ e, r = Raise e
                      ∧ ((∀ name args w, ∃ v w', extern name args w = (Ok v, w'))
                         → e = AttributeError)) st.
Proof.
  intros Hcls st. subst st.
  destruct Hcls as [-> | ->].
  all: unfold construct, Vanilla_NN.init, Vanilla_BayesianNN.init; msimpl.
  all: split.
  all: unfold invoke_fit, invoke_update, required, Vanilla_NN.fit, Vanilla_NN.update,
         Vanilla_BayesianNN.fit, Vanilla_BayesianNN.update; cbn [lookup list_lookup].
  all: repeat (wp_step; cbn [is_none]).
  all: try done.
  all: eexists; split; [reflexivity|]; intros Hlib; try done.
  all: match goal with
       | Hx : extern ?name ?args ?w = (Raise _, _) |- _ =>
           destruct (Hlib name args w) as (? & ? & Hok); rewrite Hok in Hx; discriminate
       end.
Qed.

Lemma vanilla_networks_need_create_model_witness :
  wp (invoke_fit S_Vanilla_NN [VArr (np.mk_nd [1; 2]%nat [0; 1]); VArr (np.array1 [3])])
     (λ r st', r = Raise AttributeError
               ∧ log st' = log (snd (construct S_Vanilla_NN []
                                       (@new_instance echo_backend tt []))))
     (snd (construct S_Vanilla_NN [] (@new_instance echo_backend tt [])))
  ∧ wp (invoke_update S_Vanilla_NN
          [VArr (np.mk_nd [1; 2]%nat [0; 1]); VArr (np.array1 [3])])
       (λ r st', ∃ e, r = Raise e
                      ∧ ((∀ name args w,
                            ∃ v w', @extern echo_backend name args w = (Ok v, w'))
                         → e = AttributeError))
       (snd (construct S_Vanilla_NN [] (@new_instance echo_backend tt []))).
Proof.
  apply (vanilla_networks_need_create_model (H := echo_backend) S_Vanilla_NN [] tt []).
  by left.
Defined.

Section data_attribute.
Context `{Backend}.

(** No method of [NN] and of [Prob_NN] assigns [self.X]. *)
Lemma networks_store_no_input cls :
  cls = L_NN ∨ cls = L_Prob_NN →
  (∀ args, preserves (attr_is "X" None) (construct cls args))
  ∧ (∀ op, preserves (attr_is "X" None) (invoke cls op)).
Proof.
  intros [-> | ->]; split; try intros args; try intros [args|args|args|args].
  all: unfold construct, invoke, invoke_create_model, invoke_fit, invoke_predict,
         invoke_update, required, NN.init, NN.create_model, NN.fit, NN.predict,
         NN.update, Prob_NN.init, Prob_NN.create_model, Prob_NN.fit, Prob_NN.predict,
         Prob_NN.update, monte_carlo, promote_row.
  all: frame.
Qed.

End data_attribute.

(** X20. [get_fmin] of [NN] and of [Prob_NN] raises [AttributeError] and
    changes nothing, whatever sequence of [create_model], [fit], [predict]
    and [update] calls the instance has been through since its
    construction: it reads [self.X], which none of them assigns. *)
Theorem get_fmin_always_raises `{Backend} cls args ops w ks :
  cls = L_NN ∨ cls = L_Prob_NN →
  let st := lifetime cls args ops (new_instance w ks) in
  get_fmin cls st = (Raise AttributeError, st).
Proof.
  intros Hcls st.
  destruct (networks_store_no_input cls Hcls) as [Hinit Hop].
  assert (HX : self st !! "X" = None).
  { subst st. unfold lifetime.
    pose proof (preserves_run _ _ (new_instance w ks) (Hinit args) eq_refl) as Hst.
    revert Hst. generalize (snd (construct cls args (new_instance w ks))).
    induction ops as [|op ops IH]; intros st Hst; cbn [run_ops]; [done|].
    apply IH. by apply (Hop op). }
  assert (HXa : lookup_attr cls (self st) "X" = None).
  { unfold lookup_attr. rewrite HX. by destruct Hcls as [-> | ->]. }
  clearbody st. unfold get_fmin. msimpl.
  destruct (lookup_attr cls (self st) "model") as [model|]; [|done].
  destruct model; unfold has_methods; msimpl; rewrite ?HXa; done.
Qed.

Lemma get_fmin_always_raises_witness :
  get_fmin L_NN
    (lifetime L_NN [] [fit [VArr (np.mk_nd [1; 2]%nat [0; 1]); VArr (np.array1 [3])]]
       (@new_instance echo_backend tt []))
  = (Raise AttributeError,
     lifetime L_NN [] [fit [VArr (np.mk_nd [1; 2]%nat [0; 1]); VArr (np.array1 [3])]]
       (@new_instance echo_backend tt [])).
Proof.
  apply (get_fmin_always_raises (H := echo_backend) L_NN []
           [fit [VArr (np.mk_nd [1; 2]%nat [0; 1]); VArr (np.array1 [3])]] tt []).
  by left.
Defined.
